(** * Double-entry ledger of [contable19.py]: model and verified properties

    The development embeds the backend class [ContabilidadApp] and the
    report computations of [ContabilidadGUI] as pure functions over an
    explicit store.  The store mirrors the two SQLite tables [Cuentas] and
    [Transacciones] (kept in rowid order) together with the in-memory
    dictionary [nombre_a_id].

    Conventions of the embedding:
    - a Python [(exito, mensaje)] pair is a Rocq pair [bool * option Mensaje];
      the messages are constructors of [Mensaje], one per message of the
      source, carrying the values the source interpolates;
    - [monto] (SQLite REAL, Python float) is an exact rational of [Q]; the
      literals 0.009 and 0.01 are [9 # 1000] and [1 # 100].  Binary64
      arithmetic rounds, so a theorem that equates two ways of adding
      amounts is stated for the journals of [montos_exactos], where the
      program's sums do not round;
    - a text is a [string] whose characters are code points below 256;
    - [str.upper] is the argument [upper] of the functions that call it,
      and stands for [str.upper] on the texts whose upper-case form stays
      below code point 256 (all but those holding U+00B5 or U+00FF);
    - [datetime.datetime.now()] is an argument [ahora] of the operations
      that read the clock, already formatted as [%Y-%m-%d %H:%M:%S]. *)

From Stdlib Require Import List String Ascii Bool Arith ZArith QArith Qabs.
From Stdlib Require Import Lia Lqa Sorted Permutation.
From Stdlib Require OrderedTypeEx.
Import ListNotations.

Local Open Scope string_scope.
Local Open Scope list_scope.
Local Open Scope Z_scope.

(** ** Text helpers: [str.strip] and [str.upper] *)

Module Texto.

(** [str.isspace] on one character with code point below 256. *)
Definition isspace (c : ascii) : bool :=
  let n := nat_of_ascii c in
  ((9 <=? n) && (n <=? 13) || (28 <=? n) && (n <=? 32)
   || (n =? 133) || (n =? 160))%nat.

Fixpoint lstrip (s : string) : string :=
  match s with
  | EmptyString => EmptyString
  | String c r => if isspace c then lstrip r else s
  end.

Fixpoint rstrip (s : string) : string :=
  match s with
  | EmptyString => EmptyString
  | String c r =>
      match rstrip r with
      | EmptyString => if isspace c then EmptyString else String c EmptyString
      | r' => String c r'
      end
  end.

(** [s.strip()] *)
Definition strip (s : string) : string := rstrip (lstrip s).

(** [str.upper] is not fixed here: every function of the program that
    calls it takes the case mapping as its argument [upper], and the
    theorems hold for every mapping, or for every idempotent one where
    they say so.  The worked ledgers are run with [upper_latin1] below. *)

(** [str.upper] on one character with code point below 256, other than
    U+00B5 and U+00FF, whose upper-case forms lie beyond 255: the letters
    a-z and U+00E0-U+00FE except U+00F7 move down by 32, and U+00DF
    becomes "SS". *)
Definition mayuscula (c : ascii) : string :=
  let n := nat_of_ascii c in
  if ((97 <=? n) && (n <=? 122))%nat
  then String (ascii_of_nat (n - 32)) EmptyString
  else if ((224 <=? n) && (n <=? 254) && negb (n =? 247))%nat
  then String (ascii_of_nat (n - 32)) EmptyString
  else if (n =? 223)%nat then String "S" (String "S" EmptyString)
  else String c EmptyString.

(** [s.upper()] on a text of such characters. *)
Fixpoint upper_latin1 (s : string) : string :=
  match s with
  | EmptyString => EmptyString
  | String c r => String.append (mayuscula c) (upper_latin1 r)
  end.

(** Last character of a text, when there is one. *)
Fixpoint ultimo (s : string) : option ascii :=
  match s with
  | EmptyString => None
  | String c EmptyString => Some c
  | String _ r => ultimo r
  end.

Definition primero (s : string) : option ascii :=
  match s with
  | EmptyString => None
  | String c _ => Some c
  end.

(** A text is trimmed when neither end is a whitespace character. *)
Definition recortado (s : string) : Prop :=
  (forall c, primero s = Some c -> isspace c = false) /\
  (forall c, ultimo s = Some c -> isspace c = false).

End Texto.

(** ** Python dictionaries, in insertion order *)

Module Dict.
Section Dict.
Context {K V : Type}.
Variable eqb : K -> K -> bool.

(** [d.get(k)] *)
Fixpoint get (d : list (K * V)) (k : K) : option V :=
  match d with
  | [] => None
  | (k', v) :: r => if eqb k' k then Some v else get r k
  end.

(** [d.get(k, dflt)] *)
Definition get_or (d : list (K * V)) (k : K) (dflt : V) : V :=
  match get d k with
  | Some v => v
  | None => dflt
  end.

(** [d[k] = v]: an existing key keeps its position, a new key is appended. *)
Fixpoint set (d : list (K * V)) (k : K) (v : V) : list (K * V) :=
  match d with
  | [] => [(k, v)]
  | (k', v') :: r =>
      if eqb k' k then (k', v) :: r else (k', v') :: set r k v
  end.

(** [del d[k]] for a key that may be absent (the caller tests [k in d]). *)
Fixpoint del (d : list (K * V)) (k : K) : list (K * V) :=
  match d with
  | [] => []
  | (k', v') :: r => if eqb k' k then r else (k', v') :: del r k
  end.

(** [k in d] *)
Definition mem (d : list (K * V)) (k : K) : bool :=
  match get d k with
  | Some _ => true
  | None => false
  end.
End Dict.
End Dict.

(** ** The store *)

(** A row of table [Cuentas]. *)
Record Cuenta : Type := mkCuenta {
  c_id : Z;
  c_nombre : string;
  c_tipo : string
}.

(** A row of table [Transacciones]. *)
Record Transaccion : Type := mkTransaccion {
  t_id : Z;
  t_fecha : string;
  t_descripcion : string;
  cuenta_debito_id : Z;
  cuenta_credito_id : Z;
  t_monto : Q;
  referencia_documento : option string;
  referencia_banco : option string
}.

(** The connection's tables, each in rowid order, and the attribute
    [self.nombre_a_id]. *)
Record Estado : Type := mkEstado {
  Cuentas : list Cuenta;
  Transacciones : list Transaccion;
  nombre_a_id : list (string * Z)
}.

(** [ContabilidadApp.__init__] on a fresh database file: both tables are
    created empty and the name map is built from no account. *)
Definition estado_inicial : Estado := mkEstado [] [] [].

(** [self.tipos_cuenta] *)
Definition tipos_cuenta : list string :=
  ["ACTIVO"; "PASIVO"; "CAPITAL"; "INGRESO"; "GASTO"].

(** [self.tipos_saldo_acreedor] *)
Definition tipos_saldo_acreedor : list string :=
  ["PASIVO"; "CAPITAL"; "INGRESO"].

(** [x in lista] for texts. *)
Definition en_lista (x : string) (l : list string) : bool :=
  existsb (String.eqb x) l.

(** ** The SQLite statements the program issues *)

Module SQL.

Inductive Error : Type :=
| IntegrityError
| OtroError.

(** SQLite enforces FOREIGN KEY clauses only on a connection that has run
    [PRAGMA foreign_keys = ON]; [conectar_db] and [inicializar_db] never
    issue it (the only PRAGMA of the program is [table_info]), so the two
    REFERENCES clauses of [Transacciones] are declared but not enforced. *)
Definition foreign_keys : bool := false.

(** Rowid given to a new row of a table with INTEGER PRIMARY KEY: one more
    than the largest rowid in use, 1 in an empty table. *)
Definition nuevo_rowid (ids : list Z) : Z :=
  Z.succ (fold_right Z.max 0 ids).

Definition existe_cuenta (s : Estado) (id : Z) : bool :=
  existsb (fun c => c_id c =? id) (Cuentas s).

Definition nombre_en_uso (s : Estado) (nombre : string) : bool :=
  existsb (fun c => String.eqb (c_nombre c) nombre) (Cuentas s).

(** [INSERT INTO Cuentas (nombre, tipo) VALUES (?, ?)]; the result carries
    [cursor.lastrowid].  [nombre] is UNIQUE. *)
Definition insert_cuenta (s : Estado) (nombre tipo : string)
  : Estado * (Error + Z) :=
  if nombre_en_uso s nombre then (s, inl IntegrityError)
  else
    let id := nuevo_rowid (map c_id (Cuentas s)) in
    (mkEstado (Cuentas s ++ [mkCuenta id nombre tipo])
              (Transacciones s) (nombre_a_id s), inr id).

(** [INSERT INTO Transacciones (fecha, descripcion, cuenta_debito_id,
    cuenta_credito_id, monto, referencia_documento, referencia_banco)
    VALUES (?, ?, ?, ?, ?, ?, ?)] *)
Definition insert_transaccion (s : Estado) (fecha descripcion : string)
    (debito_id credito_id : Z) (monto : Q)
    (ref_doc ref_banco : option string) : Estado * (Error + Z) :=
  if foreign_keys
     && negb (existe_cuenta s debito_id && existe_cuenta s credito_id)
  then (s, inl IntegrityError)
  else
    let id := nuevo_rowid (map t_id (Transacciones s)) in
    (mkEstado (Cuentas s)
              (Transacciones s ++
               [mkTransaccion id fecha descripcion debito_id credito_id
                              monto ref_doc ref_banco])
              (nombre_a_id s), inr id).

(** [SELECT COUNT( * ) FROM Transacciones
     WHERE cuenta_debito_id = ? OR cuenta_credito_id = ?] *)
Definition count_transacciones_de (s : Estado) (cuenta_id : Z) : nat :=
  List.length (filter (fun t => (cuenta_debito_id t =? cuenta_id)
                                || (cuenta_credito_id t =? cuenta_id))
                      (Transacciones s)).

(** [DELETE FROM Cuentas WHERE id = ?] *)
Definition delete_cuenta (s : Estado) (cuenta_id : Z) : Estado * (Error + unit) :=
  if foreign_keys && negb (count_transacciones_de s cuenta_id =? 0)%nat
  then (s, inl IntegrityError)
  else
    (mkEstado (filter (fun c => negb (c_id c =? cuenta_id)) (Cuentas s))
              (Transacciones s) (nombre_a_id s), inr tt).

(** [DELETE FROM Transacciones WHERE id = ?]: a statement that matches no
    row deletes nothing and raises nothing. *)
Definition delete_transaccion (s : Estado) (transaccion_id : Z)
  : Estado * (Error + unit) :=
  (mkEstado (Cuentas s)
            (filter (fun t => negb (t_id t =? transaccion_id)) (Transacciones s))
            (nombre_a_id s), inr tt).

(** [ORDER BY]: a stable insertion sort on the rows in scan order. *)
Section Orden.
Context {A : Type}.
Variable le : A -> A -> bool.

Fixpoint insertar (x : A) (l : list A) : list A :=
  match l with
  | [] => [x]
  | y :: r => if le x y then x :: l else y :: insertar x r
  end.

Fixpoint order_by (l : list A) : list A :=
  match l with
  | [] => []
  | x :: r => insertar x (order_by r)
  end.
End Orden.

(** [SELECT k, SUM(monto) FROM Transacciones GROUP BY k], read into a
    dictionary by [dict(cursor.fetchall())]. *)
Definition sum_monto_group_by (clave : Transaccion -> Z)
    (ts : list Transaccion) : list (Z * Q) :=
  fold_left
    (fun acc t =>
       match Dict.get Z.eqb acc (clave t) with
       | Some q => Dict.set Z.eqb acc (clave t) (q + t_monto t)%Q
       | None => Dict.set Z.eqb acc (clave t) (t_monto t)
       end)
    ts [].

End SQL.

(** ** Messages returned by the backend *)

Inductive ErrorFila : Type :=
| FilaDebitoNoExiste (fila : Z) (nombre : string)
| FilaCreditoNoExiste (fila : Z) (nombre : string)
| FilaMontoNoPositivo (fila : Z)
| FilaFormatoMonto (fila : Z)
| FilaErrorDesconocido (fila : Z).

(** The two error texts of [_ejecutar_consulta]. *)
Inductive ErrorConsulta : Type :=
| ErrorIntegridad
| ErrorBaseDatos.

Inductive Mensaje : Type :=
| MsgConsulta (error : ErrorConsulta)
| MsgNombreVacio
| MsgTipoInvalido
| MsgCuentaCreada (nombre tipo : string)
| MsgCuentaConTransacciones
| MsgCuentaEliminada
| MsgMismasCuentas
| MsgMontoNoPositivo
| MsgTransaccionEliminada (id : Z)
| MsgErrorAlEliminar (error : option ErrorConsulta)
| MsgFaltanColumnas
| MsgImportacionParcial (registradas : nat) (n_errores : nat)
                        (detalle : list ErrorFila) (resto : option nat)
| MsgImportacionExitosa (registradas : nat)
| MsgArchivoNoEncontrado
| MsgErrorProcesarExcel.

Definition Resultado : Type := bool * option Mensaje.

(** [ContabilidadApp._ejecutar_consulta]: the outcome of a statement turned
    into [(True, None)] or [(False, mensaje)]. *)
Definition _ejecutar_consulta {R : Type} (r : SQL.Error + R)
  : bool * option ErrorConsulta :=
  match r with
  | inr _ => (true, None)
  | inl SQL.IntegrityError => (false, Some ErrorIntegridad)
  | inl SQL.OtroError => (false, Some ErrorBaseDatos)
  end.

(** The pair [(exito, error)] of [_ejecutar_consulta] handed back unchanged. *)
Definition resultado_consulta (r : bool * option ErrorConsulta) : Resultado :=
  (fst r, option_map MsgConsulta (snd r)).

(** ** [ContabilidadApp]: accounts *)

Definition crear_cuenta (upper : string -> string)
    (nombre tipo : string) (s : Estado)
  : Estado * Resultado :=
  let nombre := upper (Texto.strip nombre) in
  let tipo := upper (Texto.strip tipo) in
  if String.eqb nombre "" then (s, (false, Some MsgNombreVacio))
  else if negb (en_lista tipo tipos_cuenta)
  then (s, (false, Some MsgTipoInvalido))
  else
    let '(s1, r) := SQL.insert_cuenta s nombre tipo in
    match r with
    | inr lastrowid =>
        (mkEstado (Cuentas s1) (Transacciones s1)
                  (Dict.set String.eqb (nombre_a_id s1) nombre lastrowid),
         (true, Some (MsgCuentaCreada nombre tipo)))
    | inl _ =>
        (s1, (false, option_map MsgConsulta (snd (_ejecutar_consulta r))))
    end.

(** [SELECT id, nombre, tipo FROM Cuentas ORDER BY tipo, nombre] *)
Definition obtener_cuentas (s : Estado) : list Cuenta :=
  SQL.order_by
    (fun a b =>
       match String.compare (c_tipo a) (c_tipo b) with
       | Lt => true
       | Eq => String.leb (c_nombre a) (c_nombre b)
       | Gt => false
       end)
    (Cuentas s).

Definition obtener_nombre_cuenta (s : Estado) (id : Z) : option string :=
  match filter (fun c => c_id c =? id) (Cuentas s) with
  | c :: _ => Some (c_nombre c)
  | [] => None
  end.

Definition eliminar_cuenta (upper : string -> string)
    (cuenta_id : Z) (s : Estado) : Estado * Resultado :=
  let count := SQL.count_transacciones_de s cuenta_id in
  if (0 <? count)%nat then (s, (false, Some MsgCuentaConTransacciones))
  else
    let nombre_cuenta := obtener_nombre_cuenta s cuenta_id in
    let '(s1, r) := SQL.delete_cuenta s cuenta_id in
    match r with
    | inr _ =>
        let mapa :=
          match nombre_cuenta with
          | Some n =>
              if negb (String.eqb n "")
                 && Dict.mem String.eqb (nombre_a_id s1) (upper n)
              then Dict.del String.eqb (nombre_a_id s1) (upper n)
              else nombre_a_id s1
          | None => nombre_a_id s1
          end in
        (mkEstado (Cuentas s1) (Transacciones s1) mapa,
         (true, Some MsgCuentaEliminada))
    | inl _ =>
        (s1, (false, option_map MsgConsulta (snd (_ejecutar_consulta r))))
    end.

(** ** [ContabilidadApp]: journal *)

(** [texto.strip() or None] *)
Definition strip_or_none (texto : string) : option string :=
  let r := Texto.strip texto in
  if String.eqb r "" then None else Some r.

Definition registrar_transaccion (ahora : string) (descripcion : string)
    (debito_id credito_id : Z) (monto : Q) (ref_doc ref_banco : string)
    (s : Estado) : Estado * Resultado :=
  if debito_id =? credito_id then (s, (false, Some MsgMismasCuentas))
  else if Qle_bool monto 0 then (s, (false, Some MsgMontoNoPositivo))
  else
    let fecha := ahora in
    let '(s1, r) :=
      SQL.insert_transaccion s fecha (Texto.strip descripcion)
        debito_id credito_id monto
        (strip_or_none ref_doc) (strip_or_none ref_banco) in
    (s1, resultado_consulta (_ejecutar_consulta r)).

(** A row of the journal view: the entry with the names of its accounts. *)
Record FilaDiario : Type := mkFilaDiario {
  d_id : Z;
  d_fecha : string;
  d_descripcion : string;
  d_monto : Q;
  nombre_debito : string;
  nombre_credito : string;
  d_ref_doc : option string;
  d_ref_banco : option string
}.

(** [SELECT ... FROM Transacciones T JOIN Cuentas CD ON T.cuenta_debito_id =
    CD.id JOIN Cuentas CC ON T.cuenta_credito_id = CC.id ORDER BY T.fecha
    DESC] *)
Definition obtener_transacciones_diario (s : Estado) : list FilaDiario :=
  SQL.order_by
    (fun a b => String.leb (d_fecha b) (d_fecha a))
    (flat_map
       (fun t =>
          flat_map
            (fun cd =>
               map (fun cc =>
                      mkFilaDiario (t_id t) (t_fecha t) (t_descripcion t)
                        (t_monto t) (c_nombre cd) (c_nombre cc)
                        (referencia_documento t) (referencia_banco t))
                   (filter (fun cc => cuenta_credito_id t =? c_id cc)
                           (Cuentas s)))
            (filter (fun cd => cuenta_debito_id t =? c_id cd) (Cuentas s)))
       (Transacciones s)).

Definition eliminar_transaccion (transaccion_id : Z) (s : Estado)
  : Estado * Resultado :=
  let '(s1, r) := SQL.delete_transaccion s transaccion_id in
  let '(exito, error) := _ejecutar_consulta r in
  if exito then (s1, (true, Some (MsgTransaccionEliminada transaccion_id)))
  else (s1, (false, Some (MsgErrorAlEliminar error))).

(** ** [ContabilidadApp]: balances and reports *)

(** [x < y] on amounts, as a boolean. *)
Definition Qlt_bool (x y : Q) : bool := negb (Qle_bool y x).

(** The literal [0.009]. *)
Definition epsilon : Q := 9 # 1000.

(** The literal [0.01]. *)
Definition tolerancia : Q := 1 # 100.

(** A value of the dictionary returned by [calcular_saldos]. *)
Record Saldo : Type := mkSaldo {
  nombre : string;
  tipo : string;
  saldo : Q
}.

Definition calcular_saldos (s : Estado) : list (Z * Saldo) :=
  let cuentas_data := Cuentas s in
  let saldos :=
    fold_left
      (fun d c => Dict.set Z.eqb d (c_id c) (mkSaldo (c_nombre c) (c_tipo c) 0))
      cuentas_data [] in
  let debitos := SQL.sum_monto_group_by cuenta_debito_id (Transacciones s) in
  let creditos := SQL.sum_monto_group_by cuenta_credito_id (Transacciones s) in
  (* the keys of a dictionary are distinct: assigning [saldos[id]["saldo"]]
     for each key in turn rewrites each item once, in place *)
  map (fun '(id, data) =>
         let total_debito := Dict.get_or Z.eqb debitos id 0%Q in
         let total_credito := Dict.get_or Z.eqb creditos id 0%Q in
         let saldo_neto := (total_debito - total_credito)%Q in
         (id, mkSaldo (nombre data) (tipo data) saldo_neto))
      saldos.

(** [SELECT ... FROM Transacciones T WHERE T.cuenta_debito_id = ? OR
    T.cuenta_credito_id = ? ORDER BY T.fecha ASC] *)
Definition obtener_movimientos_cuenta (s : Estado) (cuenta_id : Z)
  : list Transaccion :=
  SQL.order_by
    (fun a b => String.leb (t_fecha a) (t_fecha b))
    (filter (fun t => (cuenta_debito_id t =? cuenta_id)
                      || (cuenta_credito_id t =? cuenta_id))
            (Transacciones s)).

Record EstadoResultados : Type := mkEstadoResultados {
  ingresos_totales : Q;
  gastos_totales : Q;
  utilidad_perdida_neta : Q
}.

Definition calcular_estado_resultados (s : Estado) : EstadoResultados :=
  let saldos := calcular_saldos s in
  let '(ingresos, gastos) :=
    fold_left
      (fun '(ingresos, gastos) '(_, data) =>
         if String.eqb (tipo data) "INGRESO"
         then ((ingresos + Qabs (saldo data))%Q, gastos)
         else if String.eqb (tipo data) "GASTO"
         then (ingresos, (gastos + saldo data)%Q)
         else (ingresos, gastos))
      saldos (0%Q, 0%Q) in
  mkEstadoResultados ingresos gastos (ingresos - gastos)%Q.

Record BalanceGeneral : Type := mkBalanceGeneral {
  activo : Q;
  pasivo : Q;
  capital : Q;
  utilidad_neta : Q;
  pasivo_mas_capital_ajustado : Q
}.

Definition calcular_balance_general (s : Estado) : BalanceGeneral :=
  let saldos := calcular_saldos s in
  let estado_resultados := calcular_estado_resultados s in
  let utilidad := utilidad_perdida_neta estado_resultados in
  let '(total_activo, total_pasivo, total_capital) :=
    fold_left
      (fun '(a, p, c) '(_, data) =>
         if String.eqb (tipo data) "ACTIVO"
         then ((a + saldo data)%Q, p, c)
         else if String.eqb (tipo data) "PASIVO"
         then (a, (p + Qabs (saldo data))%Q, c)
         else if String.eqb (tipo data) "CAPITAL"
         then (a, p, (c + Qabs (saldo data))%Q)
         else (a, p, c))
      saldos (0%Q, 0%Q, 0%Q) in
  let total_capital_ajustado := (total_capital + utilidad)%Q in
  let total_pasivo_mas_capital_ajustado :=
    (total_pasivo + total_capital_ajustado)%Q in
  mkBalanceGeneral total_activo total_pasivo total_capital utilidad
                   total_pasivo_mas_capital_ajustado.

(** [ContabilidadGUI.actualizar_balance_general], the label of the
    accounting equation: [true] is "SI". *)
Definition cuadre_balance_general (s : Estado) : bool :=
  let datos := calcular_balance_general s in
  Qlt_bool (Qabs (activo datos - pasivo_mas_capital_ajustado datos)) tolerancia.

(** ** Trial balance *)

Record FilaBalance : Type := mkFilaBalance {
  b_nombre : string;
  b_tipo : string;
  debito_display : Q;
  credito_display : Q
}.

Record BalanceComprobacion : Type := mkBalanceComprobacion {
  b_filas : list FilaBalance;
  total_debitos_netos : Q;
  total_creditos_netos : Q;
  cuadrado : bool
}.

(** One turn of the loop over [cuentas_con_saldo]; the accumulator holds
    the rows written so far and the two running totals. *)
Definition paso_balance (acc : list FilaBalance * Q * Q) (data : Saldo)
  : list FilaBalance * Q * Q :=
  let '(filas, td, tc) := acc in
  if Qlt_bool 0 (saldo data)
  then (filas ++ [mkFilaBalance (nombre data) (tipo data) (saldo data) 0],
        (td + saldo data)%Q, tc)
  else if Qlt_bool (saldo data) 0
  then (filas ++ [mkFilaBalance (nombre data) (tipo data) 0 (Qabs (saldo data))],
        td, (tc + Qabs (saldo data))%Q)
  else (filas ++ [mkFilaBalance (nombre data) (tipo data) 0 0], td, tc).

(** [ContabilidadGUI.actualizar_balance_comp]: the rows inserted in the
    tree, the two totals and the flag of the label ([true] is "SI"). *)
Definition actualizar_balance_comp (s : Estado) : BalanceComprobacion :=
  let saldos := calcular_saldos s in
  let cuentas_con_saldo :=
    filter (fun '(_, data) => Qlt_bool epsilon (Qabs (saldo data))) saldos in
  let '(filas, td, tc) :=
    fold_left (fun acc '(_, data) => paso_balance acc data)
              cuentas_con_saldo ([], 0%Q, 0%Q) in
  mkBalanceComprobacion filas td tc (Qlt_bool (Qabs (td - tc)) tolerancia).

(** [ContabilidadApp.exportar_balance_pdf]: the rows and totals written to
    the document, [None] when the report has no row to show. *)
Definition exportar_balance_pdf (s : Estado)
  : option (list FilaBalance * Q * Q) :=
  let saldos := calcular_saldos s in
  let cuentas_con_saldo :=
    map snd
        (filter (fun '(_, data) => Qlt_bool epsilon (Qabs (saldo data))) saldos) in
  match cuentas_con_saldo with
  | [] => None
  | _ => Some (fold_left paso_balance cuentas_con_saldo ([], 0%Q, 0%Q))
  end.

(** ** General ledger of one account *)

(** A row of the ledger view.  [m_fecha] is the stored time stamp of the
    entry; the view shows its date, [fecha.split()[0]]. *)
Record FilaMayor : Type := mkFilaMayor {
  m_fecha : string;
  m_descripcion : string;
  monto_debito : Q;
  monto_credito : Q;
  saldo_acumulado : Q
}.

(** One turn of the loop over [movimientos]. *)
Definition paso_mayor (cuenta_id : Z) (es_saldo_acreedor : bool)
    (acc : list FilaMayor * Q) (movimiento : Transaccion)
  : list FilaMayor * Q :=
  let '(filas, acumulado) := acc in
  let monto := t_monto movimiento in
  let m_debito := if cuenta_debito_id movimiento =? cuenta_id then monto else 0%Q in
  let m_credito := if cuenta_credito_id movimiento =? cuenta_id then monto else 0%Q in
  let acumulado' :=
    if es_saldo_acreedor
    then (acumulado + (m_credito - m_debito))%Q
    else (acumulado + (m_debito - m_credito))%Q in
  (filas ++ [mkFilaMayor (t_fecha movimiento) (t_descripcion movimiento)
                         m_debito m_credito acumulado'],
   acumulado').

(** [ContabilidadGUI.actualizar_mayor_cuenta_seleccionada] for the account
    the selection resolves to: the rows inserted in the tree and the final
    balance of the label.  [None] when the method leaves the view as it is
    ([cuenta_id] falsy) or when no account has that id (the list indexed by
    [0] is empty). *)
Definition actualizar_mayor_cuenta_seleccionada (s : Estado) (cuenta_id : Z)
  : option (list FilaMayor * Q) :=
  if cuenta_id =? 0 then None
  else
    let movimientos := obtener_movimientos_cuenta s cuenta_id in
    let saldos_iniciales := calcular_saldos s in
    match map (fun '(_, data) => tipo data)
              (filter (fun '(id, _) => id =? cuenta_id) saldos_iniciales) with
    | [] => None
    | tipo_saldo :: _ =>
        let es_saldo_acreedor := en_lista tipo_saldo tipos_saldo_acreedor in
        Some (fold_left (paso_mayor cuenta_id es_saldo_acreedor)
                        movimientos ([], 0%Q))
    end.

(** ** Bulk import *)

(** What the loop learns from the cell [row['MONTO']]: [pd.isna] holds, or
    [float] returns a number, or [float] raises [ValueError]. *)
Inductive CeldaMonto : Type :=
| MontoVacio
| MontoNumero (monto : Q)
| MontoNoNumerico.

(** A row of the sheet.  The three text cells hold [str(row[...])]; a
    reference cell is [None] when [pd.notna] fails on it. *)
Record Fila : Type := mkFila {
  DESCRIPCION : string;
  CUENTA_DEBITO : string;
  CUENTA_CREDITO : string;
  MONTO : CeldaMonto;
  REF_DOC : option string;
  REF_BANCO : option string
}.

Record DataFrame : Type := mkDataFrame {
  columns : list string;
  filas : list Fila
}.

(** Outcome of [pd.read_excel(ruta_archivo)]. *)
Inductive Lectura : Type :=
| ArchivoNoEncontrado
| ErrorDeLectura
| Leido (df : DataFrame).

(** [s.replace(a, b)] for single characters. *)
Fixpoint replace_char (a b : ascii) (s : string) : string :=
  match s with
  | EmptyString => EmptyString
  | String c r =>
      String (if Ascii.eqb c a then b else c) (replace_char a b r)
  end.

(** [s.replace(a, '')] for a single character. *)
Fixpoint remove_char (a : ascii) (s : string) : string :=
  match s with
  | EmptyString => EmptyString
  | String c r =>
      if Ascii.eqb c a then remove_char a r else String c (remove_char a r)
  end.

(** [col.strip().replace(' ', '_').replace('.', '').upper()] *)
Definition normalizar_columna (upper : string -> string)
    (col : string) : string :=
  upper (remove_char "." (replace_char " " "_" (Texto.strip col))).

Definition required_cols : list string :=
  ["DESCRIPCION"; "CUENTA_DEBITO"; "CUENTA_CREDITO"; "MONTO"].

(** [not id] for the result of [nombre_a_id.get]: absent or zero. *)
Definition id_falsy (id : option Z) : bool :=
  match id with
  | Some n => n =? 0
  | None => true
  end.

(** The accumulators of the import loop. *)
Definition Importacion : Type := (Estado * nat * list ErrorFila)%type.

(** The body of the loop over [df.iterrows()] for the row at [index]. *)
Definition importar_fila (upper : string -> string)
    (reloj : Z -> string) (ref_doc_col ref_banco_col : bool)
    (index : Z) (row : Fila) (acc : Importacion) : Importacion :=
  let '(s, transacciones_importadas, errores) := acc in
  let desc := Texto.strip (DESCRIPCION row) in
  match MONTO row with
  | MontoVacio | MontoNoNumerico =>
      (s, transacciones_importadas, errores ++ [FilaFormatoMonto (index + 2)])
  | MontoNumero monto =>
      let debito_nombre := upper (Texto.strip (CUENTA_DEBITO row)) in
      let credito_nombre := upper (Texto.strip (CUENTA_CREDITO row)) in
      let debito_id := Dict.get String.eqb (nombre_a_id s) debito_nombre in
      let credito_id := Dict.get String.eqb (nombre_a_id s) credito_nombre in
      if id_falsy debito_id
      then (s, transacciones_importadas,
            errores ++ [FilaDebitoNoExiste (index + 2) debito_nombre])
      else if id_falsy credito_id
      then (s, transacciones_importadas,
            errores ++ [FilaCreditoNoExiste (index + 2) credito_nombre])
      else
        let ref_doc :=
          if ref_doc_col then option_map Texto.strip (REF_DOC row) else None in
        let ref_banco :=
          if ref_banco_col then option_map Texto.strip (REF_BANCO row) else None in
        if Qle_bool monto 0
        then (s, transacciones_importadas,
              errores ++ [FilaMontoNoPositivo (index + 2)])
        else
          let fecha := reloj index in
          match SQL.insert_transaccion s fecha desc
                  (match debito_id with Some n => n | None => 0 end)
                  (match credito_id with Some n => n | None => 0 end)
                  monto ref_doc ref_banco with
          | (s1, inr _) => (s1, S transacciones_importadas, errores)
          | (s1, inl _) =>
              (s1, transacciones_importadas,
               errores ++ [FilaErrorDesconocido (index + 2)])
          end
  end.

(** The loop over the rows, the index counting from [index]. *)
Fixpoint importar_filas (upper : string -> string)
    (reloj : Z -> string) (ref_doc_col ref_banco_col : bool)
    (index : Z) (rows : list Fila) (acc : Importacion) : Importacion :=
  match rows with
  | [] => acc
  | row :: rest =>
      importar_filas upper reloj ref_doc_col ref_banco_col (index + 1) rest
        (importar_fila upper reloj ref_doc_col ref_banco_col index row acc)
  end.

(** [ContabilidadApp.importar_transacciones_excel]; [reloj index] is the
    clock reading taken while the row at [index] is processed. *)
Definition importar_transacciones_excel (upper : string -> string)
    (reloj : Z -> string)
    (lectura : Lectura) (s : Estado) : Estado * Resultado :=
  match lectura with
  | ArchivoNoEncontrado => (s, (false, Some MsgArchivoNoEncontrado))
  | ErrorDeLectura => (s, (false, Some MsgErrorProcesarExcel))
  | Leido df =>
      let cols := map (normalizar_columna upper) (columns df) in
      if negb (forallb (fun col => en_lista col cols) required_cols)
      then (s, (false, Some MsgFaltanColumnas))
      else
        let ref_doc_col := en_lista "REF_DOC" cols in
        let ref_banco_col := en_lista "REF_BANCO" cols in
        let '(s1, transacciones_importadas, errores) :=
          importar_filas upper reloj ref_doc_col ref_banco_col 0 (filas df)
                         (s, O, []) in
        match errores with
        | _ :: _ =>
            let mensaje_errores := firstn 10 errores in
            let resto :=
              if (10 <? List.length errores)%nat
              then Some (List.length errores - 10)%nat else None in
            (s1, (false, Some (MsgImportacionParcial transacciones_importadas
                                 (List.length errores) mensaje_errores resto)))
        | [] =>
            (s1, (true, Some (MsgImportacionExitosa transacciones_importadas)))
        end
  end.

(** ** Worked ledgers *)

Module Ejemplos.

(** The chart of the scenarios: CASH, SALES and RENT. *)
Definition con_cuentas : Estado :=
  fst (crear_cuenta Texto.upper_latin1 "rent" "gasto"
    (fst (crear_cuenta Texto.upper_latin1 "sales" "ingreso"
      (fst (crear_cuenta Texto.upper_latin1 " cash " "activo" estado_inicial))))).

(** Entry 1: debit CASH, credit SALES, 100. *)
Definition con_venta : Estado :=
  fst (registrar_transaccion "2024-01-01 10:00:00" " venta " 1 2 100
         "F-1" "" con_cuentas).

(** Entry 2: debit RENT, credit CASH, 40. *)
Definition con_alquiler : Estado :=
  fst (registrar_transaccion "2024-01-02 09:30:00" "alquiler" 3 1 40
         "" "" con_venta).

(** Entry 2 of another day: debit RENT, credit CASH, 1/128. *)
Definition con_fraccion : Estado :=
  fst (registrar_transaccion "2024-01-03 08:00:00" "copia" 3 1 (1 # 128)
         "" "" con_venta).

End Ejemplos.

(** * Definitions used by the statements *)

(** Sum of the amounts of the entries selected by [p]. *)
Definition suma_montos (p : Transaccion -> bool) (ts : list Transaccion) : Q :=
  fold_right (fun t acc => if p t then (t_monto t + acc)%Q else acc) 0%Q ts.

(** The dictionary built by the first loop of [calcular_saldos]. *)
Definition saldos_en_cero (cs : list Cuenta) : list (Z * Saldo) :=
  fold_left
    (fun d c => Dict.set Z.eqb d (c_id c) (mkSaldo (c_nombre c) (c_tipo c) 0))
    cs [].

Definition suma_lista (l : list Q) : Q := fold_right Qplus 0%Q l.

(** The values of a dictionary of balances, in order. *)
Definition valores (saldos : list (Z * Saldo)) : list Saldo := map snd saldos.

(** [sum(f(netBalance))] over the accounts of type [tp]. *)
Definition suma_tipo (f : Q -> Q) (tp : string) (saldos : list (Z * Saldo)) : Q :=
  suma_lista
    (map (fun data => f (saldo data))
         (filter (fun data => String.eqb (tipo data) tp) (valores saldos))).

(** Journals on which the program's binary64 arithmetic is that of the
    rationals.  Every amount is a whole multiple of one unit 2^-k, with k
    at most 52, and the amounts add up to at most 2^50 units: each sum or
    difference of amounts and balances the program forms is then a whole
    number of units below 2^53 in absolute value, which binary64 holds
    without rounding, and no such number lies between 0.009 or 0.01 and
    the binary64 number the literal denotes. *)
Definition montos_exactos (ts : list Transaccion) : Prop :=
  exists k : Z,
    0 <= k <= 52 /\
    (forall t, In t ts ->
               exists n : Z, (t_monto t * inject_Z (2 ^ k) == inject_Z n)%Q) /\
    (suma_lista (map t_monto ts) * inject_Z (2 ^ k) <= inject_Z (2 ^ 50))%Q.


(** Debits minus credits of one account id, as [calcular_saldos] reads
    them from the two grouped sums. *)
Definition saldo_neto_de (s : Estado) (id : Z) : Q :=
  (Dict.get_or Z.eqb
     (SQL.sum_monto_group_by cuenta_debito_id (Transacciones s)) id 0
   - Dict.get_or Z.eqb
       (SQL.sum_monto_group_by cuenta_credito_id (Transacciones s)) id 0)%Q.

(** The running ledger as the specification words it: the rows follow the
    movements, and each row moves the running balance by credit minus
    debit on a credit-side account and by debit minus credit otherwise. *)
Module LibroMayorSpec.

Definition lado_acreedor (tp : string) : bool :=
  String.eqb tp "PASIVO" || String.eqb tp "CAPITAL" || String.eqb tp "INGRESO".

Definition debitAmount (id : Z) (m : Transaccion) : Q :=
  if cuenta_debito_id m =? id then t_monto m else 0%Q.

Definition creditAmount (id : Z) (m : Transaccion) : Q :=
  if cuenta_credito_id m =? id then t_monto m else 0%Q.

Fixpoint filas (acreedor : bool) (id : Z) (anterior : Q)
    (ms : list Transaccion) : list FilaMayor :=
  match ms with
  | [] => []
  | m :: r =>
      let runningBalance :=
        if acreedor
        then (anterior + (creditAmount id m - debitAmount id m))%Q
        else (anterior + (debitAmount id m - creditAmount id m))%Q in
      mkFilaMayor (t_fecha m) (t_descripcion m)
                  (debitAmount id m) (creditAmount id m) runningBalance
      :: filas acreedor id runningBalance r
  end.

(** Running balance of the last row, [anterior] when there is no row. *)
Definition saldo_final (acreedor : bool) (id : Z) (anterior : Q)
    (ms : list Transaccion) : Q :=
  last (map saldo_acumulado (filas acreedor id anterior ms)) anterior.

End LibroMayorSpec.

(** A row fails validation when its amount is missing or not a number, when
    the debit or the credit name does not resolve, or when the amount is
    not strictly positive. *)
Definition fila_rechazada (upper : string -> string)
    (mapa : list (string * Z)) (row : Fila) : bool :=
  match MONTO row with
  | MontoNumero monto =>
      id_falsy (Dict.get String.eqb mapa
                  (upper (Texto.strip (CUENTA_DEBITO row))))
      || id_falsy (Dict.get String.eqb mapa
                     (upper (Texto.strip (CUENTA_CREDITO row))))
      || Qle_bool monto 0
  | MontoVacio | MontoNoNumerico => true
  end.

(** The journal entry [t] records the admitted row [row]. *)
Definition registra (upper : string -> string)
    (mapa : list (string * Z)) (row : Fila) (t : Transaccion)
  : Prop :=
  t_descripcion t = Texto.strip (DESCRIPCION row) /\
  MONTO row = MontoNumero (t_monto t) /\
  Dict.get String.eqb mapa (upper (Texto.strip (CUENTA_DEBITO row)))
  = Some (cuenta_debito_id t) /\
  Dict.get String.eqb mapa (upper (Texto.strip (CUENTA_CREDITO row)))
  = Some (cuenta_credito_id t).

Module EjemploImportacion.

Definition reloj (index : Z) : string := "2024-02-01 12:00:00".

(** Three rows; the second names a debit account that does not exist. *)
Definition hoja : DataFrame :=
  mkDataFrame
    ["Descripcion"; "Cuenta Debito"; "Cuenta Credito"; "Monto"; "Ref. Doc"]
    [mkFila "venta 1" "cash" "sales" (MontoNumero 100) (Some "F-1") None;
     mkFila "venta 2" "bank" "sales" (MontoNumero 50) None None;
     mkFila "alquiler" "rent" "cash" (MontoNumero 40) None None].

End EjemploImportacion.

Inductive Operacion : Type :=
| CrearCuenta (nombre tipo : string)
| EliminarCuenta (cuenta_id : Z)
| RegistrarTransaccion (ahora descripcion : string) (debito_id credito_id : Z)
                       (monto : Q) (ref_doc ref_banco : string)
| EliminarTransaccion (transaccion_id : Z).

Definition ejecutar (upper : string -> string)
    (op : Operacion) (s : Estado) : Estado * Resultado :=
  match op with
  | CrearCuenta nombre tipo => crear_cuenta upper nombre tipo s
  | EliminarCuenta cuenta_id => eliminar_cuenta upper cuenta_id s
  | RegistrarTransaccion ahora descripcion debito_id credito_id monto
                         ref_doc ref_banco =>
      registrar_transaccion ahora descripcion debito_id credito_id monto
                            ref_doc ref_banco s
  | EliminarTransaccion transaccion_id => eliminar_transaccion transaccion_id s
  end.

(** The account ids handed to the operation resolve in the registry. *)
Definition cuentas_resueltas (s : Estado) (op : Operacion) : Prop :=
  match op with
  | RegistrarTransaccion _ _ debito_id credito_id _ _ _ =>
      SQL.existe_cuenta s debito_id = true /\
      SQL.existe_cuenta s credito_id = true
  | _ => True
  end.

(** States reached from a fresh database by calls of the four operations,
    successful or not, in which every entry names accounts that exist. *)
Inductive alcanzable (upper : string -> string) : Estado -> Prop :=
| alcanzable_inicial : alcanzable upper estado_inicial
| alcanzable_paso (s : Estado) (op : Operacion) :
    alcanzable upper s -> cuentas_resueltas s op ->
    alcanzable upper (fst (ejecutar upper op s)).

Arguments alcanzable_inicial {upper}.
Arguments alcanzable_paso {upper} s op _ _.


(** The invariant of the store: ids are a key of [Cuentas], every account
    has one of the five types, every entry names two accounts that exist. *)
Record bien_formado (s : Estado) : Prop := mk_bien_formado {
  bf_ids : NoDup (map c_id (Cuentas s));
  bf_tipos : forall c, In c (Cuentas s) -> en_lista (c_tipo c) tipos_cuenta = true;
  bf_refs : forall t, In t (Transacciones s) ->
                      In (cuenta_debito_id t) (map c_id (Cuentas s)) /\
                      In (cuenta_credito_id t) (map c_id (Cuentas s))
}.

(** The trial balance as the specification words it. *)
Module BalanceSpec.

(** Accounts whose absolute net balance exceeds the epsilon. *)
Definition kept (saldos : list (Z * Saldo)) : list Saldo :=
  filter (fun data => Qlt_bool epsilon (Qabs (saldo data))) (valores saldos).

Definition debitColumn (data : Saldo) : Q :=
  if Qlt_bool 0 (saldo data) then saldo data else 0%Q.

Definition creditColumn (data : Saldo) : Q :=
  if Qlt_bool (saldo data) 0 then Qabs (saldo data) else 0%Q.

Definition row (data : Saldo) : FilaBalance :=
  mkFilaBalance (nombre data) (tipo data) (debitColumn data) (creditColumn data).

Definition rows (saldos : list (Z * Saldo)) : list FilaBalance :=
  map row (kept saldos).

Definition totalDebit (saldos : list (Z * Saldo)) : Q :=
  suma_lista (map debitColumn (kept saldos)).

Definition totalCredit (saldos : list (Z * Saldo)) : Q :=
  suma_lista (map creditColumn (kept saldos)).

End BalanceSpec.

Module Contraejemplos.


(** CASH (ACTIVO) and LOAN (PASIVO), and a payment of 100 on the loan:
    debit LOAN, credit CASH. *)
Definition pasivo_deudor : Estado :=
  fst (ejecutar Texto.upper_latin1
         (RegistrarTransaccion "2024-01-01 10:00:00" "pago" 2 1 100 "" "")
    (fst (ejecutar Texto.upper_latin1 (CrearCuenta "loan" "pasivo")
       (fst (ejecutar Texto.upper_latin1 (CrearCuenta "cash" "activo") estado_inicial))))).

End Contraejemplos.

(** * Further functions of the program *)

(** [ContabilidadApp._generar_mapa_cuentas]: the dictionary built when the
    application starts. *)
Definition _generar_mapa_cuentas (upper : string -> string)
    (s : Estado) : list (string * Z) :=
  fold_left
    (fun mapa c => Dict.set String.eqb mapa (upper (c_nombre c)) (c_id c))
    (obtener_cuentas s) [].

(** The label [f"{nombre} ({tipo})"] of an account in the combo boxes. *)
Definition nombre_display (c : Cuenta) : string :=
  String.append (c_nombre c)
    (String.append " (" (String.append (c_tipo c) ")")).

(** [ContabilidadGUI.actualizar_combos_transaccion]: the dictionary
    [self.cuenta_map] from labels to ids. *)
Definition actualizar_combos_transaccion (s : Estado) : list (string * Z) :=
  fold_left
    (fun cuenta_map c => Dict.set String.eqb cuenta_map (nombre_display c) (c_id c))
    (obtener_cuentas s) [].

(** What the form of [ContabilidadGUI.registrar_transaccion] shows. *)
Inductive Aviso : Type :=
| AvisoDatosIncompletos
| AvisoExito (mensaje : option Mensaje)
| AvisoErrorRegistro (mensaje : option Mensaje).

(** [ContabilidadGUI.registrar_transaccion] for an amount field that holds
    a number: the form looks the two labels up in [cuenta_map] and calls
    the backend only when every field is filled. *)
Definition gui_registrar_transaccion (cuenta_map : list (string * Z))
    (ahora descripcion : string) (monto : Q)
    (debito_nombre credito_nombre ref_doc ref_banco : string) (s : Estado)
  : Estado * Aviso :=
  let debito_id := Dict.get String.eqb cuenta_map debito_nombre in
  let credito_id := Dict.get String.eqb cuenta_map credito_nombre in
  if String.eqb descripcion "" || id_falsy debito_id || id_falsy credito_id
     || Qle_bool monto 0
  then (s, AvisoDatosIncompletos)
  else
    let '(s1, (exito, mensaje)) :=
      registrar_transaccion ahora descripcion
        (match debito_id with Some n => n | None => 0 end)
        (match credito_id with Some n => n | None => 0 end)
        monto ref_doc ref_banco s in
    if exito then (s1, AvisoExito mensaje)
    else (s1, AvisoErrorRegistro mensaje).

(** [enumerate(l)] *)
Definition enumerate {A : Type} (l : list A) : list (Z * A) :=
  combine (map Z.of_nat (seq 0 (List.length l))) l.

(** One turn of the loop of [exportar_balance_excel]: the cells written in
    sheet row [fila_inicio_datos + i] and the running totals. *)
Definition paso_balance_excel (acc : list (Z * FilaBalance) * Q * Q)
    (i_data : Z * Saldo) : list (Z * FilaBalance) * Q * Q :=
  let '(celdas, td, tc) := acc in
  let '(i, data) := i_data in
  let fila := 5 + i in
  if Qlt_bool 0 (saldo data)
  then (celdas ++ [(fila, mkFilaBalance (nombre data) (tipo data) (saldo data) 0)],
        (td + saldo data)%Q, tc)
  else if Qlt_bool (saldo data) 0
  then (celdas ++ [(fila, mkFilaBalance (nombre data) (tipo data) 0
                            (Qabs (saldo data)))],
        td, (tc + Qabs (saldo data))%Q)
  else (celdas ++ [(fila, mkFilaBalance (nombre data) (tipo data) 0 0)], td, tc).

(** The sheet written by [ContabilidadApp.exportar_balance_excel]. *)
Record HojaBalance : Type := mkHojaBalance {
  h_celdas : list (Z * FilaBalance);
  fila_total : Z;
  h_total_debitos : Q;
  h_total_creditos : Q
}.

(** [ContabilidadApp.exportar_balance_excel]: the data rows with their sheet
    row, the row of the totals and the totals; [None] when no account has a
    balance to show. *)
Definition exportar_balance_excel (s : Estado) : option HojaBalance :=
  let saldos := calcular_saldos s in
  let cuentas_con_saldo :=
    map snd
        (filter (fun '(_, data) => Qlt_bool epsilon (Qabs (saldo data))) saldos) in
  match cuentas_con_saldo with
  | [] => None
  | _ =>
      let '(celdas, td, tc) :=
        fold_left paso_balance_excel (enumerate cuentas_con_saldo)
                  ([], 0%Q, 0%Q) in
      Some (mkHojaBalance celdas (5 + Z.of_nat (List.length cuentas_con_saldo))
                          td tc)
  end.

(** The row of the journal view for an entry, the names looked up by id. *)
Definition fila_diario_de (s : Estado) (t : Transaccion) : FilaDiario :=
  mkFilaDiario (t_id t) (t_fecha t) (t_descripcion t) (t_monto t)
    (match obtener_nombre_cuenta s (cuenta_debito_id t) with
     | Some n => n
     | None => ""
     end)
    (match obtener_nombre_cuenta s (cuenta_credito_id t) with
     | Some n => n
     | None => ""
     end)
    (referencia_documento t) (referencia_banco t).

(** The row number an import error refers to. *)
Definition fila_de_error (e : ErrorFila) : Z :=
  match e with
  | FilaDebitoNoExiste fila _ => fila
  | FilaCreditoNoExiste fila _ => fila
  | FilaMontoNoPositivo fila => fila
  | FilaFormatoMonto fila => fila
  | FilaErrorDesconocido fila => fila
  end.

(** Indices of the rows that fail validation, counting from [index]. *)
Fixpoint indices_rechazadas (upper : string -> string)
    (mapa : list (string * Z)) (index : Z)
    (rows : list Fila) : list Z :=
  match rows with
  | [] => []
  | row :: rest =>
      if fila_rechazada upper mapa row
      then index :: indices_rechazadas upper mapa (index + 1) rest
      else indices_rechazadas upper mapa (index + 1) rest
  end.

(** A case mapping that leaves its own results as they are; [str.upper]
    is one. *)
Definition idempotente (upper : string -> string) : Prop :=
  forall x, upper (upper x) = upper x.


(** The data-model invariants of a store: accounts, journal entries and the
    name dictionary. *)
Record integro (upper : string -> string) (s : Estado) : Prop := mk_integro {
  in_ids : NoDup (map c_id (Cuentas s));
  in_ids_pos : forall c, In c (Cuentas s) -> 1 <= c_id c;
  in_nombres : NoDup (map c_nombre (Cuentas s));
  in_nombre_normal :
    forall c, In c (Cuentas s) ->
              c_nombre c <> "" /\ upper (c_nombre c) = c_nombre c;
  in_tipos :
    forall c, In c (Cuentas s) -> en_lista (c_tipo c) tipos_cuenta = true;
  in_t_ids : NoDup (map t_id (Transacciones s));
  in_t_ids_pos : forall t, In t (Transacciones s) -> 1 <= t_id t;
  in_asientos :
    forall t, In t (Transacciones s) ->
              cuenta_debito_id t <> cuenta_credito_id t /\
              (0 < t_monto t)%Q /\
              SQL.existe_cuenta s (cuenta_debito_id t) = true /\
              SQL.existe_cuenta s (cuenta_credito_id t) = true /\
              Texto.recortado (t_descripcion t) /\
              referencia_documento t <> Some "" /\
              referencia_banco t <> Some "";
  in_mapa_claves : NoDup (map fst (nombre_a_id s));
  in_mapa :
    forall n id, In (n, id) (nombre_a_id s) <->
                 exists c, In c (Cuentas s) /\ c_nombre c = n /\ c_id c = id
}.

(** * Properties *)

(** ** Amounts *)

Lemma Qlt_bool_iff (x y : Q) : Qlt_bool x y = true <-> (x < y)%Q.
Proof.
  unfold Qlt_bool. rewrite negb_true_iff.
  split; intro H.
  - apply Qnot_le_lt. intro Hle. apply Qle_bool_iff in Hle. congruence.
  - destruct (Qle_bool y x) eqn:E; [|reflexivity].
    apply Qle_bool_iff in E. exfalso. apply (Qlt_not_le _ _ H E).
Qed.

Lemma Qlt_bool_false_iff (x y : Q) : Qlt_bool x y = false <-> (y <= x)%Q.
Proof.
  unfold Qlt_bool. rewrite negb_false_iff. apply Qle_bool_iff.
Qed.

Lemma Qle_bool_false_iff (x y : Q) : Qle_bool x y = false <-> (y < x)%Q.
Proof.
  rewrite <- Qlt_bool_iff. unfold Qlt_bool.
  destruct (Qle_bool x y); simpl; split; congruence.
Qed.

(** ** Texts *)

Module TextoFacts.
Import Texto.

Lemma lstrip_primero s c : primero (lstrip s) = Some c -> isspace c = false.
Proof.
  induction s as [|a r IH]; simpl; [discriminate|].
  destruct (isspace a) eqn:E; [exact IH|].
  simpl. intros [= <-]. exact E.
Qed.

Lemma rstrip_ultimo s c : ultimo (rstrip s) = Some c -> isspace c = false.
Proof.
  revert c. induction s as [|a r IH]; simpl; [discriminate|].
  intro c. destruct (rstrip r) as [|b r'] eqn:E.
  - destruct (isspace a) eqn:Ea; simpl; [discriminate|].
    intros [= <-]. exact Ea.
  - intro H. apply IH. exact H.
Qed.

Lemma rstrip_primero s c : primero (rstrip s) = Some c -> primero s = Some c.
Proof.
  destruct s as [|a r]; simpl; [discriminate|].
  destruct (rstrip r); [destruct (isspace a)|]; simpl; congruence.
Qed.

Lemma strip_recortado s : recortado (strip s).
Proof.
  unfold recortado, strip. split; intros c H.
  - apply rstrip_primero in H. exact (lstrip_primero _ _ H).
  - exact (rstrip_ultimo _ _ H).
Qed.

Lemma strip_vacio : strip "" = "".
Proof. reflexivity. Qed.

End TextoFacts.

(** ** [ORDER BY] keeps the rows and sorts them *)

Module OrdenFacts.
Section Orden.
Context {A : Type}.
Variable le : A -> A -> bool.

Lemma insertar_perm x l : Permutation (SQL.insertar le x l) (x :: l).
Proof.
  induction l as [|y r IH]; simpl; [reflexivity|].
  destruct (le x y); [reflexivity|].
  rewrite IH. apply perm_swap.
Qed.

Lemma order_by_perm l : Permutation (SQL.order_by le l) l.
Proof.
  induction l as [|x r IH]; simpl; [reflexivity|].
  rewrite insertar_perm. constructor. exact IH.
Qed.

Lemma order_by_In x l : In x (SQL.order_by le l) <-> In x l.
Proof.
  split; apply Permutation_in;
    [apply order_by_perm | symmetry; apply order_by_perm].
Qed.

Hypothesis le_total : forall a b, le a b = true \/ le b a = true.
Hypothesis le_trans :
  forall a b c, le a b = true -> le b c = true -> le a c = true.

Lemma insertar_sorted x l :
  StronglySorted (fun a b => le a b = true) l ->
  StronglySorted (fun a b => le a b = true) (SQL.insertar le x l).
Proof.
  induction 1 as [|y r Hr IH Hy]; simpl.
  - repeat constructor.
  - destruct (le x y) eqn:E.
    + constructor; [constructor; assumption|].
      constructor; [exact E|].
      rewrite Forall_forall in *. intros z Hz. eauto.
    + constructor; [exact IH|].
      assert (Hyx : le y x = true)
        by (destruct (le_total x y); congruence).
      rewrite Forall_forall in *. intros z Hz.
      apply (Permutation_in _ (insertar_perm x r)) in Hz.
      destruct Hz as [<-|Hz]; auto.
Qed.

Lemma order_by_sorted l :
  StronglySorted (fun a b => le a b = true) (SQL.order_by le l).
Proof.
  induction l; simpl; [constructor | apply insertar_sorted; assumption].
Qed.
End Orden.
End OrdenFacts.

(** ** Journal: admission and deletion *)

Lemma existe_cuenta_In s id :
  SQL.existe_cuenta s id = true <-> exists c, In c (Cuentas s) /\ c_id c = id.
Proof.
  unfold SQL.existe_cuenta. rewrite existsb_exists.
  split; intros [c [Hc E]]; exists c; split; auto;
    [apply Z.eqb_eq | apply Z.eqb_eq]; exact E.
Qed.

Lemma count_transacciones_de_0 s id :
  SQL.count_transacciones_de s id = O <->
  forall t, In t (Transacciones s) ->
            cuenta_debito_id t <> id /\ cuenta_credito_id t <> id.
Proof.
  unfold SQL.count_transacciones_de.
  induction (Transacciones s) as [|t r IH]; simpl.
  - split; [intros _ t [] | reflexivity].
  - destruct (cuenta_debito_id t =? id) eqn:Ed;
      [|destruct (cuenta_credito_id t =? id) eqn:Ec]; simpl.
    + split; [discriminate|]. intro H.
      apply Z.eqb_eq in Ed. destruct (H t (or_introl eq_refl)); contradiction.
    + split; [discriminate|]. intro H.
      apply Z.eqb_eq in Ec. destruct (H t (or_introl eq_refl)); contradiction.
    + rewrite IH. apply Z.eqb_neq in Ed, Ec.
      split; intros H u; [intros [<-|Hu]|]; auto.
Qed.

Lemma filter_todos {A} (p : A -> bool) (l : list A) :
  (forall x, In x l -> p x = true) -> filter p l = l.
Proof.
  induction l as [|x r IH]; simpl; intro H; [reflexivity|].
  rewrite (H x (or_introl eq_refl)). f_equal. apply IH. auto.
Qed.

Lemma strip_or_none_recortado texto x :
  strip_or_none texto = Some x -> Texto.recortado x /\ x <> "".
Proof.
  unfold strip_or_none.
  destruct (String.eqb_spec (Texto.strip texto) ""); [discriminate|].
  intros [= <-]. split; [apply TextoFacts.strip_recortado | assumption].
Qed.


(** C4, evaluated on the code: with no account in the registry, an entry
    between the unknown ids 1 and 2 is admitted; the call reports success
    and the journal holds the new entry. *)
Theorem registrar_transaccion_admite_cuentas_inexistentes :
  SQL.existe_cuenta estado_inicial 1 = false /\
  SQL.existe_cuenta estado_inicial 2 = false /\
  registrar_transaccion "2024-01-01 10:00:00" "venta" 1 2 100 "" ""
                        estado_inicial
  = (mkEstado []
       [mkTransaccion 1 "2024-01-01 10:00:00" "venta" 1 2 100 None None] [],
     (true, None)).
Proof. repeat split. Qed.



(** ** Accounts: the deletion guard *)

(** C6: [eliminar_cuenta] refuses an account that some entry names as its
    debit or credit leg and leaves the store as it was; when no entry
    names the id it reports success, the account is gone from the
    registry, the other accounts stay and the journal is untouched. *)
Theorem eliminar_cuenta_guardia {upper : string -> string}
    (cuenta_id : Z) (s : Estado) :
  ((exists t, In t (Transacciones s) /\
              (cuenta_debito_id t = cuenta_id \/ cuenta_credito_id t = cuenta_id)) ->
   eliminar_cuenta upper cuenta_id s = (s, (false, Some MsgCuentaConTransacciones))) /\
  ((forall t, In t (Transacciones s) ->
              cuenta_debito_id t <> cuenta_id /\ cuenta_credito_id t <> cuenta_id) ->
   snd (eliminar_cuenta upper cuenta_id s) = (true, Some MsgCuentaEliminada) /\
   Transacciones (fst (eliminar_cuenta upper cuenta_id s)) = Transacciones s /\
   SQL.existe_cuenta (fst (eliminar_cuenta upper cuenta_id s)) cuenta_id = false /\
   (forall c, In c (Cuentas (fst (eliminar_cuenta upper cuenta_id s))) <->
              In c (Cuentas s) /\ c_id c <> cuenta_id)).
Proof.
  unfold eliminar_cuenta. split.
  - intros [t [Ht Hid]].
    destruct (SQL.count_transacciones_de s cuenta_id) as [|n] eqn:E.
    + exfalso. destruct (proj1 (count_transacciones_de_0 s cuenta_id) E t Ht).
      destruct Hid; contradiction.
    + reflexivity.
  - intro H. apply count_transacciones_de_0 in H. rewrite H. simpl.
    split; [reflexivity|]. split; [reflexivity|]. split.
    + unfold SQL.existe_cuenta. simpl.
      destruct (existsb _ _) eqn:E; [|reflexivity].
      apply existsb_exists in E. destruct E as [c [Hc Ec]].
      apply filter_In in Hc. destruct Hc as [_ Hc].
      rewrite Ec in Hc. discriminate.
    + intro c. rewrite filter_In, negb_true_iff, Z.eqb_neq. reflexivity.
Qed.

(** C6 on the scenario's ledger: CASH is in use, and an account created
    afterwards and never used is removed. *)
Lemma eliminar_cuenta_guardia_witness :
  eliminar_cuenta Texto.upper_latin1 1 Ejemplos.con_venta
  = (Ejemplos.con_venta, (false, Some MsgCuentaConTransacciones)) /\
  snd (eliminar_cuenta Texto.upper_latin1 3 Ejemplos.con_venta) = (true, Some MsgCuentaEliminada) /\
  SQL.existe_cuenta (fst (eliminar_cuenta Texto.upper_latin1 3 Ejemplos.con_venta)) 3 = false.
Proof.
  assert (H3 : forall t, In t (Transacciones Ejemplos.con_venta) ->
                         cuenta_debito_id t <> 3 /\ cuenta_credito_id t <> 3).
  { intros t [<-|[]]. split; discriminate. }
  split; [|split].
  - apply (proj1 (eliminar_cuenta_guardia (upper:=Texto.upper_latin1)
          1 Ejemplos.con_venta)).
    eexists. split; [left; reflexivity|]. left. reflexivity.
  - exact (proj1 (proj2 (eliminar_cuenta_guardia (upper:=Texto.upper_latin1)
          3 Ejemplos.con_venta) H3)).
  - exact (proj1 (proj2 (proj2
             (proj2 (eliminar_cuenta_guardia (upper:=Texto.upper_latin1)
                     3 Ejemplos.con_venta) H3)))).
Defined.

(** ** Journal: deleting an entry *)

(** C7 as stated fails: no entry has id 5 in the empty journal, yet
    deleting entry 5 reports success. *)
Lemma eliminar_transaccion_inexistente_exito :
  (forall t, In t (Transacciones estado_inicial) -> t_id t <> 5) /\
  fst (snd (eliminar_transaccion 5 estado_inicial)) <> false /\
  eliminar_transaccion 5 estado_inicial
  = (estado_inicial, (true, Some (MsgTransaccionEliminada 5))).
Proof.
  split; [intros t []|]. split; [discriminate|reflexivity].
Qed.

(** C7, amended: [eliminar_transaccion] always reports success; the
    registry is untouched and the journal keeps exactly the entries with
    another id, with no dependency check.  When no entry has the id the
    store is unchanged. *)
Theorem eliminar_transaccion_incondicional (transaccion_id : Z) (s : Estado) :
  snd (eliminar_transaccion transaccion_id s)
  = (true, Some (MsgTransaccionEliminada transaccion_id)) /\
  Cuentas (fst (eliminar_transaccion transaccion_id s)) = Cuentas s /\
  nombre_a_id (fst (eliminar_transaccion transaccion_id s)) = nombre_a_id s /\
  (forall t, In t (Transacciones (fst (eliminar_transaccion transaccion_id s)))
             <-> In t (Transacciones s) /\ t_id t <> transaccion_id) /\
  ((forall t, In t (Transacciones s) -> t_id t <> transaccion_id) ->
   fst (eliminar_transaccion transaccion_id s) = s).
Proof.
  unfold eliminar_transaccion. simpl.
  split; [reflexivity|]. split; [reflexivity|]. split; [reflexivity|]. split.
  - intro t. rewrite filter_In, negb_true_iff, Z.eqb_neq. reflexivity.
  - intro H. destruct s as [cs ts m]. simpl in *. f_equal.
    apply filter_todos. intros t Ht.
    apply negb_true_iff, Z.eqb_neq. auto.
Qed.

(** C7 amended, on the scenario's ledger: entry 1 is removed, and deleting
    the absent entry 9 changes nothing. *)
Lemma eliminar_transaccion_incondicional_witness :
  snd (eliminar_transaccion 1 Ejemplos.con_alquiler)
  = (true, Some (MsgTransaccionEliminada 1)) /\
  fst (eliminar_transaccion 9 Ejemplos.con_alquiler) = Ejemplos.con_alquiler.
Proof.
  split.
  - exact (proj1 (eliminar_transaccion_incondicional 1 Ejemplos.con_alquiler)).
  - apply (proj2 (proj2 (proj2 (proj2
             (eliminar_transaccion_incondicional 9 Ejemplos.con_alquiler))))).
    intros t [<-|[<-|[]]]; discriminate.
Defined.

(** ** Dictionaries *)

Module DictFacts.
Section Facts.
Context {K V : Type}.
Variable eqb : K -> K -> bool.
Hypothesis eqb_spec : forall a b, reflect (a = b) (eqb a b).

Lemma get_set_eq (d : list (K * V)) k v :
  Dict.get eqb (Dict.set eqb d k v) k = Some v.
Proof.
  induction d as [|[k' v'] r IH]; simpl.
  - destruct (eqb_spec k k); congruence.
  - destruct (eqb_spec k' k) as [->|Hne]; simpl.
    + destruct (eqb_spec k k); congruence.
    + destruct (eqb_spec k' k); [contradiction|exact IH].
Qed.

Lemma get_set_ne (d : list (K * V)) k k' v :
  k <> k' -> Dict.get eqb (Dict.set eqb d k v) k' = Dict.get eqb d k'.
Proof.
  intro Hne. induction d as [|[k0 v0] r IH]; simpl.
  - destruct (eqb_spec k k'); [contradiction|reflexivity].
  - destruct (eqb_spec k0 k) as [->|Hk]; simpl.
    + destruct (eqb_spec k k'); [contradiction|reflexivity].
    + destruct (eqb_spec k0 k'); [reflexivity|exact IH].
Qed.

Lemma set_nuevo (d : list (K * V)) k v :
  ~ In k (map fst d) -> Dict.set eqb d k v = d ++ [(k, v)].
Proof.
  induction d as [|[k0 v0] r IH]; simpl; intro H; [reflexivity|].
  destruct (eqb_spec k0 k) as [->|Hk].
  - exfalso. apply H. left. reflexivity.
  - f_equal. apply IH. intro Hin. apply H. right. exact Hin.
Qed.

Lemma get_In (d : list (K * V)) k v :
  NoDup (map fst d) -> In (k, v) d -> Dict.get eqb d k = Some v.
Proof.
  induction d as [|[k0 v0] r IH]; simpl; intros Hnd Hin; [contradiction|].
  inversion Hnd as [|? ? Hk0 Hr]; subst.
  destruct Hin as [[= -> ->]|Hin].
  - destruct (eqb_spec k k); congruence.
  - destruct (eqb_spec k0 k) as [->|Hne]; [|auto].
    exfalso. apply Hk0. apply in_map_iff. exists (k, v). auto.
Qed.

Lemma get_map_valores {W} (g : K -> V -> W) (d : list (K * V)) k :
  Dict.get eqb (map (fun '(k0, v0) => (k0, g k0 v0)) d) k
  = option_map (g k) (Dict.get eqb d k).
Proof.
  induction d as [|[k0 v0] r IH]; simpl; [reflexivity|].
  destruct (eqb_spec k0 k) as [->|Hne]; [reflexivity|exact IH].
Qed.
End Facts.
End DictFacts.

(** ** Balance per account *)

Lemma suma_montos_ninguno p ts :
  (forall t, In t ts -> p t = false) -> suma_montos p ts = 0%Q.
Proof.
  induction ts as [|t r IH]; simpl; intro H; [reflexivity|].
  rewrite (H t (or_introl eq_refl)). apply IH. auto.
Qed.

Lemma sum_monto_group_by_get (clave : Transaccion -> Z) ts k :
  (Dict.get_or Z.eqb (SQL.sum_monto_group_by clave ts) k 0
   == suma_montos (fun t => clave t =? k) ts)%Q.
Proof.
  unfold SQL.sum_monto_group_by.
  set (paso := fun acc t => _).
  assert (G : forall acc,
             (Dict.get_or Z.eqb (fold_left paso ts acc) k 0
              == Dict.get_or Z.eqb acc k 0
                 + suma_montos (fun t => clave t =? k) ts)%Q).
  { induction ts as [|t r IH]; intro acc; simpl.
    - ring.
    - rewrite IH. clear IH.
      assert (E : (Dict.get_or Z.eqb (paso acc t) k 0
                   == Dict.get_or Z.eqb acc k 0
                      + (if clave t =? k then t_monto t else 0))%Q).
      { unfold paso, Dict.get_or.
        destruct (Z.eqb_spec (clave t) k) as [->|Hne].
        - destruct (Dict.get Z.eqb acc k) as [q|] eqn:Eg;
            rewrite (DictFacts.get_set_eq Z.eqb Z.eqb_spec); ring.
        - destruct (Dict.get Z.eqb acc (clave t)) as [q|];
            rewrite (DictFacts.get_set_ne Z.eqb Z.eqb_spec) by assumption;
            ring. }
      rewrite E. destruct (clave t =? k); ring. }
  rewrite G. unfold Dict.get_or. simpl. ring.
Qed.

Lemma saldos_en_cero_get cs c :
  In c cs -> exists data, Dict.get Z.eqb (saldos_en_cero cs) (c_id c) = Some data.
Proof.
  intro Hin. unfold saldos_en_cero.
  assert (G : forall r acc k,
             In k (map c_id r) \/ (exists v, Dict.get Z.eqb acc k = Some v) ->
             exists data,
               Dict.get Z.eqb
                 (fold_left
                    (fun d c1 =>
                       Dict.set Z.eqb d (c_id c1)
                         (mkSaldo (c_nombre c1) (c_tipo c1) 0)) r acc) k
               = Some data).
  { induction r as [|c0 r IH]; simpl; intros acc k H.
    - destruct H as [[]|H]. exact H.
    - apply IH. destruct (Z.eq_dec (c_id c0) k) as [E|Hne].
      + right. rewrite E. eexists.
        apply (DictFacts.get_set_eq Z.eqb Z.eqb_spec).
      + destruct H as [[E|H]|[v Hv]]; [contradiction|left; exact H|].
        right. exists v.
        rewrite (DictFacts.get_set_ne Z.eqb Z.eqb_spec); assumption. }
  apply G. left. apply in_map. exact Hin.
Qed.

Lemma saldos_en_cero_map cs :
  NoDup (map c_id cs) ->
  saldos_en_cero cs
  = map (fun c => (c_id c, mkSaldo (c_nombre c) (c_tipo c) 0)) cs.
Proof.
  unfold saldos_en_cero.
  assert (G : forall acc,
             NoDup (map fst acc ++ map c_id cs) ->
             fold_left
               (fun d c => Dict.set Z.eqb d (c_id c)
                             (mkSaldo (c_nombre c) (c_tipo c) 0)) cs acc
             = acc ++ map (fun c => (c_id c, mkSaldo (c_nombre c) (c_tipo c) 0))
                          cs).
  { induction cs as [|c r IH]; simpl; intros acc Hnd.
    - symmetry. apply app_nil_r.
    - rewrite (DictFacts.set_nuevo Z.eqb Z.eqb_spec).
      + rewrite IH.
        * rewrite <- app_assoc. reflexivity.
        * rewrite map_app. simpl. rewrite <- app_assoc. exact Hnd.
      + apply NoDup_remove_2 in Hnd. intro Hin. apply Hnd.
        apply in_or_app. left. exact Hin. }
  intro Hnd. apply (G []). exact Hnd.
Qed.

(** C3: for every account of the registry [calcular_saldos] holds an item
    whose balance is the sum of the amounts of the entries that debit the
    account minus the sum of those that credit it, and the balance is zero
    when no entry names the account. *)
Theorem calcular_saldos_saldo_neto (s : Estado) (c : Cuenta) :
  In c (Cuentas s) ->
  exists data,
    Dict.get Z.eqb (calcular_saldos s) (c_id c) = Some data /\
    (saldo data ==
       suma_montos (fun t => cuenta_debito_id t =? c_id c) (Transacciones s)
       - suma_montos (fun t => cuenta_credito_id t =? c_id c) (Transacciones s))%Q /\
    ((forall t, In t (Transacciones s) ->
                cuenta_debito_id t <> c_id c /\ cuenta_credito_id t <> c_id c) ->
     (saldo data == 0)%Q).
Proof.
  intro Hin. unfold calcular_saldos.
  destruct (saldos_en_cero_get _ _ Hin) as [d0 Hd0].
  fold (saldos_en_cero (Cuentas s)).
  rewrite (DictFacts.get_map_valores Z.eqb Z.eqb_spec
             (fun id data =>
                mkSaldo (nombre data) (tipo data)
                  (Dict.get_or Z.eqb
                     (SQL.sum_monto_group_by cuenta_debito_id (Transacciones s))
                     id 0%Q
                   - Dict.get_or Z.eqb
                       (SQL.sum_monto_group_by cuenta_credito_id (Transacciones s))
                       id 0%Q)%Q)).
  rewrite Hd0. simpl. eexists. split; [reflexivity|]. simpl.
  rewrite !sum_monto_group_by_get. split; [reflexivity|].
  intro H.
  rewrite !suma_montos_ninguno.
  - reflexivity.
  - intros t Ht. apply Z.eqb_neq. apply (H t Ht).
  - intros t Ht. apply Z.eqb_neq. apply (H t Ht).
Qed.

(** C3 on the scenario's ledger, for CASH. *)
Lemma calcular_saldos_saldo_neto_witness :
  exists data,
    Dict.get Z.eqb (calcular_saldos Ejemplos.con_alquiler) 1 = Some data /\
    (saldo data == 100 - 40)%Q.
Proof.
  destruct (calcular_saldos_saldo_neto Ejemplos.con_alquiler
              (mkCuenta 1 "CASH" "ACTIVO")) as [data [Hg [Hs _]]].
  - left. reflexivity.
  - exists data. split; [exact Hg|].
    rewrite Hs. reflexivity.
Defined.

(** ** Sums over the balances *)

Lemma suma_tipo_cons f tp k data r :
  suma_tipo f tp ((k, data) :: r)
  = if String.eqb (tipo data) tp
    then (f (saldo data) + suma_tipo f tp r)%Q
    else suma_tipo f tp r.
Proof.
  unfold suma_tipo, valores. simpl.
  destruct (String.eqb (tipo data) tp); reflexivity.
Qed.

(** ** Income statement *)

Lemma estado_resultados_fold saldos i g :
  let r :=
    fold_left
      (fun '(ingresos, gastos) '(_, data) =>
         if String.eqb (tipo data) "INGRESO"
         then ((ingresos + Qabs (saldo data))%Q, gastos)
         else if String.eqb (tipo data) "GASTO"
         then (ingresos, (gastos + saldo data)%Q)
         else (ingresos, gastos))
      saldos (i, g) in
  (fst r == i + suma_tipo Qabs "INGRESO" saldos)%Q /\
  (snd r == g + suma_tipo (fun x => x) "GASTO" saldos)%Q.
Proof.
  revert i g. induction saldos as [|[k data] rest IH]; intros i g; simpl.
  - unfold suma_tipo. simpl. split; ring.
  - rewrite !suma_tipo_cons.
    destruct (String.eqb_spec (tipo data) "INGRESO") as [E|NE].
    + destruct (IH (i + Qabs (saldo data))%Q g) as [H1 H2].
      rewrite E. simpl. split; [rewrite H1; ring | exact H2].
    + destruct (String.eqb (tipo data) "GASTO").
      * destruct (IH i (g + saldo data)%Q) as [H1 H2].
        split; [exact H1 | rewrite H2; ring].
      * apply IH.
Qed.

(** The totals of the income statement, read off the balances. *)
Lemma estado_resultados_desde_saldos (s : Estado) :
  let er := calcular_estado_resultados s in
  (ingresos_totales er == suma_tipo Qabs "INGRESO" (calcular_saldos s))%Q /\
  (gastos_totales er == suma_tipo (fun x => x) "GASTO" (calcular_saldos s))%Q /\
  utilidad_perdida_neta er = (ingresos_totales er - gastos_totales er)%Q.
Proof.
  unfold calcular_estado_resultados.
  pose proof (estado_resultados_fold (calcular_saldos s) 0 0) as H.
  cbv zeta in H.
  destruct (fold_left _ (calcular_saldos s) (0%Q, 0%Q)) as [i g].
  simpl in *. destruct H as [H1 H2].
  split; [rewrite H1; ring|]. split; [rewrite H2; ring|reflexivity].
Qed.

(** C9: the income statement adds the absolute balance of each INGRESO
    account, adds the balance of each GASTO account as it is, and reports
    their difference as the net result. *)
Theorem calcular_estado_resultados_totales (s : Estado) :
  let er := calcular_estado_resultados s in
  (ingresos_totales er
   == suma_lista
        (map (fun data => Qabs (saldo data))
             (filter (fun data => String.eqb (tipo data) "INGRESO")
                     (valores (calcular_saldos s)))))%Q /\
  (gastos_totales er
   == suma_lista
        (map saldo
             (filter (fun data => String.eqb (tipo data) "GASTO")
                     (valores (calcular_saldos s)))))%Q /\
  utilidad_perdida_neta er = (ingresos_totales er - gastos_totales er)%Q.
Proof.
  intro er.
  destruct (estado_resultados_desde_saldos s) as [Hi [Hg Hn]].
  fold er in Hi, Hg, Hn.
  split; [exact Hi|]. split; [|exact Hn].
  rewrite Hg. unfold suma_tipo.
  induction (filter _ (valores (calcular_saldos s))) as [|d r IH];
    simpl; [reflexivity|].
  rewrite IH. reflexivity.
Qed.

(** The sign handling is not symmetric: a GASTO account left with a credit
    balance of 40 gives a negative expense total, where an INGRESO account
    with the same balance counts 40. *)
Example gastos_sin_valor_absoluto :
  let s := fst (registrar_transaccion "2024-01-03 08:00:00" "devolucion"
                  1 3 40 "" "" Ejemplos.con_cuentas) in
  (gastos_totales (calcular_estado_resultados s) == -40)%Q /\
  let s' := fst (registrar_transaccion "2024-01-03 08:00:00" "venta"
                   1 2 40 "" "" Ejemplos.con_cuentas) in
  (ingresos_totales (calcular_estado_resultados s') == 40)%Q.
Proof. split; reflexivity. Qed.

(** ** The balances as a list over the registry *)

Lemma calcular_saldos_map (s : Estado) :
  NoDup (map c_id (Cuentas s)) ->
  calcular_saldos s
  = map (fun c => (c_id c,
                   mkSaldo (c_nombre c) (c_tipo c) (saldo_neto_de s (c_id c))))
        (Cuentas s).
Proof.
  intro Hnd. unfold calcular_saldos.
  fold (saldos_en_cero (Cuentas s)).
  rewrite (saldos_en_cero_map _ Hnd), map_map. reflexivity.
Qed.

Lemma id_unico (cs : list Cuenta) (c c' : Cuenta) :
  NoDup (map c_id cs) -> In c cs -> In c' cs -> c_id c' = c_id c -> c' = c.
Proof.
  induction cs as [|c0 r IH]; simpl; intros Hnd Hc Hc' E; [contradiction|].
  inversion Hnd as [|? ? H0 Hr]; subst.
  destruct Hc as [->|Hc], Hc' as [->|Hc'].
  - reflexivity.
  - exfalso. apply H0. rewrite <- E. apply in_map. exact Hc'.
  - exfalso. apply H0. rewrite E. apply in_map. exact Hc.
  - auto.
Qed.

(** ** General ledger *)

Lemma leb_trans (a b c : string) :
  String.leb a b = true -> String.leb b c = true -> String.leb a c = true.
Proof.
  unfold String.leb.
  destruct (String.compare a b) eqn:Eab; try discriminate;
    destruct (String.compare b c) eqn:Ebc; try discriminate; intros _ _.
  - apply OrderedTypeEx.String_as_OT.cmp_eq in Eab. subst b. rewrite Ebc.
    reflexivity.
  - apply OrderedTypeEx.String_as_OT.cmp_eq in Eab. subst b. rewrite Ebc.
    reflexivity.
  - apply OrderedTypeEx.String_as_OT.cmp_eq in Ebc. subst c. rewrite Eab.
    reflexivity.
  - apply OrderedTypeEx.String_as_OT.cmp_lt in Eab, Ebc.
    pose proof (OrderedTypeEx.String_as_OT.lt_trans _ _ _ Eab Ebc) as H.
    apply OrderedTypeEx.String_as_OT.cmp_lt in H.
    unfold OrderedTypeEx.String_as_OT.cmp in H. rewrite H. reflexivity.
Qed.

Lemma last_cons_default {A} (x : A) (l : list A) (d d' : A) :
  last (x :: l) d = last (x :: l) d'.
Proof.
  revert x. induction l as [|y r IH]; intro x; [reflexivity|].
  change (last (y :: r) d = last (y :: r) d'). apply IH.
Qed.

Lemma paso_mayor_fold (id : Z) (acreedor : bool) (ms : list Transaccion) :
  forall filas0 anterior,
    fold_left (paso_mayor id acreedor) ms (filas0, anterior)
    = (filas0 ++ LibroMayorSpec.filas acreedor id anterior ms,
       LibroMayorSpec.saldo_final acreedor id anterior ms).
Proof.
  induction ms as [|m r IH]; intros filas0 anterior.
  - simpl. rewrite app_nil_r. reflexivity.
  - cbn [fold_left]. unfold paso_mayor at 2. cbv zeta.
    rewrite IH. rewrite <- app_assoc.
    unfold LibroMayorSpec.saldo_final.
    cbn [LibroMayorSpec.filas map app].
    unfold LibroMayorSpec.debitAmount, LibroMayorSpec.creditAmount.
    f_equal.
    set (resto := map saldo_acumulado _).
    destruct resto as [|q resto]; [reflexivity|].
    change (last (q :: resto)
              (if acreedor
               then (anterior + ((if cuenta_credito_id m =? id then t_monto m else 0)
                                 - (if cuenta_debito_id m =? id then t_monto m else 0)))%Q
               else (anterior + ((if cuenta_debito_id m =? id then t_monto m else 0)
                                 - (if cuenta_credito_id m =? id then t_monto m else 0)))%Q)
            = last (q :: resto) anterior).
    apply last_cons_default.
Qed.

Lemma tipo_de_cuenta_en_saldos (s : Estado) (c : Cuenta) :
  NoDup (map c_id (Cuentas s)) -> In c (Cuentas s) ->
  map (fun '(_, data) => tipo data)
      (filter (fun '(id, _) => id =? c_id c) (calcular_saldos s))
  = [c_tipo c].
Proof.
  intros Hnd Hin. rewrite (calcular_saldos_map s Hnd).
  pose proof (id_unico (Cuentas s) c) as U.
  specialize (fun c' => U c' Hnd Hin).
  revert Hin U. generalize (saldo_neto_de s). intro f.
  induction (Cuentas s) as [|c0 r IH]; simpl; intros Hin U; [contradiction|].
  inversion Hnd as [|? ? H0 Hr]; subst.
  destruct (Z.eqb_spec (c_id c0) (c_id c)) as [E|NE].
  - assert (c0 = c) by (apply U; auto). subst c0. simpl. f_equal.
    assert (G : forall l, ~ In (c_id c) (map c_id l) ->
                filter (fun '(id, _) => id =? c_id c)
                  (map (fun c1 => (c_id c1,
                          mkSaldo (c_nombre c1) (c_tipo c1) (f (c_id c1)))) l)
                = []).
    { clear. induction l as [|c1 l IHl]; simpl; intro Hn; [reflexivity|].
      destruct (Z.eqb_spec (c_id c1) (c_id c)) as [E|NE].
      - exfalso. apply Hn. left. exact E.
      - apply IHl. intro H. apply Hn. right. exact H. }
    rewrite (G r H0). reflexivity.
  - destruct Hin as [->|Hin]; [contradiction|].
    apply IH; auto.
Qed.

Lemma en_lista_acreedor (tp : string) :
  en_lista tp tipos_saldo_acreedor = LibroMayorSpec.lado_acreedor tp.
Proof.
  unfold en_lista, tipos_saldo_acreedor, LibroMayorSpec.lado_acreedor. simpl.
  rewrite orb_false_r, orb_assoc. reflexivity.
Qed.

(** C8: for an account of the registry, the ledger view walks the entries
    that touch the account in ascending [fecha] order; its rows and final
    balance are those of the running ledger, which adds credit minus debit
    on an account of type PASIVO, CAPITAL or INGRESO and debit minus credit
    on any other type.  For CASH (ACTIVO) debited 100 and then credited 40
    the rows are (100, 0, 100) and (0, 40, 60). *)
Theorem mayor_saldo_por_lado_natural :
  (forall (s : Estado) (c : Cuenta),
     NoDup (map c_id (Cuentas s)) -> In c (Cuentas s) -> c_id c <> 0 ->
     let movimientos := obtener_movimientos_cuenta s (c_id c) in
     Permutation movimientos
       (filter (fun t => (cuenta_debito_id t =? c_id c)
                         || (cuenta_credito_id t =? c_id c))
               (Transacciones s)) /\
     StronglySorted (fun a b => String.leb (t_fecha a) (t_fecha b) = true)
                    movimientos /\
     actualizar_mayor_cuenta_seleccionada s (c_id c)
     = Some (LibroMayorSpec.filas (LibroMayorSpec.lado_acreedor (c_tipo c))
               (c_id c) 0 movimientos,
             LibroMayorSpec.saldo_final (LibroMayorSpec.lado_acreedor (c_tipo c))
               (c_id c) 0 movimientos)) /\
  actualizar_mayor_cuenta_seleccionada Ejemplos.con_alquiler 1
  = Some ([mkFilaMayor "2024-01-01 10:00:00" "venta" 100 0 100;
           mkFilaMayor "2024-01-02 09:30:00" "alquiler" 0 40 60],
          60%Q).
Proof.
  split; [|reflexivity].
  intros s c Hnd Hin Hid movimientos.
  split; [apply OrdenFacts.order_by_perm|].
  split.
  - apply OrdenFacts.order_by_sorted.
    + intros a b. apply String.leb_total.
    + intros a b d. apply leb_trans.
  - unfold actualizar_mayor_cuenta_seleccionada.
    apply Z.eqb_neq in Hid. rewrite Hid.
    rewrite (tipo_de_cuenta_en_saldos s c Hnd Hin).
    rewrite en_lista_acreedor.
    fold movimientos. rewrite paso_mayor_fold. reflexivity.
Qed.

(** C8 on the scenario's ledger, for the credit-side account SALES. *)
Lemma mayor_saldo_por_lado_natural_witness :
  actualizar_mayor_cuenta_seleccionada Ejemplos.con_alquiler 2
  = Some ([mkFilaMayor "2024-01-01 10:00:00" "venta" 0 100 100], 100%Q).
Proof.
  pose proof (proj1 mayor_saldo_por_lado_natural Ejemplos.con_alquiler
                (mkCuenta 2 "SALES" "INGRESO")) as H.
  cbv zeta in H.
  destruct H as [_ [_ H]].
  - repeat constructor; simpl; intuition discriminate.
  - right. left. reflexivity.
  - discriminate.
  - exact H.
Defined.

(** ** Bulk import *)

Lemma importar_fila_casos {upper : string -> string}
    reloj rd rb index row s n errs :
  (fila_rechazada upper (nombre_a_id s) row = true /\
   exists e, importar_fila upper reloj rd rb index row (s, n, errs)
             = (s, n, errs ++ [e])) \/
  (fila_rechazada upper (nombre_a_id s) row = false /\
   exists t, importar_fila upper reloj rd rb index row (s, n, errs)
             = (mkEstado (Cuentas s) (Transacciones s ++ [t]) (nombre_a_id s),
                S n, errs) /\
             registra upper (nombre_a_id s) row t).
Proof.
  unfold importar_fila, fila_rechazada, registra.
  destruct (MONTO row) as [|monto|]; try (left; split; [reflexivity|eauto]).
  destruct (Dict.get String.eqb (nombre_a_id s)
              (upper (Texto.strip (CUENTA_DEBITO row)))) as [d|] eqn:Ed;
    simpl; [|left; split; [reflexivity|eauto]].
  destruct (d =? 0) eqn:Ed0; simpl; [left; split; [reflexivity|eauto]|].
  destruct (Dict.get String.eqb (nombre_a_id s)
              (upper (Texto.strip (CUENTA_CREDITO row)))) as [c|] eqn:Ec;
    simpl; [|left; split; [reflexivity|eauto]].
  destruct (c =? 0) eqn:Ec0; simpl; [left; split; [reflexivity|eauto]|].
  destruct (Qle_bool monto 0) eqn:Em; [left; split; [reflexivity|eauto]|].
  right. split; [reflexivity|].
  eexists. split; [reflexivity|]. simpl. auto.
Qed.

Lemma importar_filas_resultado {upper : string -> string} reloj rd rb rows :
  forall index s n errs,
  exists nuevas errs_nuevos,
    importar_filas upper reloj rd rb index rows (s, n, errs)
    = (mkEstado (Cuentas s) (Transacciones s ++ nuevas) (nombre_a_id s),
       (n + List.length nuevas)%nat, errs ++ errs_nuevos) /\
    Forall2 (registra upper (nombre_a_id s))
            (filter (fun row => negb (fila_rechazada upper (nombre_a_id s) row)) rows)
            nuevas /\
    List.length errs_nuevos
    = List.length (filter (fila_rechazada upper (nombre_a_id s)) rows).
Proof.
  induction rows as [|row rest IH]; intros index s n errs.
  - exists [], []. destruct s. simpl. rewrite !app_nil_r, Nat.add_0_r.
    repeat split. constructor.
  - cbn [importar_filas].
    destruct (importar_fila_casos (upper:=upper) reloj rd rb index row s n errs)
      as [[Hr [e He]]|[Hr [t [Ht Hreg]]]]; cbn [filter]; rewrite Hr; simpl negb.
    + rewrite He.
      destruct (IH (index + 1) s n (errs ++ [e])) as [nuevas [en [H1 [H2 H3]]]].
      exists nuevas, (e :: en). rewrite H1, <- app_assoc.
      split; [reflexivity|]. split; [exact H2|]. simpl. f_equal. exact H3.
    + rewrite Ht.
      destruct (IH (index + 1)
                  (mkEstado (Cuentas s) (Transacciones s ++ [t]) (nombre_a_id s))
                  (S n) errs) as [nuevas [en [H1 [H2 H3]]]].
      simpl in H1, H2, H3.
      exists (t :: nuevas), en. rewrite H1, <- app_assoc.
      split; [simpl; do 2 f_equal; lia|].
      split; [constructor; assumption|exact H3].
Qed.

(** C10: once the sheet has the required columns, every row that passes
    validation is recorded in the journal, whatever happens to the others;
    the call reports [True] exactly when no row was rejected, and when some
    row was rejected it reports [False] with the number of rows recorded,
    the number of errors, the first ten error details at most and, beyond
    ten errors, the number of those left out. *)
Theorem importar_transacciones_excel_parcial {upper : string -> string}
    (reloj : Z -> string) (df : DataFrame) (s : Estado) :
  forallb (fun col => en_lista col (map (normalizar_columna upper) (columns df)))
          required_cols = true ->
  let r := importar_transacciones_excel upper reloj (Leido df) s in
  let admitidas :=
    filter (fun row => negb (fila_rechazada upper (nombre_a_id s) row)) (filas df) in
  let n_errores :=
    List.length (filter (fila_rechazada upper (nombre_a_id s)) (filas df)) in
  Cuentas (fst r) = Cuentas s /\
  (exists nuevas,
     Transacciones (fst r) = Transacciones s ++ nuevas /\
     Forall2 (registra upper (nombre_a_id s)) admitidas nuevas) /\
  (fst (snd r) = true <-> n_errores = O) /\
  (n_errores = O ->
   snd r = (true, Some (MsgImportacionExitosa (List.length admitidas)))) /\
  ((0 < n_errores)%nat ->
   exists detalle,
     snd r = (false,
              Some (MsgImportacionParcial (List.length admitidas) n_errores
                      detalle
                      (if (10 <? n_errores)%nat
                       then Some (n_errores - 10)%nat else None))) /\
     List.length detalle = Nat.min 10 n_errores).
Proof.
  intros Hcols r admitidas n_errores. subst r.
  unfold importar_transacciones_excel. rewrite Hcols. cbn [negb].
  destruct (importar_filas_resultado (upper:=upper) reloj
              (en_lista "REF_DOC" (map (normalizar_columna upper) (columns df)))
              (en_lista "REF_BANCO" (map (normalizar_columna upper) (columns df)))
              (filas df) 0 s O [])
    as [nuevas [errs [H1 [H2 H3]]]].
  rewrite H1. fold admitidas in H2. fold n_errores in H3.
  pose proof (Forall2_length H2) as Hlen. simpl app. simpl Nat.add.
  destruct errs as [|e errs].
  - simpl in H3. simpl.
    split; [reflexivity|]. split; [eauto|].
    split; [split; auto|].
    split; [intros _; rewrite Hlen; reflexivity|].
    intro H. lia.
  - cbn [fst snd Cuentas Transacciones].
    split; [reflexivity|]. split; [eauto|].
    split; [split; [discriminate|intro H0; rewrite <- H3 in H0; discriminate]|].
    split; [intro H0; rewrite <- H3 in H0; discriminate|].
    intros _. eexists. rewrite Hlen, H3. split; [reflexivity|].
    rewrite length_firstn, H3. reflexivity.
Qed.

(** C10 on a sheet of three rows whose second row is rejected: two entries
    are recorded and the call reports failure with one error. *)
Lemma importar_transacciones_excel_parcial_witness :
  exists detalle,
    snd (importar_transacciones_excel Texto.upper_latin1 EjemploImportacion.reloj
           (Leido EjemploImportacion.hoja) Ejemplos.con_cuentas)
    = (false, Some (MsgImportacionParcial 2 1 detalle None)) /\
    List.length detalle = 1%nat.
Proof.
  destruct (proj2 (proj2 (proj2 (proj2
              (importar_transacciones_excel_parcial (upper:=Texto.upper_latin1)
                      EjemploImportacion.reloj
                 EjemploImportacion.hoja Ejemplos.con_cuentas eq_refl)))))
    as [detalle [H1 H2]].
  - vm_compute. lia.
  - exists detalle. split; [exact H1|exact H2].
Defined.

(** ** Ledgers reachable through the backend *)


Lemma existe_cuenta_ids s id :
  SQL.existe_cuenta s id = true <-> In id (map c_id (Cuentas s)).
Proof.
  rewrite existe_cuenta_In, in_map_iff.
  split; intros [c [H1 H2]]; exists c; auto.
Qed.

Lemma max_ids_cota (ids : list Z) (x : Z) :
  In x ids -> x <= fold_right Z.max 0 ids.
Proof.
  induction ids as [|y r IH]; simpl; [contradiction|].
  intros [->|H]; [lia|]. specialize (IH H). lia.
Qed.

Lemma nuevo_rowid_nuevo (ids : list Z) : ~ In (SQL.nuevo_rowid ids) ids.
Proof.
  intro H. apply max_ids_cota in H. unfold SQL.nuevo_rowid in H. lia.
Qed.

(** Deleting rows keeps the ids distinct. *)
Lemma ids_distintos_filter (p : Cuenta -> bool) (cs : list Cuenta) :
  NoDup (map c_id cs) -> NoDup (map c_id (filter p cs)).
Proof.
  intro Hnd. induction cs as [|c r IH]; simpl; [constructor|].
  simpl in Hnd. inversion Hnd as [|? ? Hc Hr]; subst.
  destruct (p c); [|auto]. simpl. constructor; [|auto].
  intro Hin. apply Hc. apply in_map_iff in Hin.
  destruct Hin as [c' [E Hc']]. apply filter_In in Hc'.
  rewrite <- E. apply in_map. tauto.
Qed.

Lemma NoDup_snoc {A} (l : list A) (x : A) :
  NoDup l -> ~ In x l -> NoDup (l ++ [x]).
Proof.
  intros Hl Hx.
  apply (Permutation_NoDup (Permutation_cons_append l x)).
  constructor; assumption.
Qed.

Lemma crear_cuenta_bien_formado {upper : string -> string} nombre tipo s :
  bien_formado s -> bien_formado (fst (crear_cuenta upper nombre tipo s)).
Proof.
  intros [Hids Htipos Hrefs]. unfold crear_cuenta.
  destruct (String.eqb _ ""); [split; assumption|].
  destruct (en_lista (upper (Texto.strip tipo)) tipos_cuenta) eqn:Et;
    [|split; assumption].
  unfold SQL.insert_cuenta. cbn [negb].
  destruct (SQL.nombre_en_uso s _); [split; assumption|].
  split; cbn [fst Cuentas Transacciones].
  - rewrite map_app. simpl.
    apply NoDup_snoc; [exact Hids|apply nuevo_rowid_nuevo].
  - intros c Hc. apply in_app_or in Hc. destruct Hc as [Hc|[<-|[]]]; auto.
  - intros t Ht. destruct (Hrefs t Ht) as [H1 H2].
    rewrite map_app. split; apply in_or_app; left; assumption.
Qed.

Lemma eliminar_cuenta_bien_formado {upper : string -> string} cuenta_id s :
  bien_formado s -> bien_formado (fst (eliminar_cuenta upper cuenta_id s)).
Proof.
  intros [Hids Htipos Hrefs]. unfold eliminar_cuenta.
  destruct (SQL.count_transacciones_de s cuenta_id) as [|n] eqn:E;
    [|split; assumption].
  pose proof (proj1 (count_transacciones_de_0 s cuenta_id) E) as Hno.
  unfold SQL.delete_cuenta. rewrite E.
  split; cbn [fst Cuentas Transacciones Nat.ltb Nat.leb andb SQL.foreign_keys].
  - apply ids_distintos_filter. exact Hids.
  - intros c Hc. apply filter_In in Hc. apply Htipos. tauto.
  - intros t Ht. destruct (Hrefs t Ht) as [H1 H2].
    destruct (Hno t Ht) as [N1 N2].
    apply in_map_iff in H1, H2.
    destruct H1 as [c1 [E1 H1]], H2 as [c2 [E2 H2]].
    split; apply in_map_iff; [exists c1|exists c2]; (split; [assumption|]);
      apply filter_In; (split; [assumption|]);
      apply negb_true_iff, Z.eqb_neq; congruence.
Qed.

Lemma registrar_transaccion_bien_formado a d di ci m rd rb s :
  SQL.existe_cuenta s di = true -> SQL.existe_cuenta s ci = true ->
  bien_formado s -> bien_formado (fst (registrar_transaccion a d di ci m rd rb s)).
Proof.
  intros Hd Hc [Hids Htipos Hrefs]. unfold registrar_transaccion.
  destruct (di =? ci); [split; assumption|].
  destruct (Qle_bool m 0); [split; assumption|].
  unfold SQL.insert_transaccion.
  split; cbn [fst Cuentas Transacciones andb SQL.foreign_keys];
    [assumption|assumption|].
  intros t Ht. apply in_app_or in Ht. destruct Ht as [Ht|[<-|[]]]; [auto|].
  simpl. split; apply existe_cuenta_ids; assumption.
Qed.

Lemma eliminar_transaccion_bien_formado id s :
  bien_formado s -> bien_formado (fst (eliminar_transaccion id s)).
Proof.
  intros [Hids Htipos Hrefs]. unfold eliminar_transaccion.
  split; cbn [fst Cuentas Transacciones]; [assumption|assumption|].
  intros t Ht. simpl in Ht. apply filter_In in Ht. apply Hrefs. tauto.
Qed.

Lemma alcanzable_bien_formado {upper : string -> string}
    s : alcanzable upper s -> bien_formado s.
Proof.
  induction 1 as [|s op _ IH Hop].
  - split; simpl; [constructor|contradiction|contradiction].
  - destruct op as [n t|id|a d di ci m rd rb|id]; simpl.
    + apply crear_cuenta_bien_formado. exact IH.
    + apply eliminar_cuenta_bien_formado. exact IH.
    + destruct Hop as [Hd Hc].
      apply registrar_transaccion_bien_formado; assumption.
    + apply eliminar_transaccion_bien_formado. exact IH.
Qed.

(** ** Every entry debits what it credits *)

Lemma suma_lista_ceros {A} (l : list A) :
  (suma_lista (map (fun _ => 0%Q) l) == 0)%Q.
Proof.
  induction l as [|x r IH]; simpl; [reflexivity|]. rewrite IH. ring.
Qed.

Lemma suma_indicador_fuera (cs : list Cuenta) (k : Z) (m : Q) :
  ~ In k (map c_id cs) ->
  (suma_lista (map (fun c => if k =? c_id c then m else 0%Q) cs) == 0)%Q.
Proof.
  induction cs as [|c r IH]; simpl; intro H; [reflexivity|].
  destruct (Z.eqb_spec k (c_id c)) as [E|NE].
  - exfalso. apply H. left. symmetry. exact E.
  - rewrite IH; [ring|]. intro Hin. apply H. right. exact Hin.
Qed.

Lemma suma_indicador_dentro (cs : list Cuenta) (k : Z) (m : Q) :
  NoDup (map c_id cs) -> In k (map c_id cs) ->
  (suma_lista (map (fun c => if k =? c_id c then m else 0%Q) cs) == m)%Q.
Proof.
  induction cs as [|c r IH]; simpl; intros Hnd Hin; [contradiction|].
  inversion Hnd as [|? ? Hc Hr]; subst.
  destruct (Z.eqb_spec k (c_id c)) as [E|NE].
  - rewrite suma_indicador_fuera; [ring|]. rewrite E. exact Hc.
  - destruct Hin as [E|Hin]; [exfalso; apply NE; symmetry; exact E|].
    rewrite IH by assumption. ring.
Qed.

(** Summed over the registry, the per-account sums of one leg give the sum
    of all the amounts of the journal. *)
Lemma suma_por_cuenta_total (clave : Transaccion -> Z)
    (cs : list Cuenta) (ts : list Transaccion) :
  NoDup (map c_id cs) ->
  (forall t, In t ts -> In (clave t) (map c_id cs)) ->
  (suma_lista (map (fun c => suma_montos (fun t => clave t =? c_id c) ts) cs)
   == suma_lista (map t_monto ts))%Q.
Proof.
  intros Hnd. induction ts as [|t r IH]; intro Href.
  - simpl. apply suma_lista_ceros.
  - assert (G : (suma_lista
                   (map (fun c => suma_montos (fun u => clave u =? c_id c) (t :: r))
                        cs)
                 == suma_lista
                      (map (fun c => if clave t =? c_id c then t_monto t else 0%Q)
                           cs)
                    + suma_lista
                        (map (fun c => suma_montos (fun u => clave u =? c_id c) r)
                             cs))%Q).
    { clear. induction cs as [|c cs IHc]; simpl; [ring|].
      rewrite IHc. destruct (clave t =? c_id c); ring. }
    rewrite G, IH by (intros u Hu; apply Href; right; exact Hu).
    rewrite (suma_indicador_dentro cs (clave t) (t_monto t) Hnd)
      by (apply Href; left; reflexivity).
    reflexivity.
Qed.

Lemma suma_saldos_netos (s : Estado) (cs : list Cuenta) :
  (suma_lista (map (fun c => saldo_neto_de s (c_id c)) cs)
   == suma_lista (map (fun c => suma_montos
                                  (fun t => cuenta_debito_id t =? c_id c)
                                  (Transacciones s)) cs)
      - suma_lista (map (fun c => suma_montos
                                    (fun t => cuenta_credito_id t =? c_id c)
                                    (Transacciones s)) cs))%Q.
Proof.
  induction cs as [|c r IH]; simpl; [ring|].
  rewrite IH. unfold saldo_neto_de. rewrite !sum_monto_group_by_get. ring.
Qed.

(** In a well-formed store the balances of all the accounts add up to zero. *)
Lemma suma_saldos_cero (s : Estado) :
  bien_formado s ->
  (suma_lista (map saldo (valores (calcular_saldos s))) == 0)%Q.
Proof.
  intros [Hids _ Hrefs].
  rewrite (calcular_saldos_map s Hids). unfold valores.
  rewrite !map_map. cbn [snd saldo].
  rewrite suma_saldos_netos.
  rewrite !suma_por_cuenta_total; try assumption.
  - ring.
  - intros t Ht. apply (Hrefs t Ht).
  - intros t Ht. apply (Hrefs t Ht).
Qed.

(** ** Trial balance *)

Lemma Qlt_bool_asym (x y : Q) : Qlt_bool x y = true -> Qlt_bool y x = false.
Proof.
  rewrite Qlt_bool_iff, Qlt_bool_false_iff. apply Qlt_le_weak.
Qed.

Lemma columnas_saldo (data : Saldo) :
  (BalanceSpec.debitColumn data - BalanceSpec.creditColumn data == saldo data)%Q.
Proof.
  unfold BalanceSpec.debitColumn, BalanceSpec.creditColumn.
  destruct (Qlt_bool 0 (saldo data)) eqn:E1.
  - rewrite (Qlt_bool_asym _ _ E1). ring.
  - destruct (Qlt_bool (saldo data) 0) eqn:E2.
    + apply Qlt_bool_iff in E2.
      rewrite Qabs_neg by (apply Qlt_le_weak; exact E2). ring.
    + apply Qlt_bool_false_iff in E1, E2.
      rewrite (Qle_antisym _ _ E1 E2). ring.
Qed.

Lemma paso_balance_fila (filas0 : list FilaBalance) (td tc : Q) (data : Saldo) :
  let r := paso_balance (filas0, td, tc) data in
  fst (fst r) = filas0 ++ [BalanceSpec.row data] /\
  (snd (fst r) == td + BalanceSpec.debitColumn data)%Q /\
  (snd r == tc + BalanceSpec.creditColumn data)%Q.
Proof.
  unfold paso_balance, BalanceSpec.row, BalanceSpec.debitColumn,
    BalanceSpec.creditColumn.
  destruct (Qlt_bool 0 (saldo data)) eqn:E1.
  - rewrite (Qlt_bool_asym _ _ E1). simpl. repeat split; ring.
  - destruct (Qlt_bool (saldo data) 0); simpl; repeat split; ring.
Qed.

Lemma paso_balance_fold (l : list Saldo) :
  forall filas0 td tc,
    let r := fold_left paso_balance l (filas0, td, tc) in
    fst (fst r) = filas0 ++ map BalanceSpec.row l /\
    (snd (fst r) == td + suma_lista (map BalanceSpec.debitColumn l))%Q /\
    (snd r == tc + suma_lista (map BalanceSpec.creditColumn l))%Q.
Proof.
  induction l as [|data rest IH]; intros filas0 td tc.
  - simpl. rewrite app_nil_r. repeat split; ring.
  - cbn [fold_left].
    pose proof (paso_balance_fila filas0 td tc data) as H. cbv zeta in H.
    destruct (paso_balance (filas0, td, tc) data) as [[f1 td1] tc1].
    simpl in H. destruct H as [Hf [Htd Htc]].
    specialize (IH f1 td1 tc1). cbv zeta in IH.
    destruct IH as [IHf [IHtd IHtc]].
    cbv zeta. rewrite IHf, IHtd, IHtc, Hf, Htd, Htc, <- app_assoc.
    simpl. repeat split; ring.
Qed.

Lemma fold_left_valores {A} (f : A -> Saldo -> A) (l : list (Z * Saldo)) (a : A) :
  fold_left (fun acc '(_, data) => f acc data) l a
  = fold_left f (valores l) a.
Proof.
  revert a. induction l as [|[k data] r IH]; intro a; simpl; [reflexivity|].
  apply IH.
Qed.

Lemma valores_filter (p : Saldo -> bool) (l : list (Z * Saldo)) :
  valores (filter (fun '(_, data) => p data) l) = filter p (valores l).
Proof.
  induction l as [|[k data] r IH]; simpl; [reflexivity|].
  destruct (p data); simpl; rewrite IH; reflexivity.
Qed.

(** The rows and totals of the view are those of the specification. *)
Lemma actualizar_balance_comp_spec (s : Estado) :
  let b := actualizar_balance_comp s in
  b_filas b = BalanceSpec.rows (calcular_saldos s) /\
  (total_debitos_netos b == BalanceSpec.totalDebit (calcular_saldos s))%Q /\
  (total_creditos_netos b == BalanceSpec.totalCredit (calcular_saldos s))%Q /\
  cuadrado b
  = Qlt_bool (Qabs (total_debitos_netos b - total_creditos_netos b)) tolerancia.
Proof.
  unfold actualizar_balance_comp.
  rewrite (fold_left_valores paso_balance), valores_filter.
  pose proof (paso_balance_fold
                (filter (fun data => Qlt_bool epsilon (Qabs (saldo data)))
                        (valores (calcular_saldos s))) [] 0 0) as H.
  cbv zeta in H.
  destruct (fold_left paso_balance _ _) as [[f td] tc].
  simpl in *. destruct H as [Hf [Htd Htc]].
  unfold BalanceSpec.rows, BalanceSpec.totalDebit, BalanceSpec.totalCredit,
    BalanceSpec.kept.
  split; [exact Hf|]. split; [rewrite Htd; ring|].
  split; [rewrite Htc; ring|reflexivity].
Qed.


Lemma suma_conservados (l : list Saldo) :
  (forall data, In data l ->
                (saldo data == 0)%Q \/ (epsilon < Qabs (saldo data))%Q) ->
  (suma_lista (map saldo l)
   == suma_lista
        (map saldo
             (filter (fun data => Qlt_bool epsilon (Qabs (saldo data))) l)))%Q.
Proof.
  induction l as [|data r IH]; simpl; intro H; [reflexivity|].
  rewrite IH by (intros d Hd; apply H; right; exact Hd).
  destruct (Qlt_bool epsilon (Qabs (saldo data))) eqn:E; simpl; [reflexivity|].
  destruct (H data (or_introl eq_refl)) as [H0|H1].
  - rewrite H0. ring.
  - apply Qlt_bool_iff in H1. congruence.
Qed.

Lemma suma_columnas (l : list Saldo) :
  (suma_lista (map BalanceSpec.debitColumn l)
   - suma_lista (map BalanceSpec.creditColumn l)
   == suma_lista (map saldo l))%Q.
Proof.
  induction l as [|data r IH]; simpl; [ring|].
  rewrite <- IH, <- (columnas_saldo data). ring.
Qed.

Lemma con_cuentas_alcanzable : alcanzable Texto.upper_latin1 Ejemplos.con_cuentas.
Proof.
  exact (alcanzable_paso _ (CrearCuenta "rent" "gasto")
           (alcanzable_paso _ (CrearCuenta "sales" "ingreso")
              (alcanzable_paso _ (CrearCuenta " cash " "activo")
                 alcanzable_inicial I) I) I).
Qed.

(** ** How far the trial balance can be off *)

Lemma suma_particion (p : Saldo -> bool) (l : list Saldo) :
  (suma_lista (map saldo l)
   == suma_lista (map saldo (filter p l))
      + suma_lista (map saldo (filter (fun d => negb (p d)) l)))%Q.
Proof.
  induction l as [|d r IH]; simpl; [ring|].
  destruct (p d); simpl; rewrite IH; ring.
Qed.

Lemma suma_ocultas_cota (l : list Saldo) :
  (forall d, In d l -> (Qabs (saldo d) <= epsilon)%Q) ->
  (Qabs (suma_lista (map saldo l))
   <= epsilon * inject_Z (Z.of_nat (List.length l)))%Q.
Proof.
  induction l as [|d r IH]; intro H.
  - simpl. unfold Qle. simpl. lia.
  - cbn [map suma_lista fold_right List.length].
    fold (suma_lista (map saldo r)).
    eapply Qle_trans; [apply Qabs_triangle|].
    specialize (IH (fun d' Hd' => H d' (or_intror Hd'))).
    pose proof (H d (or_introl eq_refl)) as Hd.
    rewrite Nat2Z.inj_succ. unfold Z.succ. rewrite inject_Z_plus.
    change (inject_Z 1) with 1%Q. lra.
Qed.

Lemma length_particion {A} (p : A -> bool) (l : list A) :
  List.length l
  = (List.length (filter p l)
     + List.length (filter (fun x => negb (p x)) l))%nat.
Proof.
  induction l as [|x r IH]; simpl; [reflexivity|].
  destruct (p x); simpl; lia.
Qed.



(** A test that decides [montos_exactos] for a given unit. *)
Lemma montos_exactos_prueba (k : Z) (ts : list Transaccion) :
  0 <= k <= 52 ->
  forallb (fun t => (Qnum (t_monto t) * 2 ^ k) mod Zpos (Qden (t_monto t)) =? 0)
          ts = true ->
  Qle_bool (suma_lista (map t_monto ts) * inject_Z (2 ^ k)) (inject_Z (2 ^ 50))
  = true ->
  montos_exactos ts.
Proof.
  intros Hk Hm Hs. exists k. split; [exact Hk|]. split.
  - intros t Ht. rewrite forallb_forall in Hm. specialize (Hm t Ht).
    apply Z.eqb_eq in Hm.
    exists ((Qnum (t_monto t) * 2 ^ k) / Zpos (Qden (t_monto t))).
    destruct (t_monto t) as [a b]. unfold Qeq. cbn [Qnum Qden] in *.
    cbn [Qmult inject_Z Qnum Qden]. rewrite Pos.mul_1_r, Z.mul_1_r.
    rewrite (Z.mul_comm (_ / _)). apply Z.div_exact; [discriminate|exact Hm].
  - apply Qle_bool_iff. exact Hs.
Qed.




(** ** Balance sheet *)

Lemma balance_general_fold (saldos : list (Z * Saldo)) :
  forall a p c,
    let r :=
      fold_left
        (fun '(a, p, c) '(_, data) =>
           if String.eqb (tipo data) "ACTIVO"
           then ((a + saldo data)%Q, p, c)
           else if String.eqb (tipo data) "PASIVO"
           then (a, (p + Qabs (saldo data))%Q, c)
           else if String.eqb (tipo data) "CAPITAL"
           then (a, p, (c + Qabs (saldo data))%Q)
           else (a, p, c))
        saldos (a, p, c) in
    (fst (fst r) == a + suma_tipo (fun x => x) "ACTIVO" saldos)%Q /\
    (snd (fst r) == p + suma_tipo Qabs "PASIVO" saldos)%Q /\
    (snd r == c + suma_tipo Qabs "CAPITAL" saldos)%Q.
Proof.
  induction saldos as [|[k data] rest IH]; intros a p c.
  - unfold suma_tipo. simpl. repeat split; ring.
  - cbn [fold_left]. rewrite !suma_tipo_cons.
    destruct (String.eqb_spec (tipo data) "ACTIVO") as [E|_].
    + rewrite E. simpl.
      destruct (IH (a + saldo data)%Q p c) as [H1 [H2 H3]].
      split; [rewrite H1; ring|]. split; assumption.
    + destruct (String.eqb_spec (tipo data) "PASIVO") as [E|_].
      * rewrite E. simpl.
        destruct (IH a (p + Qabs (saldo data))%Q c) as [H1 [H2 H3]].
        split; [assumption|]. split; [rewrite H2; ring|assumption].
      * destruct (String.eqb (tipo data) "CAPITAL").
        -- destruct (IH a p (c + Qabs (saldo data))%Q) as [H1 [H2 H3]].
           split; [assumption|]. split; [assumption|rewrite H3; ring].
        -- apply IH.
Qed.

(** The totals of the balance sheet, read off the balances. *)
Lemma calcular_balance_general_totales (s : Estado) :
  let bg := calcular_balance_general s in
  (activo bg == suma_tipo (fun x => x) "ACTIVO" (calcular_saldos s))%Q /\
  (pasivo bg == suma_tipo Qabs "PASIVO" (calcular_saldos s))%Q /\
  (capital bg == suma_tipo Qabs "CAPITAL" (calcular_saldos s))%Q /\
  utilidad_neta bg = utilidad_perdida_neta (calcular_estado_resultados s) /\
  (pasivo_mas_capital_ajustado bg
   == pasivo bg + capital bg + utilidad_neta bg)%Q.
Proof.
  unfold calcular_balance_general.
  pose proof (balance_general_fold (calcular_saldos s) 0 0 0) as H.
  cbv zeta in H.
  destruct (fold_left _ (calcular_saldos s) (0%Q, 0%Q, 0%Q)) as [[a p] c].
  simpl in *. destruct H as [H1 [H2 H3]].
  split; [rewrite H1; ring|]. split; [rewrite H2; ring|].
  split; [rewrite H3; ring|]. split; [reflexivity|ring].
Qed.

Lemma tipo_valido (tp : string) :
  en_lista tp tipos_cuenta = true ->
  tp = "ACTIVO" \/ tp = "PASIVO" \/ tp = "CAPITAL" \/ tp = "INGRESO"
  \/ tp = "GASTO".
Proof.
  unfold en_lista, tipos_cuenta. simpl.
  destruct (String.eqb_spec tp "ACTIVO") as [->|_]; [tauto|].
  destruct (String.eqb_spec tp "PASIVO") as [->|_]; [tauto|].
  destruct (String.eqb_spec tp "CAPITAL") as [->|_]; [tauto|].
  destruct (String.eqb_spec tp "INGRESO") as [->|_]; [tauto|].
  destruct (String.eqb_spec tp "GASTO") as [->|_]; [tauto|].
  simpl. discriminate.
Qed.

(** With every account in one of the five types, the balances split by
    type. *)
Lemma suma_por_tipos (l : list (Z * Saldo)) :
  (forall data, In data (valores l) -> en_lista (tipo data) tipos_cuenta = true) ->
  (suma_lista (map saldo (valores l))
   == suma_tipo (fun x => x) "ACTIVO" l + suma_tipo (fun x => x) "PASIVO" l
      + suma_tipo (fun x => x) "CAPITAL" l + suma_tipo (fun x => x) "INGRESO" l
      + suma_tipo (fun x => x) "GASTO" l)%Q.
Proof.
  induction l as [|[k data] r IH]; intro H.
  - unfold suma_tipo. simpl. ring.
  - rewrite !suma_tipo_cons. cbn [valores map snd suma_lista fold_right].
    fold (valores r). fold (suma_lista (map saldo (valores r))).
    rewrite IH by (intros d Hd; apply H; right; exact Hd).
    destruct (tipo_valido _ (H data (or_introl eq_refl)))
      as [E|[E|[E|[E|E]]]]; rewrite E; simpl; ring.
Qed.

Lemma suma_tipo_acreedor (tp : string) (l : list (Z * Saldo)) :
  (forall data, In data (valores l) -> tipo data = tp -> (saldo data <= 0)%Q) ->
  (suma_tipo Qabs tp l == - suma_tipo (fun x => x) tp l)%Q.
Proof.
  induction l as [|[k data] r IH]; intro H.
  - unfold suma_tipo. simpl. ring.
  - rewrite !suma_tipo_cons.
    specialize (IH (fun d Hd => H d (or_intror Hd))).
    destruct (String.eqb_spec (tipo data) tp) as [E|_]; [|exact IH].
    rewrite IH, Qabs_neg by (apply (H data); [left; reflexivity|exact E]).
    ring.
Qed.

Lemma saldos_tipos_validos (s : Estado) :
  bien_formado s ->
  forall data, In data (valores (calcular_saldos s)) ->
               en_lista (tipo data) tipos_cuenta = true.
Proof.
  intros [Hids Htipos _] data Hd.
  rewrite (calcular_saldos_map s Hids) in Hd. unfold valores in Hd.
  rewrite map_map in Hd. apply in_map_iff in Hd.
  destruct Hd as [c [<- Hc]]. simpl. apply Htipos. exact Hc.
Qed.

(** C2: the balance sheet does not satisfy the accounting equation in
    every state reached through the four operations.  With CASH (ACTIVO)
    and LOAN (PASIVO) created and one entry of 100 that debits LOAN and
    credits CASH, [calcular_balance_general] adds the absolute value of
    LOAN's debit-side balance to the liabilities: the assets total -100,
    liabilities plus equity plus result total 100, and the flag is "NO",
    where the comment of the source reads
    [Activo = Pasivo + Capital + Utilidad]. *)
Lemma ecuacion_contable_descuadrada :
  alcanzable Texto.upper_latin1 Contraejemplos.pasivo_deudor /\
  let bg := calcular_balance_general Contraejemplos.pasivo_deudor in
  (activo bg == -100)%Q /\ (pasivo_mas_capital_ajustado bg == 100)%Q /\
  cuadre_balance_general Contraejemplos.pasivo_deudor = false /\
  ~ (Qabs (activo bg - pasivo_mas_capital_ajustado bg) <= 1 # 100)%Q.
Proof.
  split.
  - unfold Contraejemplos.pasivo_deudor.
    apply alcanzable_paso; [|split; reflexivity].
    apply alcanzable_paso; [|exact I].
    apply alcanzable_paso; [|exact I].
    apply alcanzable_inicial.
  - split; [reflexivity|]. split; [reflexivity|]. split; [reflexivity|].
    vm_compute. intro H. apply H. reflexivity.
Qed.

(** X21: in every state reached through [crear_cuenta],
    [registrar_transaccion] between existing accounts,
    [eliminar_transaccion] and [eliminar_cuenta], with the amounts of
    [montos_exactos], if no PASIVO, CAPITAL or INGRESO account carries a
    positive balance then the assets equal liabilities plus equity plus
    net result and the flag is "SI"; the assets add the balances of the
    ACTIVO accounts, liabilities and equity add the absolute balances of
    the PASIVO and CAPITAL accounts, and the net result is that of the
    income statement. *)
Theorem ecuacion_contable_saldos_naturales {upper : string -> string}
    (s : Estado) :
  alcanzable upper s ->
  montos_exactos (Transacciones s) ->
  (forall id data, In (id, data) (calcular_saldos s) ->
                   LibroMayorSpec.lado_acreedor (tipo data) = true ->
                   (saldo data <= 0)%Q) ->
  let bg := calcular_balance_general s in
  (activo bg == pasivo_mas_capital_ajustado bg)%Q /\
  cuadre_balance_general s = true /\
  (activo bg == suma_tipo (fun x => x) "ACTIVO" (calcular_saldos s))%Q /\
  (pasivo bg == suma_tipo Qabs "PASIVO" (calcular_saldos s))%Q /\
  (capital bg == suma_tipo Qabs "CAPITAL" (calcular_saldos s))%Q /\
  utilidad_neta bg = utilidad_perdida_neta (calcular_estado_resultados s) /\
  (pasivo_mas_capital_ajustado bg
   == pasivo bg + capital bg + utilidad_neta bg)%Q.
Proof.
  intros Halc _ Hnat bg.
  pose proof (alcanzable_bien_formado s Halc) as Hbf.
  destruct (calcular_balance_general_totales s) as [Ha [Hp [Hc [Hu Hpm]]]].
  fold bg in Ha, Hp, Hc, Hu, Hpm.
  destruct (estado_resultados_desde_saldos s) as [Hi [Hg Hn]].
  cbv zeta in Hi, Hg, Hn.
  assert (Hacr : forall tp, LibroMayorSpec.lado_acreedor tp = true ->
                 (suma_tipo Qabs tp (calcular_saldos s)
                  == - suma_tipo (fun x => x) tp (calcular_saldos s))%Q).
  { intros tp Htp. apply suma_tipo_acreedor. intros data Hd E.
    unfold valores in Hd. apply in_map_iff in Hd.
    destruct Hd as [[id d] [<- Hd]]. apply (Hnat id d Hd).
    simpl in E. rewrite E. exact Htp. }
  pose proof (Hacr "PASIVO" eq_refl) as HP.
  pose proof (Hacr "CAPITAL" eq_refl) as HC.
  pose proof (Hacr "INGRESO" eq_refl) as HI.
  pose proof (suma_por_tipos (calcular_saldos s) (saldos_tipos_validos s Hbf))
    as Hsplit.
  rewrite (suma_saldos_cero s Hbf) in Hsplit.
  assert (E : (activo bg - pasivo_mas_capital_ajustado bg == 0)%Q).
  { rewrite Hpm, Hu, Hn, Ha, Hp, Hc, Hi, Hg, HP, HC, HI. lra. }
  split; [lra|]. split.
  - unfold cuadre_balance_general. fold bg. apply Qlt_bool_iff.
    rewrite E. reflexivity.
  - repeat (split; [assumption|]). assumption.
Qed.

(** X21 on the ledger of the scenario after both entries. *)
Lemma ecuacion_contable_saldos_naturales_witness :
  cuadre_balance_general Ejemplos.con_alquiler = true.
Proof.
  refine (proj1 (proj2 (ecuacion_contable_saldos_naturales
                          (upper:=Texto.upper_latin1)
                          Ejemplos.con_alquiler _ _ _))).
  - exact (alcanzable_paso _
             (RegistrarTransaccion "2024-01-02 09:30:00" "alquiler" 3 1 40 "" "")
             (alcanzable_paso _
                (RegistrarTransaccion "2024-01-01 10:00:00" " venta " 1 2 100
                                      "F-1" "")
                con_cuentas_alcanzable (conj eq_refl eq_refl))
             (conj eq_refl eq_refl)).
  - apply (montos_exactos_prueba 0); [lia|reflexivity|reflexivity].
  - intros id data [H|[H|[H|[]]]]; injection H as <- <-; simpl;
      intro Hl; try discriminate Hl. discriminate.
Defined.

(** * Further properties of the program *)

(** ** Creating accounts *)

Lemma nombre_en_uso_In (s : Estado) (n : string) :
  SQL.nombre_en_uso s n = true <-> In n (map c_nombre (Cuentas s)).
Proof.
  unfold SQL.nombre_en_uso. rewrite existsb_exists, in_map_iff.
  split; intros [c [H1 H2]]; exists c.
  - apply String.eqb_eq in H2. auto.
  - split; [tauto|]. apply String.eqb_eq. tauto.
Qed.

(** X1: [crear_cuenta] works on the name and the type after [strip] and
    [upper], whatever the case mapping [upper] is.  An empty name, a type outside the five types and a name already in the
    registry are refused with the store unchanged; otherwise the account
    is appended under a fresh id, and the name dictionary resolves the
    name to that id. *)
Theorem crear_cuenta_validacion {upper : string -> string}
    (nombre_dado tipo_dado : string) (s : Estado) :
  let n := upper (Texto.strip nombre_dado) in
  let t := upper (Texto.strip tipo_dado) in
  let r := crear_cuenta upper nombre_dado tipo_dado s in
  (n = "" -> r = (s, (false, Some MsgNombreVacio))) /\
  (n <> "" -> en_lista t tipos_cuenta = false ->
   r = (s, (false, Some MsgTipoInvalido))) /\
  (n <> "" -> en_lista t tipos_cuenta = true ->
   SQL.nombre_en_uso s n = true ->
   r = (s, (false, Some (MsgConsulta ErrorIntegridad)))) /\
  (n <> "" -> en_lista t tipos_cuenta = true ->
   SQL.nombre_en_uso s n = false ->
   let id := SQL.nuevo_rowid (map c_id (Cuentas s)) in
   snd r = (true, Some (MsgCuentaCreada n t)) /\
   Cuentas (fst r) = Cuentas s ++ [mkCuenta id n t] /\
   Transacciones (fst r) = Transacciones s /\
   ~ In id (map c_id (Cuentas s)) /\
   Dict.get String.eqb (nombre_a_id (fst r)) n = Some id).
Proof.
  intros n t r. subst r n t.
  split; [|split; [|split]].
  - intros Hn. unfold crear_cuenta. rewrite Hn. reflexivity.
  - intros Hn Ht. unfold crear_cuenta.
    apply String.eqb_neq in Hn. rewrite Hn, Ht. reflexivity.
  - intros Hn Ht Hu. unfold crear_cuenta.
    apply String.eqb_neq in Hn. rewrite Hn, Ht.
    unfold SQL.insert_cuenta. rewrite Hu. reflexivity.
  - intros Hn Ht Hu id. unfold crear_cuenta.
    apply String.eqb_neq in Hn. rewrite Hn, Ht.
    unfold SQL.insert_cuenta. rewrite Hu. cbn [negb fst snd Cuentas Transacciones nombre_a_id].
    split; [reflexivity|]. split; [reflexivity|]. split; [reflexivity|].
    split; [apply nuevo_rowid_nuevo|].
    apply (DictFacts.get_set_eq String.eqb String.eqb_spec).
Qed.

(** X1 on a fresh database: " cash " of type "activo" becomes CASH, ACTIVO
    under id 1. *)
Lemma crear_cuenta_validacion_witness :
  crear_cuenta Texto.upper_latin1 "  " "activo" estado_inicial
  = (estado_inicial, (false, Some MsgNombreVacio)) /\
  Cuentas (fst (crear_cuenta Texto.upper_latin1 " cash " "activo" estado_inicial))
  = [mkCuenta 1 "CASH" "ACTIVO"].
Proof.
  split.
  - apply (proj1 (crear_cuenta_validacion (upper:=Texto.upper_latin1)
          "  " "activo" estado_inicial)).
    reflexivity.
  - apply (proj2 (proj2 (proj2
             (crear_cuenta_validacion (upper:=Texto.upper_latin1)
                     " cash " "activo" estado_inicial))));
      [discriminate|reflexivity|reflexivity].
Defined.

(** X2: once an account is created, creating it again is refused with the
    integrity error and changes nothing, for every name that [strip] and
    [upper] turn into the same text as the first, whatever the case
    mapping [upper] is. *)
Theorem crear_cuenta_duplicada {upper : string -> string}
    (nombre1 tipo1 nombre2 tipo2 : string) (s : Estado) :
  fst (snd (crear_cuenta upper nombre1 tipo1 s)) = true ->
  upper (Texto.strip nombre2) = upper (Texto.strip nombre1) ->
  en_lista (upper (Texto.strip tipo2)) tipos_cuenta = true ->
  crear_cuenta upper nombre2 tipo2 (fst (crear_cuenta upper nombre1 tipo1 s))
  = (fst (crear_cuenta upper nombre1 tipo1 s),
     (false, Some (MsgConsulta ErrorIntegridad))).
Proof.
  intros Hok Hn Ht.
  set (s1 := fst (crear_cuenta upper nombre1 tipo1 s)).
  assert (Hn1 : upper (Texto.strip nombre1) <> ""
                /\ SQL.nombre_en_uso s1 (upper (Texto.strip nombre1)) = true).
  { subst s1. revert Hok. unfold crear_cuenta.
    destruct (String.eqb_spec (upper (Texto.strip nombre1)) "");
      [discriminate|].
    destruct (en_lista (upper (Texto.strip tipo1)) tipos_cuenta);
      [|discriminate].
    unfold SQL.insert_cuenta.
    destruct (SQL.nombre_en_uso s _); [simpl; discriminate|].
    intros _. split; [assumption|].
    apply nombre_en_uso_In. cbn [fst Cuentas negb]. rewrite map_app.
    apply in_or_app. right. left. reflexivity. }
  destruct Hn1 as [Hne Huso].
  unfold crear_cuenta at 1. rewrite Hn, Ht.
  apply String.eqb_neq in Hne. rewrite Hne.
  unfold SQL.insert_cuenta. rewrite Huso. reflexivity.
Qed.

(** X2 on a fresh database: "Cash" after " cash ". *)
Lemma crear_cuenta_duplicada_witness :
  crear_cuenta Texto.upper_latin1 "Cash" "PASIVO"
    (fst (crear_cuenta Texto.upper_latin1 " cash " "activo" estado_inicial))
  = (fst (crear_cuenta Texto.upper_latin1 " cash " "activo" estado_inicial),
     (false, Some (MsgConsulta ErrorIntegridad))).
Proof.
  exact (crear_cuenta_duplicada (upper:=Texto.upper_latin1)
          " cash " "activo" "Cash" "PASIVO"
           estado_inicial eq_refl eq_refl eq_refl).
Defined.

(** ** Deleting an account that does not exist *)

(** X3: [eliminar_cuenta] does not look the account up: for an id that no
    account has and no entry names, it reports success and leaves the
    store exactly as it was. *)
Theorem eliminar_cuenta_inexistente {upper : string -> string}
    (cuenta_id : Z) (s : Estado) :
  SQL.existe_cuenta s cuenta_id = false ->
  (forall t, In t (Transacciones s) ->
             cuenta_debito_id t <> cuenta_id /\ cuenta_credito_id t <> cuenta_id) ->
  eliminar_cuenta upper cuenta_id s = (s, (true, Some MsgCuentaEliminada)).
Proof.
  intros Hno Href. unfold eliminar_cuenta.
  apply count_transacciones_de_0 in Href. rewrite Href.
  unfold SQL.delete_cuenta, obtener_nombre_cuenta. rewrite Href.
  cbn [Nat.ltb Nat.leb andb SQL.foreign_keys].
  assert (Hc : forall c, In c (Cuentas s) -> (c_id c =? cuenta_id) = false).
  { intros c Hc. destruct (c_id c =? cuenta_id) eqn:E; [|reflexivity].
    exfalso. apply Z.eqb_eq in E.
    assert (SQL.existe_cuenta s cuenta_id = true)
      by (apply existe_cuenta_In; exists c; auto).
    congruence. }
  assert (H1 : filter (fun c => c_id c =? cuenta_id) (Cuentas s) = []).
  { induction (Cuentas s) as [|c r IH]; simpl; [reflexivity|].
    rewrite (Hc c (or_introl eq_refl)). apply IH.
    intros c' Hc'. apply Hc. right. exact Hc'. }
  rewrite H1.
  rewrite (filter_todos (fun c => negb (c_id c =? cuenta_id)) (Cuentas s))
    by (intros c Hin; rewrite (Hc c Hin); reflexivity).
  destruct s. reflexivity.
Qed.

Lemma eliminar_cuenta_inexistente_witness :
  eliminar_cuenta Texto.upper_latin1 7 Ejemplos.con_venta
  = (Ejemplos.con_venta, (true, Some MsgCuentaEliminada)).
Proof.
  apply (eliminar_cuenta_inexistente (upper:=Texto.upper_latin1)); [reflexivity|].
  intros t [<-|[]]. split; discriminate.
Defined.

(** ** Recording and deleting an entry *)

Lemma filter_app_ultimo {A} (p : A -> bool) (l : list A) (x : A) :
  (forall y, In y l -> p y = true) -> p x = false -> filter p (l ++ [x]) = l.
Proof.
  intros Hl Hx. rewrite filter_app. simpl. rewrite Hx, app_nil_r.
  apply filter_todos. exact Hl.
Qed.

(** X4: deleting the entry that [registrar_transaccion] has just recorded
    gives back the store as it was before the entry, so the next entry
    receives the same id again. *)
Theorem registrar_eliminar_ida_vuelta
    (ahora descripcion : string) (debito_id credito_id : Z) (monto : Q)
    (ref_doc ref_banco : string) (s : Estado) :
  debito_id <> credito_id -> (0 < monto)%Q ->
  let s1 := fst (registrar_transaccion ahora descripcion debito_id credito_id
                                       monto ref_doc ref_banco s) in
  let id := SQL.nuevo_rowid (map t_id (Transacciones s)) in
  map t_id (Transacciones s1) = map t_id (Transacciones s) ++ [id] /\
  eliminar_transaccion id s1 = (s, (true, Some (MsgTransaccionEliminada id))) /\
  SQL.nuevo_rowid (map t_id (Transacciones (fst (eliminar_transaccion id s1))))
  = id.
Proof.
  intros Hne Hm s1 id.
  assert (E1 : s1 = mkEstado (Cuentas s)
                      (Transacciones s ++
                       [mkTransaccion id ahora (Texto.strip descripcion)
                          debito_id credito_id monto
                          (strip_or_none ref_doc) (strip_or_none ref_banco)])
                      (nombre_a_id s)).
  { subst s1. unfold registrar_transaccion.
    apply Z.eqb_neq in Hne. rewrite Hne.
    apply Qle_bool_false_iff in Hm. rewrite Hm. reflexivity. }
  assert (E2 : eliminar_transaccion id s1
               = (s, (true, Some (MsgTransaccionEliminada id)))).
  { rewrite E1. unfold eliminar_transaccion, SQL.delete_transaccion.
    cbn [_ejecutar_consulta Cuentas Transacciones nombre_a_id].
    rewrite filter_app_ultimo.
    - destruct s. reflexivity.
    - intros t Ht. apply negb_true_iff, Z.eqb_neq. intro E.
      apply (nuevo_rowid_nuevo (map t_id (Transacciones s))).
      fold id. rewrite <- E. apply in_map. exact Ht.
    - simpl. rewrite Z.eqb_refl. reflexivity. }
  split; [rewrite E1; simpl; rewrite map_app; reflexivity|].
  split; [exact E2|]. rewrite E2. reflexivity.
Qed.

Lemma registrar_eliminar_ida_vuelta_witness :
  eliminar_transaccion 1 Ejemplos.con_venta
  = (Ejemplos.con_cuentas, (true, Some (MsgTransaccionEliminada 1))).
Proof.
  refine (proj1 (proj2 (registrar_eliminar_ida_vuelta
                          "2024-01-01 10:00:00" " venta " 1 2 100 "F-1" ""
                          Ejemplos.con_cuentas _ _))).
  - discriminate.
  - reflexivity.
Defined.

(** ** How an entry moves the balances *)

Lemma suma_montos_app (p : Transaccion -> bool) (ts : list Transaccion)
    (t : Transaccion) :
  (suma_montos p (ts ++ [t])
   == suma_montos p ts + (if p t then t_monto t else 0))%Q.
Proof.
  induction ts as [|u r IH]; simpl.
  - destruct (p t); ring.
  - destruct (p u); rewrite IH; ring.
Qed.

Lemma calcular_saldos_get (s : Estado) (c : Cuenta) :
  In c (Cuentas s) ->
  exists data, Dict.get Z.eqb (calcular_saldos s) (c_id c) = Some data /\
               saldo data = saldo_neto_de s (c_id c).
Proof.
  intro Hin. unfold calcular_saldos.
  destruct (saldos_en_cero_get _ _ Hin) as [d0 Hd0].
  fold (saldos_en_cero (Cuentas s)).
  rewrite (DictFacts.get_map_valores Z.eqb Z.eqb_spec
             (fun id data =>
                mkSaldo (nombre data) (tipo data) (saldo_neto_de s id))).
  rewrite Hd0. simpl. eexists. split; reflexivity.
Qed.

(** X5: when the journal with the new entry is one of [montos_exactos],
    a recorded entry adds its amount to the balance of the debited
    account, subtracts it from the balance of the credited account and
    leaves every other balance as it was. *)
Theorem registrar_transaccion_mueve_saldos
    (ahora descripcion : string) (debito_id credito_id : Z) (monto : Q)
    (ref_doc ref_banco : string) (s : Estado) (c : Cuenta) :
  debito_id <> credito_id -> (0 < monto)%Q -> In c (Cuentas s) ->
  montos_exactos
    (Transacciones
       (fst (registrar_transaccion ahora descripcion debito_id credito_id
                                   monto ref_doc ref_banco s))) ->
  let s1 := fst (registrar_transaccion ahora descripcion debito_id credito_id
                                       monto ref_doc ref_banco s) in
  exists antes despues,
    Dict.get Z.eqb (calcular_saldos s) (c_id c) = Some antes /\
    Dict.get Z.eqb (calcular_saldos s1) (c_id c) = Some despues /\
    (saldo despues
     == saldo antes
        + (if debito_id =? c_id c then monto else 0)
        - (if credito_id =? c_id c then monto else 0))%Q.
Proof.
  intros Hne Hm Hin _ s1.
  assert (E1 : s1 = mkEstado (Cuentas s)
                      (Transacciones s ++
                       [mkTransaccion
                          (SQL.nuevo_rowid (map t_id (Transacciones s)))
                          ahora (Texto.strip descripcion)
                          debito_id credito_id monto
                          (strip_or_none ref_doc) (strip_or_none ref_banco)])
                      (nombre_a_id s)).
  { subst s1. unfold registrar_transaccion.
    apply Z.eqb_neq in Hne. rewrite Hne.
    apply Qle_bool_false_iff in Hm. rewrite Hm. reflexivity. }
  destruct (calcular_saldos_get s c Hin) as [antes [Ha Hsa]].
  assert (Hin1 : In c (Cuentas s1)) by (rewrite E1; exact Hin).
  destruct (calcular_saldos_get s1 c Hin1) as [despues [Hd Hsd]].
  exists antes, despues. split; [exact Ha|]. split; [exact Hd|].
  rewrite Hsa, Hsd. unfold saldo_neto_de.
  rewrite !sum_monto_group_by_get. rewrite E1.
  cbn [Transacciones]. rewrite !suma_montos_app. simpl. ring.
Qed.

Lemma registrar_transaccion_mueve_saldos_witness :
  exists antes despues,
    Dict.get Z.eqb (calcular_saldos Ejemplos.con_venta) 1 = Some antes /\
    Dict.get Z.eqb (calcular_saldos Ejemplos.con_alquiler) 1 = Some despues /\
    (saldo despues == saldo antes + 0 - 40)%Q.
Proof.
  refine (registrar_transaccion_mueve_saldos
            "2024-01-02 09:30:00" "alquiler" 3 1 40 "" "" Ejemplos.con_venta
            (mkCuenta 1 "CASH" "ACTIVO")
            ltac:(discriminate) eq_refl (or_introl eq_refl) _).
  apply (montos_exactos_prueba 0); [lia|reflexivity|reflexivity].
Defined.

(** ** Rows of the trial balance *)

(** X6: every row of the trial balance shows an amount above 0.009 in
    exactly one column and zero in the other, and there is one row per
    account whose absolute balance exceeds 0.009. *)
Theorem balance_filas_una_columna (s : Estado) :
  let b := actualizar_balance_comp s in
  (forall fila, In fila (b_filas b) ->
     ((epsilon < debito_display fila)%Q /\ credito_display fila = 0%Q) \/
     (debito_display fila = 0%Q /\ (epsilon < credito_display fila)%Q)) /\
  List.length (b_filas b)
  = List.length (filter (fun '(_, data) => Qlt_bool epsilon (Qabs (saldo data)))
                        (calcular_saldos s)).
Proof.
  intro b. destruct (actualizar_balance_comp_spec s) as [Hf _]. fold b in Hf.
  rewrite Hf. unfold BalanceSpec.rows, BalanceSpec.kept. split.
  - intros fila Hin. apply in_map_iff in Hin.
    destruct Hin as [data [<- Hd]]. apply filter_In in Hd.
    destruct Hd as [_ Hd]. apply Qlt_bool_iff in Hd.
    unfold BalanceSpec.row, BalanceSpec.debitColumn, BalanceSpec.creditColumn.
    simpl.
    destruct (Qlt_bool 0 (saldo data)) eqn:E1.
    + left. rewrite (Qlt_bool_asym _ _ E1). split; [|reflexivity].
      apply Qlt_bool_iff in E1.
      rewrite Qabs_pos in Hd by (apply Qlt_le_weak; exact E1). exact Hd.
    + right. split; [reflexivity|].
      destruct (Qlt_bool (saldo data) 0) eqn:E2; [exact Hd|].
      apply Qlt_bool_false_iff in E1, E2.
      rewrite (Qle_antisym _ _ E1 E2) in Hd. discriminate Hd.
  - rewrite length_map, <- valores_filter. unfold valores.
    rewrite length_map. reflexivity.
Qed.

(** ** How far the trial balance can be off *)

(** X7: in a state reached through the backend with entries between
    existing accounts and the amounts of [montos_exactos], the two totals
    of the trial balance differ by at most 0.009 for each account the
    report leaves out; when at most one account is left out the flag is
    "SI". *)
Theorem balance_diferencia_acotada {upper : string -> string} (s : Estado) :
  alcanzable upper s ->
  montos_exactos (Transacciones s) ->
  let b := actualizar_balance_comp s in
  let ocultas := (List.length (Cuentas s) - List.length (b_filas b))%nat in
  (Qabs (total_debitos_netos b - total_creditos_netos b)
   <= epsilon * inject_Z (Z.of_nat ocultas))%Q /\
  ((ocultas <= 1)%nat -> cuadrado b = true).
Proof.
  intros Halc _ b ocultas.
  pose proof (alcanzable_bien_formado s Halc) as Hbf.
  destruct (actualizar_balance_comp_spec s) as [Hf [Htd [Htc Hc]]].
  fold b in Hf, Htd, Htc, Hc.
  set (p := fun data => Qlt_bool epsilon (Qabs (saldo data))).
  set (l := valores (calcular_saldos s)).
  assert (Hlen : List.length (Cuentas s) = List.length l).
  { subst l. rewrite (calcular_saldos_map s (bf_ids s Hbf)).
    unfold valores. rewrite !length_map. reflexivity. }
  assert (Hfilas : List.length (b_filas b) = List.length (filter p l)).
  { rewrite Hf. unfold BalanceSpec.rows, BalanceSpec.kept.
    rewrite length_map. reflexivity. }
  assert (Hoc : ocultas = List.length (filter (fun d => negb (p d)) l)).
  { subst ocultas. rewrite Hlen, Hfilas, (length_particion p l). lia. }
  assert (E : (total_debitos_netos b - total_creditos_netos b
               == - suma_lista (map saldo (filter (fun d => negb (p d)) l)))%Q).
  { rewrite Htd, Htc.
    unfold BalanceSpec.totalDebit, BalanceSpec.totalCredit, BalanceSpec.kept.
    rewrite suma_columnas. fold l. fold p.
    pose proof (suma_saldos_cero s Hbf) as H0. fold l in H0.
    rewrite (suma_particion p l) in H0. lra. }
  assert (B : (Qabs (total_debitos_netos b - total_creditos_netos b)
               <= epsilon * inject_Z (Z.of_nat ocultas))%Q).
  { rewrite E, Qabs_opp, Hoc. apply suma_ocultas_cota.
    intros d Hd. apply filter_In in Hd. destruct Hd as [_ Hd].
    apply negb_true_iff in Hd. apply Qlt_bool_false_iff in Hd. exact Hd. }
  split; [exact B|].
  intro H1. rewrite Hc. apply Qlt_bool_iff.
  eapply Qle_lt_trans; [exact B|].
  assert (Hz : (inject_Z (Z.of_nat ocultas) <= 1)%Q).
  { change 1%Q with (inject_Z 1). rewrite <- Zle_Qle. lia. }
  unfold epsilon, tolerancia in *. lra.
Qed.

(** X7 on the ledger where CASH receives 100 and pays 1/128 to RENT: one
    account is left out and the totals differ by at most 0.009. *)
Lemma balance_diferencia_acotada_witness :
  (Qabs (total_debitos_netos (actualizar_balance_comp Ejemplos.con_fraccion)
         - total_creditos_netos (actualizar_balance_comp Ejemplos.con_fraccion))
   <= epsilon * 1)%Q.
Proof.
  refine (proj1 (balance_diferencia_acotada (upper:=Texto.upper_latin1)
                   Ejemplos.con_fraccion _ _)).
  - exact (alcanzable_paso _
             (RegistrarTransaccion "2024-01-03 08:00:00" "copia" 3 1 (1 # 128)
                                   "" "")
             (alcanzable_paso _
                (RegistrarTransaccion "2024-01-01 10:00:00" " venta " 1 2 100
                                      "F-1" "")
                con_cuentas_alcanzable (conj eq_refl eq_refl))
             (conj eq_refl eq_refl)).
  - apply (montos_exactos_prueba 7); [lia|reflexivity|reflexivity].
Defined.

(** X6 on the scenario's ledger: the row of CASH. *)
Lemma balance_filas_una_columna_witness :
  ((epsilon < 60)%Q /\ 0%Q = 0%Q) \/ (60%Q = 0%Q /\ (epsilon < 0)%Q).
Proof.
  exact (proj1 (balance_filas_una_columna Ejemplos.con_alquiler)
           (mkFilaBalance "CASH" "ACTIVO" 60 0) (or_introl eq_refl)).
Defined.

(** ** The ledger of an account against its balance *)

Lemma suma_lista_cons (x : Q) (l : list Q) :
  suma_lista (x :: l) = (x + suma_lista l)%Q.
Proof. reflexivity. Qed.

Lemma paso_mayor_saldo (id : Z) (acreedor : bool) (ms : list Transaccion) :
  forall filas0 anterior,
    (snd (fold_left (paso_mayor id acreedor) ms (filas0, anterior))
     == anterior
        + (if acreedor then -(1) else 1)
          * suma_lista
              (map (fun m => LibroMayorSpec.debitAmount id m
                             - LibroMayorSpec.creditAmount id m) ms))%Q.
Proof.
  induction ms as [|m r IH]; intros filas0 anterior.
  - simpl. ring.
  - cbn [fold_left]. unfold paso_mayor at 2. cbv zeta. rewrite IH.
    cbn [map]. rewrite suma_lista_cons.
    unfold LibroMayorSpec.debitAmount, LibroMayorSpec.creditAmount.
    destruct acreedor; ring.
Qed.

Lemma suma_lista_perm (l l' : list Q) :
  Permutation l l' -> (suma_lista l == suma_lista l')%Q.
Proof.
  induction 1; simpl; try rewrite IHPermutation; try ring.
  rewrite IHPermutation1. exact IHPermutation2.
Qed.

Lemma suma_movimientos (id : Z) (ts : list Transaccion) :
  (suma_lista
     (map (fun m => LibroMayorSpec.debitAmount id m
                    - LibroMayorSpec.creditAmount id m)
          (filter (fun t => (cuenta_debito_id t =? id)
                            || (cuenta_credito_id t =? id)) ts))
   == suma_montos (fun t => cuenta_debito_id t =? id) ts
      - suma_montos (fun t => cuenta_credito_id t =? id) ts)%Q.
Proof.
  unfold LibroMayorSpec.debitAmount, LibroMayorSpec.creditAmount.
  induction ts as [|t r IH]; simpl; [ring|].
  destruct (cuenta_debito_id t =? id) eqn:Ed;
    destruct (cuenta_credito_id t =? id) eqn:Ec; simpl;
    rewrite ?Ed, ?Ec, IH; ring.
Qed.

(** X8: on a journal of [montos_exactos], for an account of the
    registry, the balance that closes its ledger is the balance
    [calcular_saldos] gives it, with the sign turned for an account of
    type PASIVO, CAPITAL or INGRESO. *)
Theorem mayor_saldo_final_coincide (s : Estado) (c : Cuenta) :
  NoDup (map c_id (Cuentas s)) -> In c (Cuentas s) -> c_id c <> 0 ->
  montos_exactos (Transacciones s) ->
  exists filas final data,
    actualizar_mayor_cuenta_seleccionada s (c_id c) = Some (filas, final) /\
    Dict.get Z.eqb (calcular_saldos s) (c_id c) = Some data /\
    (final == if en_lista (c_tipo c) tipos_saldo_acreedor
              then - saldo data else saldo data)%Q.
Proof.
  intros Hnd Hin Hid _.
  destruct (calcular_saldos_get s c Hin) as [data [Hg Hs]].
  unfold actualizar_mayor_cuenta_seleccionada.
  apply Z.eqb_neq in Hid. rewrite Hid.
  rewrite (tipo_de_cuenta_en_saldos s c Hnd Hin).
  destruct (fold_left _ (obtener_movimientos_cuenta s (c_id c)) ([], 0%Q))
    as [filas final] eqn:E.
  exists filas, final, data. split; [reflexivity|]. split; [exact Hg|].
  pose proof (paso_mayor_saldo (c_id c)
                (en_lista (c_tipo c) tipos_saldo_acreedor)
                (obtener_movimientos_cuenta s (c_id c)) [] 0) as H.
  rewrite E in H. cbn [snd] in H. rewrite H.
  unfold obtener_movimientos_cuenta.
  rewrite (suma_lista_perm _ _
             (Permutation_map _ (OrdenFacts.order_by_perm _ _))).
  rewrite suma_movimientos, Hs. unfold saldo_neto_de.
  destruct (en_lista (c_tipo c) tipos_saldo_acreedor);
    rewrite !sum_monto_group_by_get; ring.
Qed.

(** X8 on the scenario's ledger: SALES closes at 100, its balance is
    -100. *)
Lemma mayor_saldo_final_coincide_witness :
  exists filas final data,
    actualizar_mayor_cuenta_seleccionada Ejemplos.con_alquiler 2
    = Some (filas, final) /\
    Dict.get Z.eqb (calcular_saldos Ejemplos.con_alquiler) 2 = Some data /\
    (final == - saldo data)%Q.
Proof.
  refine (mayor_saldo_final_coincide Ejemplos.con_alquiler
            (mkCuenta 2 "SALES" "INGRESO") _ _ _ _).
  - repeat constructor; simpl; intuition discriminate.
  - right. left. reflexivity.
  - discriminate.
  - apply (montos_exactos_prueba 0); [lia|reflexivity|reflexivity].
Defined.

(** ** The journal view *)

Lemma cuenta_por_id (cs : list Cuenta) (id : Z) :
  NoDup (map c_id cs) -> In id (map c_id cs) ->
  exists c, c_id c = id /\
            filter (fun x => id =? c_id x) cs = [c] /\
            filter (fun x => c_id x =? id) cs = [c].
Proof.
  induction cs as [|c0 r IH]; simpl; intros Hnd Hin; [contradiction|].
  inversion Hnd as [|? ? H0 Hr]; subst.
  assert (Hvacio : ~ In id (map c_id r) ->
                   filter (fun x => id =? c_id x) r = []
                   /\ filter (fun x => c_id x =? id) r = []).
  { clear. induction r as [|c1 r IHr]; simpl; intro Hn; [auto|].
    destruct (Z.eqb_spec id (c_id c1)) as [E|NE];
      [exfalso; apply Hn; left; symmetry; exact E|].
    destruct (Z.eqb_spec (c_id c1) id) as [E|_];
      [exfalso; apply NE; symmetry; exact E|].
    apply IHr. intro H. apply Hn. right. exact H. }
  destruct (Z.eqb_spec id (c_id c0)) as [E|NE].
  - exists c0. rewrite <- E in H0. destruct (Hvacio H0) as [V1 V2].
    rewrite V1, V2, <- E, Z.eqb_refl. auto.
  - destruct (Z.eqb_spec (c_id c0) id) as [E|_];
      [exfalso; apply NE; symmetry; exact E|].
    destruct Hin as [E|Hin]; [exfalso; apply NE; symmetry; exact E|].
    apply IH; assumption.
Qed.

Lemma flat_map_unitario {A B} (f : A -> list B) (g : A -> B) (l : list A) :
  (forall x, In x l -> f x = [g x]) -> flat_map f l = map g l.
Proof.
  induction l as [|x r IH]; simpl; intro H; [reflexivity|].
  rewrite (H x (or_introl eq_refl)), IH; [reflexivity|].
  intros y Hy. apply H. right. exact Hy.
Qed.

(** X9: in a state reached through the backend with entries between
    existing accounts, the journal view has exactly one row for each
    stored entry, carrying the names of its two accounts, and the rows
    come with the latest [fecha] first. *)
Theorem diario_una_fila_por_asiento {upper : string -> string} (s : Estado) :
  alcanzable upper s ->
  Permutation (obtener_transacciones_diario s)
              (map (fila_diario_de s) (Transacciones s)) /\
  StronglySorted (fun a b => String.leb (d_fecha b) (d_fecha a) = true)
                 (obtener_transacciones_diario s).
Proof.
  intro Halc. destruct (alcanzable_bien_formado s Halc) as [Hids _ Hrefs].
  unfold obtener_transacciones_diario. split.
  - etransitivity; [apply OrdenFacts.order_by_perm|].
    rewrite (flat_map_unitario _ (fila_diario_de s)); [reflexivity|].
    intros t Ht. destruct (Hrefs t Ht) as [Hd Hc].
    destruct (cuenta_por_id _ _ Hids Hd) as [cd [_ [Fd1 Fd2]]].
    destruct (cuenta_por_id _ _ Hids Hc) as [cc [_ [Fc1 Fc2]]].
    rewrite Fd1. simpl. rewrite Fc1. simpl.
    unfold fila_diario_de, obtener_nombre_cuenta. rewrite Fd2, Fc2.
    reflexivity.
  - apply OrdenFacts.order_by_sorted.
    + intros a b. apply String.leb_total.
    + intros a b c H1 H2. exact (leb_trans _ _ _ H2 H1).
Qed.

(** X9 on the scenario's ledger. *)
Lemma diario_una_fila_por_asiento_witness :
  Permutation (obtener_transacciones_diario Ejemplos.con_venta)
              (map (fila_diario_de Ejemplos.con_venta)
                   (Transacciones Ejemplos.con_venta)).
Proof.
  refine (proj1 (diario_una_fila_por_asiento (upper:=Texto.upper_latin1)
          Ejemplos.con_venta _)).
  exact (alcanzable_paso _
           (RegistrarTransaccion "2024-01-01 10:00:00" " venta " 1 2 100 "F-1" "")
           con_cuentas_alcanzable (conj eq_refl eq_refl)).
Defined.

Lemma sin_cuenta_filter_vacio (s : Estado) (id : Z) :
  SQL.existe_cuenta s id = false ->
  filter (fun c => id =? c_id c) (Cuentas s) = [].
Proof.
  unfold SQL.existe_cuenta.
  induction (Cuentas s) as [|c r IH]; simpl; intro H; [reflexivity|].
  apply orb_false_iff in H. destruct H as [H1 H2].
  rewrite Z.eqb_sym, H1. apply IH. exact H2.
Qed.

(** X10: the journal view joins each entry with both of its accounts, so
    an entry that names an id without an account is stored but never
    listed: when every entry has such a leg the view is empty. *)
Theorem diario_omite_cuentas_inexistentes (s : Estado) :
  (forall t, In t (Transacciones s) ->
             SQL.existe_cuenta s (cuenta_debito_id t) = false \/
             SQL.existe_cuenta s (cuenta_credito_id t) = false) ->
  obtener_transacciones_diario s = [].
Proof.
  intro H. unfold obtener_transacciones_diario.
  assert (E : flat_map
                (fun t =>
                   flat_map
                     (fun cd =>
                        map (fun cc =>
                               mkFilaDiario (t_id t) (t_fecha t)
                                 (t_descripcion t) (t_monto t) (c_nombre cd)
                                 (c_nombre cc) (referencia_documento t)
                                 (referencia_banco t))
                            (filter (fun cc => cuenta_credito_id t =? c_id cc)
                                    (Cuentas s)))
                     (filter (fun cd => cuenta_debito_id t =? c_id cd)
                             (Cuentas s)))
                (Transacciones s) = []).
  { induction (Transacciones s) as [|t r IH]; simpl; [reflexivity|].
    rewrite IH by (intros u Hu; apply H; right; exact Hu).
    rewrite app_nil_r.
    destruct (H t (or_introl eq_refl)) as [Hd|Hc].
    - rewrite (sin_cuenta_filter_vacio s _ Hd). reflexivity.
    - rewrite (sin_cuenta_filter_vacio s _ Hc).
      induction (filter _ (Cuentas s)); simpl; auto. }
  rewrite E. reflexivity.
Qed.

(** X10 after the entry between the unknown ids 1 and 2 on a fresh
    database. *)
Lemma diario_omite_cuentas_inexistentes_witness :
  Transacciones
    (fst (registrar_transaccion "2024-01-01 10:00:00" "venta" 1 2 100 "" ""
                                estado_inicial)) <> [] /\
  obtener_transacciones_diario
    (fst (registrar_transaccion "2024-01-01 10:00:00" "venta" 1 2 100 "" ""
                                estado_inicial)) = [].
Proof.
  split; [discriminate|].
  apply diario_omite_cuentas_inexistentes.
  intros t [<-|[]]. left. reflexivity.
Defined.

(** ** The three renderings of the trial balance *)

Lemma paso_balance_excel_fold (l : list Saldo) :
  forall (inicio : nat) celdas filas0 td tc,
    map snd celdas = filas0 ->
    let rx := fold_left paso_balance_excel
                (combine (map Z.of_nat (seq inicio (List.length l))) l)
                (celdas, td, tc) in
    let rv := fold_left paso_balance l (filas0, td, tc) in
    map snd (fst (fst rx)) = fst (fst rv) /\
    snd (fst rx) = snd (fst rv) /\ snd rx = snd rv /\
    map fst (fst (fst rx))
    = map fst celdas
      ++ map (fun i => 5 + Z.of_nat i) (seq inicio (List.length l)).
Proof.
  induction l as [|data r IH]; intros inicio celdas filas0 td tc Hc.
  - simpl. rewrite app_nil_r. auto.
  - cbn [List.length seq map combine fold_left].
    assert (Hpaso :
      exists fila td1 tc1,
        paso_balance_excel (celdas, td, tc) (Z.of_nat inicio, data)
        = (celdas ++ [(5 + Z.of_nat inicio, fila)], td1, tc1) /\
        paso_balance (filas0, td, tc) data = (filas0 ++ [fila], td1, tc1)).
    { unfold paso_balance_excel, paso_balance.
      destruct (Qlt_bool 0 (saldo data));
        [|destruct (Qlt_bool (saldo data) 0)]; eauto. }
    destruct Hpaso as [fila [td1 [tc1 [Hx Hv]]]]. rewrite Hx, Hv.
    specialize (IH (S inicio) (celdas ++ [(5 + Z.of_nat inicio, fila)])
                   (filas0 ++ [fila]) td1 tc1).
    cbv zeta in IH. destruct IH as [H1 [H2 [H3 H4]]].
    + rewrite map_app, Hc. reflexivity.
    + cbv zeta. rewrite H1, H2, H3, H4, map_app, <- app_assoc.
      repeat split.
Qed.

(** X11: the Excel export, the PDF export and the view show the same trial
    balance.  All three have no row in the same states; otherwise the sheet
    holds the rows of the view from sheet row 5 on, one per row, the totals
    of the view in the row right after them, and the PDF holds the same
    rows and totals. *)
Theorem balance_tres_salidas (s : Estado) :
  let b := actualizar_balance_comp s in
  match exportar_balance_excel s with
  | None => b_filas b = [] /\ exportar_balance_pdf s = None
  | Some h =>
      b_filas b <> [] /\
      map snd (h_celdas h) = b_filas b /\
      map fst (h_celdas h)
      = map (fun i => 5 + Z.of_nat i) (seq 0 (List.length (b_filas b))) /\
      fila_total h = 5 + Z.of_nat (List.length (b_filas b)) /\
      h_total_debitos h = total_debitos_netos b /\
      h_total_creditos h = total_creditos_netos b /\
      exportar_balance_pdf s
      = Some (b_filas b, total_debitos_netos b, total_creditos_netos b)
  end.
Proof.
  unfold actualizar_balance_comp, exportar_balance_excel, exportar_balance_pdf,
    enumerate.
  rewrite (fold_left_valores paso_balance). unfold valores.
  set (l := map snd _).
  pose proof (paso_balance_excel_fold l O [] [] 0 0 eq_refl) as H.
  cbv zeta in H.
  pose proof (paso_balance_fold l [] 0 0) as Hv. cbv zeta in Hv.
  set (rx := fold_left paso_balance_excel _ _) in *.
  set (rv := fold_left paso_balance l _) in *.
  clearbody rx rv.
  destruct rx as [[celdas tdx] tcx]. destruct rv as [[f td] tc].
  cbn [fst snd map app] in H, Hv.
  destruct H as [H1 [H2 [H3 H4]]]. destruct Hv as [Hf _].
  assert (Hlen : List.length f = List.length l)
    by (rewrite Hf, length_map; reflexivity).
  clearbody l.
  destruct l as [|d0 l0].
  - simpl in Hf. split; [exact Hf|reflexivity].
  - cbn [b_filas total_debitos_netos total_creditos_netos h_celdas fila_total
         h_total_debitos h_total_creditos].
    rewrite Hlen, H1, H2, H3, H4.
    split; [rewrite Hf; discriminate|]. repeat split.
Qed.

(** X11 on the scenario's ledger: three rows, in sheet rows 5 to 7, and
    the totals in row 8. *)
Example balance_tres_salidas_ejemplo :
  option_map (fun h => (map fst (h_celdas h), fila_total h))
             (exportar_balance_excel Ejemplos.con_alquiler)
  = Some ([5; 6; 7], 8).
Proof. reflexivity. Qed.

(** ** Invariants of the store *)

(** The case mapping of the worked ledgers is idempotent, as [str.upper]
    is. *)
Lemma mayuscula_fija (c : ascii) :
  Texto.upper_latin1 (Texto.mayuscula c) = Texto.mayuscula c.
Proof.
  destruct c as [[] [] [] [] [] [] [] []]; reflexivity.
Qed.

Lemma upper_latin1_append (x y : string) :
  Texto.upper_latin1 (String.append x y)
  = String.append (Texto.upper_latin1 x) (Texto.upper_latin1 y).
Proof.
  induction x as [|c r IH]; [reflexivity|].
  cbn [String.append Texto.upper_latin1].
  rewrite IH. generalize (Texto.mayuscula c). intro m.
  induction m as [|a m IHm]; [reflexivity|].
  cbn [String.append]. rewrite IHm. reflexivity.
Qed.

Lemma upper_latin1_idem (x : string) :
  Texto.upper_latin1 (Texto.upper_latin1 x) = Texto.upper_latin1 x.
Proof.
  induction x as [|c r IH]; [reflexivity|].
  cbn [Texto.upper_latin1].
  rewrite upper_latin1_append, mayuscula_fija, IH. reflexivity.
Qed.

Module DictIn.
Section Facts.
Context {K V : Type}.
Variable eqb : K -> K -> bool.
Hypothesis eqb_spec : forall a b, reflect (a = b) (eqb a b).

Lemma get_iff_In (d : list (K * V)) k v :
  NoDup (map fst d) -> (Dict.get eqb d k = Some v <-> In (k, v) d).
Proof.
  intro Hnd. split; [|apply (DictFacts.get_In eqb eqb_spec); exact Hnd].
  clear Hnd. induction d as [|[k0 v0] r IH]; simpl; [discriminate|].
  destruct (eqb_spec k0 k) as [->|_]; [intros [= ->]; auto|auto].
Qed.

Lemma mem_iff_clave (d : list (K * V)) k :
  Dict.mem eqb d k = true <-> In k (map fst d).
Proof.
  unfold Dict.mem. induction d as [|[k0 v0] r IH]; simpl.
  - split; [discriminate|contradiction].
  - destruct (eqb_spec k0 k) as [->|NE].
    + split; auto.
    + rewrite IH. split; [auto|]. intros [E|H]; [contradiction|exact H].
Qed.

Lemma del_In (d : list (K * V)) n k v :
  NoDup (map fst d) ->
  (In (k, v) (Dict.del eqb d n) <-> In (k, v) d /\ k <> n).
Proof.
  induction d as [|[k0 v0] r IH]; simpl; intro Hnd; [tauto|].
  inversion Hnd as [|? ? H0 Hr]; subst.
  destruct (eqb_spec k0 n) as [->|NE].
  - split.
    + intro H. split; [auto|]. intros ->. apply H0.
      apply in_map_iff. exists (n, v). auto.
    + intros [[[= -> ->]|H] Hk]; [contradiction|exact H].
  - simpl. rewrite (IH Hr). split.
    + intros [[= -> ->]|[H Hk]]; auto.
    + intros [[[= -> ->]|H] Hk]; auto.
Qed.

Lemma del_claves (d : list (K * V)) n :
  NoDup (map fst d) -> NoDup (map fst (Dict.del eqb d n)).
Proof.
  induction d as [|[k0 v0] r IH]; simpl; intro Hnd; [constructor|].
  inversion Hnd as [|? ? H0 Hr]; subst.
  destruct (eqb_spec k0 n); [exact Hr|].
  simpl. constructor; [|auto].
  intro H. apply H0. apply in_map_iff in H. destruct H as [[k v] [E H]].
  simpl in E. subst k. apply in_map_iff. exists (k0, v). split; [reflexivity|].
  apply (proj1 (del_In r n k0 v Hr) H).
Qed.
End Facts.
End DictIn.

Lemma distintos_tras_filter {A B} (p : A -> bool) (clave : A -> B)
    (filas : list A) (H : NoDup (map clave filas)) :
  NoDup (map clave (filter p filas)).
Proof.
  induction filas as [|x r IH]; simpl; [constructor|].
  simpl in H. inversion H as [|? ? Hx Hr]; subst.
  destruct (p x); [|auto]. simpl. constructor; [|auto].
  rewrite in_map_iff. intros [y [E Hy]]. apply filter_In in Hy.
  apply Hx. rewrite <- E. apply in_map. tauto.
Qed.

Lemma nombre_unico (cs : list Cuenta) (c c' : Cuenta) :
  NoDup (map c_nombre cs) -> In c cs -> In c' cs ->
  c_nombre c' = c_nombre c -> c' = c.
Proof.
  induction cs as [|c0 r IH]; simpl; intros Hnd Hc Hc' E; [contradiction|].
  inversion Hnd as [|? ? H0 Hr]; subst.
  destruct Hc as [->|Hc], Hc' as [->|Hc'].
  - reflexivity.
  - exfalso. apply H0. rewrite <- E. apply in_map. exact Hc'.
  - exfalso. apply H0. rewrite E. apply in_map. exact Hc.
  - auto.
Qed.

Lemma nuevo_rowid_pos (ids : list Z) : 1 <= SQL.nuevo_rowid ids.
Proof.
  unfold SQL.nuevo_rowid.
  assert (0 <= fold_right Z.max 0 ids) by (induction ids; simpl; lia).
  lia.
Qed.

Lemma strip_or_none_no_vacio (texto : string) : strip_or_none texto <> Some "".
Proof.
  intro H. apply strip_or_none_recortado in H. destruct H as [_ H].
  apply H. reflexivity.
Qed.

Lemma estado_inicial_integro {upper : string -> string}
    : integro upper estado_inicial.
Proof.
  split; simpl; try constructor; try contradiction;
    try (intros [c [[] _]]).
Qed.

Lemma existe_cuenta_mas (s : Estado) (cs : list Cuenta) ts m id :
  SQL.existe_cuenta s id = true ->
  SQL.existe_cuenta (mkEstado (Cuentas s ++ cs) ts m) id = true.
Proof.
  unfold SQL.existe_cuenta. simpl. rewrite existsb_app.
  intros ->. reflexivity.
Qed.

Lemma crear_cuenta_integro {upper : string -> string}
    (nombre_dado tipo_dado : string) (s : Estado) :
  idempotente upper ->
  integro upper s ->
  integro upper (fst (crear_cuenta upper nombre_dado tipo_dado s)).
Proof.
  intros Hidem I. unfold crear_cuenta.
  destruct (String.eqb_spec (upper (Texto.strip nombre_dado)) "")
    as [|Hn]; [exact I|].
  destruct (en_lista (upper (Texto.strip tipo_dado)) tipos_cuenta) eqn:Et;
    [|exact I].
  unfold SQL.insert_cuenta.
  destruct (SQL.nombre_en_uso s _) eqn:Eu; [exact I|].
  set (n := upper (Texto.strip nombre_dado)) in *.
  set (id := SQL.nuevo_rowid (map c_id (Cuentas s))).
  assert (Hlibre : ~ In n (map c_nombre (Cuentas s))).
  { intro H. apply nombre_en_uso_In in H. congruence. }
  assert (Hclave : ~ In n (map fst (nombre_a_id s))).
  { intro H. apply in_map_iff in H. destruct H as [[k v] [E H]].
    simpl in E. subst k. apply (in_mapa upper s I) in H.
    destruct H as [c [Hc [Hcn _]]]. apply Hlibre. rewrite <- Hcn.
    apply in_map. exact Hc. }
  destruct I as [I1 I2 I3 I4 I5 I6 I7 I8 I9 I10].
  split; cbn [negb fst Cuentas Transacciones nombre_a_id].
  - rewrite map_app. apply NoDup_snoc; [exact I1|apply nuevo_rowid_nuevo].
  - intros c Hc. apply in_app_or in Hc. destruct Hc as [Hc|[<-|[]]]; [auto|].
    apply nuevo_rowid_pos.
  - rewrite map_app. apply NoDup_snoc; assumption.
  - intros c Hc. apply in_app_or in Hc. destruct Hc as [Hc|[<-|[]]]; [auto|].
    simpl. split; [exact Hn|apply Hidem].
  - intros c Hc. apply in_app_or in Hc. destruct Hc as [Hc|[<-|[]]]; auto.
  - exact I6.
  - exact I7.
  - intros t Ht. destruct (I8 t Ht) as [A [B [C [D E]]]].
    split; [exact A|]. split; [exact B|].
    split; [apply existe_cuenta_mas; exact C|].
    split; [apply existe_cuenta_mas; exact D|exact E].
  - rewrite (DictFacts.set_nuevo String.eqb String.eqb_spec) by exact Hclave.
    rewrite map_app. apply NoDup_snoc; assumption.
  - intros k v.
    rewrite (DictFacts.set_nuevo String.eqb String.eqb_spec) by exact Hclave.
    rewrite in_app_iff, I10. split.
    + intros [[c [Hc Hk]]|[[= <- <-]|[]]].
      * exists c. split; [apply in_or_app; left; exact Hc|exact Hk].
      * eexists. split; [apply in_or_app; right; left; reflexivity|].
        split; reflexivity.
    + intros [c [Hc Hk]]. apply in_app_or in Hc.
      destruct Hc as [Hc|[<-|[]]].
      * left. exists c. auto.
      * right. left. simpl in Hk. destruct Hk as [<- <-]. reflexivity.
Qed.

Lemma registrar_transaccion_integro {upper : string -> string}
    a d di ci m rd rb (s : Estado) :
  SQL.existe_cuenta s di = true -> SQL.existe_cuenta s ci = true ->
  integro upper s -> integro upper (fst (registrar_transaccion a d di ci m rd rb s)).
Proof.
  intros Hd Hc I. unfold registrar_transaccion.
  destruct (Z.eqb_spec di ci) as [|Hne]; [exact I|].
  destruct (Qle_bool m 0) eqn:Em; [exact I|].
  apply Qle_bool_false_iff in Em.
  destruct I as [I1 I2 I3 I4 I5 I6 I7 I8 I9 I10].
  unfold SQL.insert_transaccion.
  split; cbn [fst Cuentas Transacciones nombre_a_id andb SQL.foreign_keys];
    try assumption.
  - rewrite map_app. apply NoDup_snoc; [exact I6|apply nuevo_rowid_nuevo].
  - intros t Ht. apply in_app_or in Ht. destruct Ht as [Ht|[<-|[]]]; [auto|].
    apply nuevo_rowid_pos.
  - intros t Ht. apply in_app_or in Ht. destruct Ht as [Ht|[<-|[]]].
    + exact (I8 t Ht).
    + simpl. split; [exact Hne|]. split; [exact Em|].
      split; [exact Hd|]. split; [exact Hc|].
      split; [apply TextoFacts.strip_recortado|].
      split; apply strip_or_none_no_vacio.
Qed.

Lemma eliminar_transaccion_integro {upper : string -> string} id (s : Estado) :
  integro upper s -> integro upper (fst (eliminar_transaccion id s)).
Proof.
  intros [I1 I2 I3 I4 I5 I6 I7 I8 I9 I10]. unfold eliminar_transaccion.
  split; cbn [fst Cuentas Transacciones nombre_a_id SQL.delete_transaccion
              _ejecutar_consulta]; try assumption.
  - apply distintos_tras_filter. exact I6.
  - intros t Ht. apply filter_In in Ht. apply I7. tauto.
  - intros t Ht. apply filter_In in Ht. exact (I8 t (proj1 Ht)).
Qed.

Lemma sin_cuenta_filter_vacio_inv (cs : list Cuenta) (id : Z) :
  ~ In id (map c_id cs) -> filter (fun c => c_id c =? id) cs = [].
Proof.
  induction cs as [|c r IH]; simpl; intro H; [reflexivity|].
  destruct (Z.eqb_spec (c_id c) id) as [E|_];
    [exfalso; apply H; left; exact E|].
  apply IH. intro Hin. apply H. right. exact Hin.
Qed.

Lemma eliminar_cuenta_mapa {upper : string -> string}
    (cuenta_id : Z) (s : Estado) :
  integro upper s ->
  let mapa :=
    match obtener_nombre_cuenta s cuenta_id with
    | Some n =>
        if negb (String.eqb n "")
           && Dict.mem String.eqb (nombre_a_id s) (upper n)
        then Dict.del String.eqb (nombre_a_id s) (upper n)
        else nombre_a_id s
    | None => nombre_a_id s
    end in
  NoDup (map fst mapa) /\
  forall n id,
    In (n, id) mapa <->
    exists c, In c (filter (fun c => negb (c_id c =? cuenta_id)) (Cuentas s))
              /\ c_nombre c = n /\ c_id c = id.
Proof.
  intros [I1 I2 I3 I4 I5 I6 I7 I8 I9 I10] mapa. subst mapa.
  unfold obtener_nombre_cuenta.
  destruct (in_dec Z.eq_dec cuenta_id (map c_id (Cuentas s))) as [Hin|Hout].
  - destruct (cuenta_por_id _ _ I1 Hin) as [c [Hid [_ Hf]]]. rewrite Hf.
    assert (Hc : In c (Cuentas s)).
    { assert (H : In c (filter (fun x => c_id x =? cuenta_id) (Cuentas s)))
        by (rewrite Hf; left; reflexivity).
      apply filter_In in H. tauto. }
    destruct (I4 c Hc) as [Hne Hup]. rewrite Hup.
    apply String.eqb_neq in Hne. rewrite Hne. cbn [negb andb].
    assert (Hmem : Dict.mem String.eqb (nombre_a_id s) (c_nombre c) = true).
    { apply (DictIn.mem_iff_clave String.eqb String.eqb_spec).
      apply in_map_iff. exists (c_nombre c, cuenta_id). split; [reflexivity|].
      apply I10. exists c. auto. }
    rewrite Hmem.
    split; [apply (DictIn.del_claves String.eqb String.eqb_spec); exact I9|].
    intros n id.
    rewrite (DictIn.del_In String.eqb String.eqb_spec) by exact I9.
    rewrite I10. split.
    + intros [[c' [Hc' [Hn' Hi']]] Hdist]. exists c'. split; [|auto].
      apply filter_In. split; [exact Hc'|].
      apply negb_true_iff, Z.eqb_neq. intro E. apply Hdist.
      rewrite <- Hn'. f_equal.
      apply (id_unico (Cuentas s) c c' I1 Hc Hc'). congruence.
    + intros [c' [Hc' [Hn' Hi']]]. apply filter_In in Hc'.
      destruct Hc' as [Hc' Hd]. apply negb_true_iff, Z.eqb_neq in Hd.
      split; [exists c'; auto|].
      intro E. apply Hd.
      rewrite (nombre_unico (Cuentas s) c c' I3 Hc Hc'); congruence.
  - assert (Hf : filter (fun c => c_id c =? cuenta_id) (Cuentas s) = []).
    { apply sin_cuenta_filter_vacio_inv. exact Hout. }
    rewrite Hf. split; [exact I9|]. intros n id. rewrite I10.
    split; intros [c [Hc Hk]]; exists c; (split; [|exact Hk]).
    + apply filter_In. split; [exact Hc|].
      apply negb_true_iff, Z.eqb_neq. intro E. apply Hout.
      rewrite <- E. apply in_map. exact Hc.
    + apply filter_In in Hc. tauto.
Qed.

Lemma eliminar_cuenta_integro {upper : string -> string}
    (cuenta_id : Z) (s : Estado) :
  integro upper s -> integro upper (fst (eliminar_cuenta upper cuenta_id s)).
Proof.
  intro I. pose proof (eliminar_cuenta_mapa cuenta_id s I) as Hm.
  cbv zeta in Hm. destruct Hm as [Hm1 Hm2].
  unfold eliminar_cuenta.
  destruct (SQL.count_transacciones_de s cuenta_id) as [|k] eqn:E;
    [|exact I].
  pose proof (proj1 (count_transacciones_de_0 s cuenta_id) E) as Hno.
  unfold SQL.delete_cuenta. rewrite E.
  cbn [Nat.ltb Nat.leb andb SQL.foreign_keys].
  destruct I as [I1 I2 I3 I4 I5 I6 I7 I8 I9 I10].
  split; cbn [fst Cuentas Transacciones nombre_a_id]; try assumption.
  - apply distintos_tras_filter. exact I1.
  - intros c Hc. apply filter_In in Hc. apply I2. tauto.
  - apply distintos_tras_filter. exact I3.
  - intros c Hc. apply filter_In in Hc. apply I4. tauto.
  - intros c Hc. apply filter_In in Hc. apply I5. tauto.
  - intros t Ht. destruct (I8 t Ht) as [A [B [C [D F]]]].
    destruct (Hno t Ht) as [N1 N2].
    split; [exact A|]. split; [exact B|].
    assert (G : forall id, id <> cuenta_id ->
                  SQL.existe_cuenta s id = true ->
                  SQL.existe_cuenta
                    (mkEstado
                       (filter (fun c => negb (c_id c =? cuenta_id)) (Cuentas s))
                       (Transacciones s)
                       (match obtener_nombre_cuenta s cuenta_id with
                        | Some n =>
                            if negb (String.eqb n "")
                               && Dict.mem String.eqb (nombre_a_id s)
                                           (upper n)
                            then Dict.del String.eqb (nombre_a_id s)
                                          (upper n)
                            else nombre_a_id s
                        | None => nombre_a_id s
                        end)) id = true).
    { intros id Hid Hex. apply existe_cuenta_In in Hex.
      destruct Hex as [c [Hc Hcid]]. apply existe_cuenta_In. exists c.
      split; [|exact Hcid]. simpl. apply filter_In. split; [exact Hc|].
      apply negb_true_iff, Z.eqb_neq. congruence. }
    split; [apply G; assumption|]. split; [apply G; assumption|exact F].
Qed.

Lemma alcanzable_integro {upper : string -> string} (s : Estado) :
  idempotente upper -> alcanzable upper s -> integro upper s.
Proof.
  intro Hidem. induction 1 as [|s op _ IH Hop].
  - exact estado_inicial_integro.
  - destruct op as [n t|id|a d di ci m rd rb|id]; simpl.
    + apply crear_cuenta_integro; assumption.
    + apply eliminar_cuenta_integro. exact IH.
    + destruct Hop as [Hd Hc].
      apply registrar_transaccion_integro; assumption.
    + apply eliminar_transaccion_integro. exact IH.
Qed.




(** X12: in every state reached through the backend with entries between
    existing accounts, the accounts have distinct ids from 1 up, distinct
    names, each name non-empty and its own upper-case form, and one of
    the five types.  The case mapping is any idempotent one, as
    [str.upper] is. *)
Theorem cuentas_alcanzables_validas {upper : string -> string} (s : Estado) :
  idempotente upper ->
  alcanzable upper s ->
  NoDup (map c_id (Cuentas s)) /\
  NoDup (map c_nombre (Cuentas s)) /\
  forall c, In c (Cuentas s) ->
            1 <= c_id c /\ c_nombre c <> "" /\
            upper (c_nombre c) = c_nombre c /\
            In (c_tipo c) tipos_cuenta.
Proof.
  intros Hidem H.
  destruct (alcanzable_integro s Hidem H) as [I1 I2 I3 I4 I5 _ _ _ _ _].
  split; [exact I1|]. split; [exact I3|].
  intros c Hc. split; [exact (I2 c Hc)|].
  destruct (I4 c Hc) as [Hn Hu]. split; [exact Hn|]. split; [exact Hu|].
  specialize (I5 c Hc). unfold en_lista in I5. apply existsb_exists in I5.
  destruct I5 as [tp [Htp E]]. apply String.eqb_eq in E. subst tp. exact Htp.
Qed.

Lemma cuentas_alcanzables_validas_witness :
  NoDup (map c_id (Cuentas Ejemplos.con_cuentas)).
Proof.
  exact (proj1 (cuentas_alcanzables_validas (upper:=Texto.upper_latin1)
                  Ejemplos.con_cuentas upper_latin1_idem
                  con_cuentas_alcanzable)).
Defined.



(** X14: in every state reached through the backend with entries between
    existing accounts, the dictionary [nombre_a_id] resolves a name to an
    id exactly when the registry holds the account of that name with that
    id.  The case mapping is any idempotent one, as [str.upper] is. *)
Theorem nombre_a_id_coherente {upper : string -> string} (s : Estado)
    (n : string) (id : Z) :
  idempotente upper ->
  alcanzable upper s ->
  (Dict.get String.eqb (nombre_a_id s) n = Some id <->
   exists c, In c (Cuentas s) /\ c_nombre c = n /\ c_id c = id).
Proof.
  intros Hidem H.
  destruct (alcanzable_integro s Hidem H) as [_ _ _ _ _ _ _ _ I9 I10].
  rewrite (DictIn.get_iff_In String.eqb String.eqb_spec) by exact I9.
  apply I10.
Qed.

Lemma nombre_a_id_coherente_witness :
  Dict.get String.eqb (nombre_a_id Ejemplos.con_cuentas) "SALES" = Some 2.
Proof.
  apply (proj2 (nombre_a_id_coherente (upper:=Texto.upper_latin1)
                  Ejemplos.con_cuentas "SALES" 2 upper_latin1_idem
                  con_cuentas_alcanzable)).
  exists (mkCuenta 2 "SALES" "INGRESO").
  split; [right; left; reflexivity|split; reflexivity].
Defined.

(** ** The name dictionary after a restart *)

Lemma mapa_desde_cuentas (clave : Cuenta -> string) (cs : list Cuenta) :
  NoDup (map clave cs) ->
  fold_left (fun mapa c => Dict.set String.eqb mapa (clave c) (c_id c)) cs []
  = map (fun c => (clave c, c_id c)) cs.
Proof.
  assert (G : forall acc,
             NoDup (map fst acc ++ map clave cs) ->
             fold_left (fun mapa c => Dict.set String.eqb mapa (clave c) (c_id c))
                       cs acc
             = acc ++ map (fun c => (clave c, c_id c)) cs).
  { induction cs as [|c r IH]; simpl; intros acc Hnd.
    - symmetry. apply app_nil_r.
    - rewrite (DictFacts.set_nuevo String.eqb String.eqb_spec).
      + rewrite IH; [rewrite <- app_assoc; reflexivity|].
        rewrite map_app. simpl. rewrite <- app_assoc. exact Hnd.
      + apply NoDup_remove_2 in Hnd. intro Hin. apply Hnd.
        apply in_or_app. left. exact Hin. }
  intro Hnd. apply (G []). exact Hnd.
Qed.

(** X15: in every state reached through the backend with entries between
    existing accounts, the dictionary that [_generar_mapa_cuentas] would
    build from the registry at start-up resolves every name as the
    dictionary kept in memory does.  The case mapping is any idempotent
    one, as [str.upper] is. *)
Theorem generar_mapa_cuentas_coincide {upper : string -> string} (s : Estado)
    (n : string) :
  idempotente upper ->
  alcanzable upper s ->
  Dict.get String.eqb (_generar_mapa_cuentas upper s) n
  = Dict.get String.eqb (nombre_a_id s) n.
Proof.
  intros Hidem H. pose proof (alcanzable_integro s Hidem H) as I.
  destruct I as [_ _ I3 I4 _ _ _ _ I9 I10].
  unfold _generar_mapa_cuentas.
  set (cs := obtener_cuentas s).
  assert (Hperm : Permutation cs (Cuentas s))
    by (apply OrdenFacts.order_by_perm).
  assert (Hup : forall c, In c cs -> upper (c_nombre c) = c_nombre c).
  { intros c Hc. apply I4. exact (Permutation_in _ Hperm Hc). }
  assert (Hnd : NoDup (map (fun c => upper (c_nombre c)) cs)).
  { rewrite (map_ext_in _ c_nombre cs Hup).
    apply (Permutation_NoDup (Permutation_map c_nombre (Permutation_sym Hperm))).
    exact I3. }
  rewrite (mapa_desde_cuentas _ cs Hnd).
  assert (Hnd' : NoDup (map fst (map (fun c => (upper (c_nombre c), c_id c))
                                     cs)))
    by (rewrite map_map; exact Hnd).
  assert (Hiff : forall id,
            Dict.get String.eqb
              (map (fun c => (upper (c_nombre c), c_id c)) cs) n = Some id
            <-> Dict.get String.eqb (nombre_a_id s) n = Some id).
  { intro id.
    rewrite (DictIn.get_iff_In String.eqb String.eqb_spec) by exact Hnd'.
    rewrite (DictIn.get_iff_In String.eqb String.eqb_spec) by exact I9.
    rewrite I10, in_map_iff. split.
    - intros [c [E Hc]]. exists c. injection E as E1 E2.
      rewrite (Hup c Hc) in E1.
      split; [exact (Permutation_in _ Hperm Hc)|auto].
    - intros [c [Hc [E1 E2]]]. exists c.
      assert (Hc' : In c cs) by exact (Permutation_in _ (Permutation_sym Hperm) Hc).
      rewrite (Hup c Hc'), E1, E2. auto. }
  set (g1 := Dict.get String.eqb
               (map (fun c => (upper (c_nombre c), c_id c)) cs) n) in *.
  set (g2 := Dict.get String.eqb (nombre_a_id s) n) in *.
  clearbody g1 g2.
  destruct g1 as [a|], g2 as [b|]; try reflexivity.
  - exact (proj2 (Hiff b) eq_refl).
  - exact (eq_sym (proj1 (Hiff a) eq_refl)).
  - exact (proj2 (Hiff b) eq_refl).
Qed.

Lemma generar_mapa_cuentas_coincide_witness :
  Dict.get String.eqb
    (_generar_mapa_cuentas Texto.upper_latin1 Ejemplos.con_cuentas) "RENT"
  = Some 3.
Proof.
  exact (generar_mapa_cuentas_coincide (upper:=Texto.upper_latin1)
           Ejemplos.con_cuentas "RENT" upper_latin1_idem
           con_cuentas_alcanzable).
Defined.

(** ** Creating and deleting an account *)

Lemma del_tras_set (d : list (string * Z)) (k : string) (v : Z) :
  ~ In k (map fst d) ->
  Dict.del String.eqb (Dict.set String.eqb d k v) k = d.
Proof.
  induction d as [|[k0 v0] r IH]; simpl; intro H.
  - rewrite String.eqb_refl. reflexivity.
  - destruct (String.eqb_spec k0 k) as [E|NE];
      [exfalso; apply H; left; exact E|].
    simpl. destruct (String.eqb_spec k0 k) as [E|_]; [contradiction|].
    f_equal. apply IH. intro Hin. apply H. right. exact Hin.
Qed.

(** X16: in a state reached through the backend with entries between
    existing accounts, deleting the account that [crear_cuenta] has just
    created gives back the store as it was, registry and name dictionary
    included.  The case mapping is any idempotent one, as [str.upper]
    is. *)
Theorem crear_eliminar_ida_vuelta {upper : string -> string}
    (nombre_dado tipo_dado : string) (s : Estado) :
  idempotente upper ->
  alcanzable upper s ->
  fst (snd (crear_cuenta upper nombre_dado tipo_dado s)) = true ->
  eliminar_cuenta upper (SQL.nuevo_rowid (map c_id (Cuentas s)))
                  (fst (crear_cuenta upper nombre_dado tipo_dado s))
  = (s, (true, Some MsgCuentaEliminada)).
Proof.
  intros Hidem Halc Hok. pose proof (alcanzable_integro s Hidem Halc) as I.
  set (n := upper (Texto.strip nombre_dado)).
  set (t := upper (Texto.strip tipo_dado)).
  set (id := SQL.nuevo_rowid (map c_id (Cuentas s))).
  assert (Hcasos : n <> "" /\ SQL.nombre_en_uso s n = false /\
                   fst (crear_cuenta upper nombre_dado tipo_dado s)
                   = mkEstado (Cuentas s ++ [mkCuenta id n t]) (Transacciones s)
                              (Dict.set String.eqb (nombre_a_id s) n id)).
  { revert Hok. unfold crear_cuenta. fold n. fold t.
    destruct (String.eqb_spec n ""); [discriminate|].
    destruct (en_lista t tipos_cuenta); [|discriminate].
    unfold SQL.insert_cuenta.
    destruct (SQL.nombre_en_uso s n); [simpl; discriminate|].
    intros _. auto. }
  destruct Hcasos as [Hn [Hu E1]]. rewrite E1.
  assert (Hclave : ~ In n (map fst (nombre_a_id s))).
  { intro H. apply in_map_iff in H. destruct H as [[k v] [E H]].
    simpl in E. subst k. apply (in_mapa upper s I) in H.
    destruct H as [c [Hc [Hcn _]]].
    assert (SQL.nombre_en_uso s n = true)
      by (apply nombre_en_uso_In; rewrite <- Hcn; apply in_map; exact Hc).
    congruence. }
  assert (Hviejas : forall c, In c (Cuentas s) -> (c_id c =? id) = false).
  { intros c Hc. apply Z.eqb_neq. intro E.
    apply (nuevo_rowid_nuevo (map c_id (Cuentas s))). fold id.
    rewrite <- E. apply in_map. exact Hc. }
  assert (Hrefs : SQL.count_transacciones_de
                    (mkEstado (Cuentas s ++ [mkCuenta id n t]) (Transacciones s)
                              (Dict.set String.eqb (nombre_a_id s) n id)) id = O).
  { apply count_transacciones_de_0. cbn [Transacciones]. intros u Hin.
    destruct (in_asientos upper s I u Hin) as [_ [_ [Hd [Hc _]]]].
    apply existe_cuenta_In in Hd, Hc.
    destruct Hd as [cd [Hcd Ed]], Hc as [cc [Hcc Ec]].
    pose proof (Hviejas cd Hcd) as Vd. pose proof (Hviejas cc Hcc) as Vc.
    apply Z.eqb_neq in Vd, Vc. split; congruence. }
  unfold eliminar_cuenta. rewrite Hrefs.
  unfold SQL.delete_cuenta, obtener_nombre_cuenta. rewrite Hrefs.
  cbn [Nat.ltb Nat.leb andb SQL.foreign_keys Cuentas Transacciones nombre_a_id].
  rewrite !filter_app.
  rewrite (sin_cuenta_filter_vacio_inv (Cuentas s) id)
    by apply nuevo_rowid_nuevo.
  rewrite (filter_todos (fun c => negb (c_id c =? id)) (Cuentas s))
    by (intros c Hc; rewrite (Hviejas c Hc); reflexivity).
  cbn [filter c_id app]. rewrite Z.eqb_refl.
  cbn [negb app c_nombre]. rewrite app_nil_r.
  apply String.eqb_neq in Hn. rewrite Hn.
  assert (Hup : upper n = n) by (unfold n; apply Hidem).
  rewrite Hup. cbn [negb andb].
  assert (Hmem : Dict.mem String.eqb (Dict.set String.eqb (nombre_a_id s) n id) n
                 = true).
  { unfold Dict.mem.
    rewrite (DictFacts.get_set_eq String.eqb String.eqb_spec). reflexivity. }
  rewrite Hmem, (del_tras_set _ _ _ Hclave).
  destruct s. reflexivity.
Qed.

Lemma crear_eliminar_ida_vuelta_witness :
  eliminar_cuenta Texto.upper_latin1 4
    (fst (crear_cuenta Texto.upper_latin1 "bank" "activo"
            Ejemplos.con_cuentas))
  = (Ejemplos.con_cuentas, (true, Some MsgCuentaEliminada)).
Proof.
  exact (crear_eliminar_ida_vuelta (upper:=Texto.upper_latin1) "bank" "activo"
           Ejemplos.con_cuentas upper_latin1_idem con_cuentas_alcanzable
           eq_refl).
Defined.

(** ** Bulk import against the invariants *)

Lemma Forall2_In_derecha {A B} (R : A -> B -> Prop) (l : list A) (l' : list B) :
  Forall2 R l l' -> forall y, In y l' -> exists x, In x l /\ R x y.
Proof.
  induction 1 as [|x y l l' Hxy _ IH]; intros z Hz; [contradiction|].
  destruct Hz as [<-|Hz].
  - exists x. split; [left; reflexivity|exact Hxy].
  - destruct (IH z Hz) as [x' [Hx' Hr]]. exists x'. split; [right|]; assumption.
Qed.

Lemma importar_conserva_bien_formado {upper : string -> string}
    (reloj : Z -> string) (lectura : Lectura)
    (s : Estado) :
  integro upper s -> bien_formado s ->
  bien_formado (fst (importar_transacciones_excel upper reloj lectura s)) /\
  Cuentas (fst (importar_transacciones_excel upper reloj lectura s)) = Cuentas s /\
  nombre_a_id (fst (importar_transacciones_excel upper reloj lectura s))
  = nombre_a_id s.
Proof.
  intros I Hbf. unfold importar_transacciones_excel.
  destruct lectura as [| |df]; try (split; [exact Hbf|split; reflexivity]).
  destruct (forallb _ required_cols); cbn [negb];
    [|split; [exact Hbf|split; reflexivity]].
  destruct (importar_filas_resultado (upper:=upper) reloj
              (en_lista "REF_DOC" (map (normalizar_columna upper) (columns df)))
              (en_lista "REF_BANCO" (map (normalizar_columna upper) (columns df)))
              (filas df) 0 s O [])
    as [nuevas [errs [H1 [H2 _]]]].
  rewrite H1.
  assert (G : bien_formado
                (mkEstado (Cuentas s) (Transacciones s ++ nuevas)
                          (nombre_a_id s))).
  { destruct Hbf as [B1 B2 B3]. split; cbn [Cuentas Transacciones];
      [exact B1|exact B2|].
    intros t Ht. apply in_app_or in Ht. destruct Ht as [Ht|Ht]; [auto|].
    destruct (Forall2_In_derecha _ _ _ H2 t Ht) as [row [_ [_ [_ [Hd Hc]]]]].
    apply (DictIn.get_iff_In String.eqb String.eqb_spec _ _ _ (in_mapa_claves upper s I))
      in Hd, Hc.
    apply (in_mapa upper s I) in Hd, Hc.
    destruct Hd as [cd [Hcd [_ Ed]]], Hc as [cc [Hcc [_ Ec]]].
    split; [rewrite <- Ed|rewrite <- Ec]; apply in_map; assumption. }
  destruct errs; cbn [fst app]; (split; [exact G|split; reflexivity]).
Qed.

(** X17: an import into a state reached through the backend with entries
    between existing accounts changes neither the registry nor the name
    dictionary, and afterwards every entry of the journal, imported or
    not, still names two existing accounts.  The case mapping is assumed
    idempotent, as [str.upper] is. *)
Theorem importacion_conserva_cuentas {upper : string -> string}
    (reloj : Z -> string) (lectura : Lectura) (s : Estado) :
  idempotente upper ->
  alcanzable upper s ->
  let s1 := fst (importar_transacciones_excel upper reloj lectura s) in
  Cuentas s1 = Cuentas s /\ nombre_a_id s1 = nombre_a_id s /\
  (forall t, In t (Transacciones s1) ->
             SQL.existe_cuenta s1 (cuenta_debito_id t) = true /\
             SQL.existe_cuenta s1 (cuenta_credito_id t) = true).
Proof.
  intros Hidem Halc s1.
  destruct (importar_conserva_bien_formado reloj lectura s
              (alcanzable_integro s Hidem Halc)
              (alcanzable_bien_formado s Halc))
    as [Hbf [Hc Hm]].
  fold s1 in Hbf, Hc, Hm.
  split; [exact Hc|]. split; [exact Hm|].
  intros t Ht. destruct (bf_refs s1 Hbf t Ht) as [Hd Hcr].
  split; apply existe_cuenta_ids; assumption.
Qed.

Lemma importacion_conserva_cuentas_witness :
  Cuentas (fst (importar_transacciones_excel Texto.upper_latin1
                  EjemploImportacion.reloj (Leido EjemploImportacion.hoja)
                  Ejemplos.con_cuentas))
  = Cuentas Ejemplos.con_cuentas.
Proof.
  exact (proj1
           (importacion_conserva_cuentas (upper:=Texto.upper_latin1)
              EjemploImportacion.reloj (Leido EjemploImportacion.hoja)
              Ejemplos.con_cuentas upper_latin1_idem
              con_cuentas_alcanzable)).
Defined.

(** X18: the import loop does not compare the two accounts of a row.  A
    row whose debit and credit names resolve to the same account, with a
    positive amount, is recorded as an entry that debits and credits that
    account, where [registrar_transaccion] refuses the same pair of ids. *)
Theorem importar_fila_misma_cuenta {upper : string -> string}
    (reloj : Z -> string) (rd rb : bool)
    (index : Z) (row : Fila) (s : Estado) (n_importadas : nat)
    (errores : list ErrorFila) (monto : Q) (id : Z) :
  MONTO row = MontoNumero monto -> (0 < monto)%Q ->
  Dict.get String.eqb (nombre_a_id s)
           (upper (Texto.strip (CUENTA_DEBITO row))) = Some id ->
  Dict.get String.eqb (nombre_a_id s)
           (upper (Texto.strip (CUENTA_CREDITO row))) = Some id ->
  id <> 0 ->
  (exists t,
     importar_fila upper reloj rd rb index row (s, n_importadas, errores)
     = (mkEstado (Cuentas s) (Transacciones s ++ [t]) (nombre_a_id s),
        S n_importadas, errores) /\
     cuenta_debito_id t = id /\ cuenta_credito_id t = id /\
     (t_monto t == monto)%Q) /\
  forall ahora descripcion ref_doc ref_banco,
    registrar_transaccion ahora descripcion id id monto ref_doc ref_banco s
    = (s, (false, Some MsgMismasCuentas)).
Proof.
  intros Hm Hpos Hd Hc Hid. split.
  - unfold importar_fila. rewrite Hm, Hd, Hc. simpl id_falsy.
    apply Z.eqb_neq in Hid. rewrite Hid.
    apply Qle_bool_false_iff in Hpos. rewrite Hpos.
    unfold SQL.insert_transaccion. cbn [andb SQL.foreign_keys].
    eexists. split; [reflexivity|]. simpl. repeat split.
  - intros. unfold registrar_transaccion. rewrite Z.eqb_refl. reflexivity.
Qed.

Lemma importar_fila_misma_cuenta_witness :
  exists t,
    importar_fila Texto.upper_latin1 EjemploImportacion.reloj false false 0
      (mkFila "traspaso" "cash" " Cash" (MontoNumero 5) None None)
      (Ejemplos.con_cuentas, O, [])
    = (mkEstado (Cuentas Ejemplos.con_cuentas) [t]
                (nombre_a_id Ejemplos.con_cuentas), 1%nat, []) /\
    cuenta_debito_id t = 1 /\ cuenta_credito_id t = 1.
Proof.
  destruct (proj1 (importar_fila_misma_cuenta (upper:=Texto.upper_latin1)
          EjemploImportacion.reloj
                     false false 0
                     (mkFila "traspaso" "cash" " Cash" (MontoNumero 5) None None)
                     Ejemplos.con_cuentas O [] 5 1
                     eq_refl eq_refl eq_refl eq_refl ltac:(discriminate)))
    as [t [H1 [H2 [H3 _]]]].
  exists t. split; [exact H1|]. split; assumption.
Defined.

(** ** Row numbers of the import errors *)

Lemma importar_fila_numero {upper : string -> string}
    reloj rd rb index row s k errs :
  nombre_a_id (fst (fst (importar_fila upper reloj rd rb index row (s, k, errs))))
  = nombre_a_id s /\
  map fila_de_error (snd (importar_fila upper reloj rd rb index row (s, k, errs)))
  = map fila_de_error errs
    ++ (if fila_rechazada upper (nombre_a_id s) row then [index + 2] else []).
Proof.
  unfold importar_fila, fila_rechazada.
  destruct (MONTO row) as [|monto|];
    try (cbn [fst snd]; rewrite map_app; split; reflexivity).
  destruct (id_falsy (Dict.get String.eqb (nombre_a_id s)
                        (upper (Texto.strip (CUENTA_DEBITO row)))));
    [cbn [fst snd orb]; rewrite map_app; split; reflexivity|].
  destruct (id_falsy (Dict.get String.eqb (nombre_a_id s)
                        (upper (Texto.strip (CUENTA_CREDITO row)))));
    [cbn [fst snd orb]; rewrite map_app; split; reflexivity|].
  destruct (Qle_bool monto 0);
    [cbn [fst snd orb]; rewrite map_app; split; reflexivity|].
  unfold SQL.insert_transaccion. cbn [andb SQL.foreign_keys fst snd orb].
  rewrite app_nil_r. split; reflexivity.
Qed.

Lemma importar_filas_numeros {upper : string -> string} reloj rd rb rows :
  forall index s k errs,
    map fila_de_error
        (snd (importar_filas upper reloj rd rb index rows (s, k, errs)))
    = map fila_de_error errs
      ++ map (fun i => i + 2) (indices_rechazadas upper (nombre_a_id s) index rows).
Proof.
  induction rows as [|row rest IH]; intros index s k errs.
  - simpl. rewrite app_nil_r. reflexivity.
  - cbn [importar_filas indices_rechazadas].
    destruct (importar_fila_numero (upper:=upper) reloj rd rb index row s k errs) as [Hm He].
    destruct (importar_fila upper reloj rd rb index row (s, k, errs))
      as [[s1 k1] errs1].
    cbn [fst snd] in Hm, He. rewrite IH, He, Hm, <- app_assoc.
    destruct (fila_rechazada upper (nombre_a_id s) row); reflexivity.
Qed.

(** X19: the error details of a partial import name, in sheet order, the
    rows that failed validation, each by its index plus 2 (the row of the
    spreadsheet under the header); only the first ten are kept. *)
Theorem importar_errores_numerados {upper : string -> string}
    (reloj : Z -> string) (df : DataFrame)
    (s : Estado) (registradas n_errores : nat) (detalle : list ErrorFila)
    (resto : option nat) :
  forallb (fun col => en_lista col (map (normalizar_columna upper) (columns df)))
          required_cols = true ->
  snd (importar_transacciones_excel upper reloj (Leido df) s)
  = (false, Some (MsgImportacionParcial registradas n_errores detalle resto)) ->
  map fila_de_error detalle
  = firstn 10 (map (fun i => i + 2)
                   (indices_rechazadas upper (nombre_a_id s) 0 (filas df))).
Proof.
  intros Hcols. unfold importar_transacciones_excel. rewrite Hcols.
  cbn [negb].
  pose proof (importar_filas_numeros (upper:=upper) reloj
                (en_lista "REF_DOC" (map (normalizar_columna upper) (columns df)))
                (en_lista "REF_BANCO" (map (normalizar_columna upper) (columns df)))
                (filas df) 0 s O []) as H.
  destruct (importar_filas upper _ _ _ 0 (filas df) (s, O, [])) as [[s1 k] errs].
  cbn [snd map app] in H.
  destruct errs as [|e errs]; [discriminate|].
  cbn [snd]. intros [= _ _ <- _].
  rewrite <- H. symmetry. apply firstn_map.
Qed.

(** X19 on the sheet of three rows: the rejected row has index 1 and is
    reported as row 3. *)
Lemma importar_errores_numerados_witness :
  map fila_de_error [FilaDebitoNoExiste 3 "BANK"] = [3].
Proof.
  exact (importar_errores_numerados (upper:=Texto.upper_latin1)
          EjemploImportacion.reloj
           EjemploImportacion.hoja Ejemplos.con_cuentas
           2 1 [FilaDebitoNoExiste 3 "BANK"] None eq_refl eq_refl).
Defined.

(** ** The entry form *)

Lemma combos_valor (cs : list Cuenta) (etiqueta : string) (id : Z) :
  forall acc,
    Dict.get String.eqb
      (fold_left (fun cuenta_map c =>
                    Dict.set String.eqb cuenta_map (nombre_display c) (c_id c))
                 cs acc) etiqueta = Some id ->
    (exists c, In c cs /\ c_id c = id)
    \/ Dict.get String.eqb acc etiqueta = Some id.
Proof.
  induction cs as [|c r IH]; simpl; intros acc H; [right; exact H|].
  destruct (IH _ H) as [[c' [Hc' E]]|H'].
  - left. exists c'. auto.
  - destruct (String.eqb_spec (nombre_display c) etiqueta) as [E|NE].
    + rewrite E in H'.
      rewrite (DictFacts.get_set_eq String.eqb String.eqb_spec) in H'.
      injection H' as <-. left. exists c. auto.
    + rewrite (DictFacts.get_set_ne String.eqb String.eqb_spec) in H'
        by exact NE.
      right. exact H'.
Qed.

Lemma combos_existe (s : Estado) (etiqueta : string) (id : Z) :
  Dict.get String.eqb (actualizar_combos_transaccion s) etiqueta = Some id ->
  SQL.existe_cuenta s id = true.
Proof.
  intro H. unfold actualizar_combos_transaccion in H.
  destruct (combos_valor _ _ _ _ H) as [[c [Hc E]]|H']; [|discriminate].
  apply existe_cuenta_In. exists c. split; [|exact E].
  unfold obtener_cuentas in Hc. apply OrdenFacts.order_by_In in Hc. exact Hc.
Qed.

(** X20: with the combo boxes filled from the current registry, the entry
    form either leaves the store untouched or hands
    [registrar_transaccion] a description field that is not empty, a
    positive amount and the ids of two accounts that exist, and keeps the
    store that call returns.  When the two ids differ the journal gains
    one entry, whose description is the field stripped, empty for a field
    of blanks.  A state reached through the backend stays so. *)
Theorem gui_registrar_transaccion_cuentas {upper : string -> string}
    (ahora descripcion : string) (monto : Q)
    (debito_nombre credito_nombre ref_doc ref_banco : string) (s : Estado) :
  let r := gui_registrar_transaccion (actualizar_combos_transaccion s)
             ahora descripcion monto debito_nombre credito_nombre
             ref_doc ref_banco s in
  (r = (s, AvisoDatosIncompletos) \/
   exists debito_id credito_id,
     SQL.existe_cuenta s debito_id = true /\
     SQL.existe_cuenta s credito_id = true /\
     descripcion <> "" /\ (0 < monto)%Q /\
     fst r = fst (registrar_transaccion ahora descripcion debito_id credito_id
                                        monto ref_doc ref_banco s) /\
     (debito_id <> credito_id ->
      Transacciones (fst r)
      = Transacciones s
        ++ [mkTransaccion (SQL.nuevo_rowid (map t_id (Transacciones s)))
                          ahora (Texto.strip descripcion)
                          debito_id credito_id monto
                          (strip_or_none ref_doc) (strip_or_none ref_banco)])) /\
  (alcanzable upper s -> alcanzable upper (fst r)).
Proof.
  intro r.
  assert (H : r = (s, AvisoDatosIncompletos) \/
              exists debito_id credito_id,
                SQL.existe_cuenta s debito_id = true /\
                SQL.existe_cuenta s credito_id = true /\
                descripcion <> "" /\ (0 < monto)%Q /\
                fst r = fst (registrar_transaccion ahora descripcion
                               debito_id credito_id monto ref_doc ref_banco s)).
  { subst r. unfold gui_registrar_transaccion.
    destruct (String.eqb_spec descripcion "") as [|Hdesc]; [left; reflexivity|].
    destruct (Dict.get String.eqb (actualizar_combos_transaccion s)
                       debito_nombre) as [d|] eqn:Ed; [|left; reflexivity].
    destruct (Dict.get String.eqb (actualizar_combos_transaccion s)
                       credito_nombre) as [c|] eqn:Ec;
      [|cbn [id_falsy orb]; rewrite orb_true_r; left; reflexivity].
    cbn [id_falsy orb].
    destruct (d =? 0); [left; reflexivity|].
    destruct (c =? 0); [left; reflexivity|]. cbn [orb].
    destruct (Qle_bool monto 0) eqn:Em; [left; reflexivity|].
    right. exists d, c.
    split; [exact (combos_existe s _ _ Ed)|].
    split; [exact (combos_existe s _ _ Ec)|].
    split; [exact Hdesc|]. split; [apply Qle_bool_false_iff; exact Em|].
    destruct (registrar_transaccion ahora descripcion d c monto ref_doc
                                    ref_banco s) as [s1 [exito mensaje]].
    destruct exito; reflexivity. }
  split.
  - destruct H as [H|[d [c [Hd [Hc [Hdesc [Hm E]]]]]]]; [left; exact H|].
    right. exists d, c.
    split; [exact Hd|]. split; [exact Hc|]. split; [exact Hdesc|].
    split; [exact Hm|]. split; [exact E|].
    intro Hne. rewrite E. unfold registrar_transaccion.
    apply Z.eqb_neq in Hne. rewrite Hne.
    apply Qle_bool_false_iff in Hm. rewrite Hm. reflexivity.
  - intro Halc. destruct H as [->|[d [c [Hd [Hc [_ [_ E]]]]]]]; [exact Halc|].
    rewrite E.
    exact (alcanzable_paso s
             (RegistrarTransaccion ahora descripcion d c monto ref_doc ref_banco)
             Halc (conj Hd Hc)).
Qed.

(** X20 on the scenario's chart: the form records the sale between the
    labels of CASH and SALES. *)
Lemma gui_registrar_transaccion_cuentas_witness :
  alcanzable Texto.upper_latin1
    (fst (gui_registrar_transaccion
            (actualizar_combos_transaccion Ejemplos.con_cuentas)
            "2024-01-01 10:00:00" "venta" 100 "CASH (ACTIVO)" "SALES (INGRESO)"
            "" "" Ejemplos.con_cuentas)).
Proof.
  exact (proj2 (gui_registrar_transaccion_cuentas (upper:=Texto.upper_latin1)
                  "2024-01-01 10:00:00" "venta" 100
                  "CASH (ACTIVO)" "SALES (INGRESO)" "" "" Ejemplos.con_cuentas)
           con_cuentas_alcanzable).
Defined.
